(** * Tic-Tac-Toe server: the room state machine and the protocol router

    A shallow embedding of [Room.py] and of the request handlers of
    [server.py], followed by the properties of the design document that
    were checked against them.

    Conventions of the embedding.
    - A Python [str] is a [string]; the frames handled here are ASCII text.
    - A socket is known to the server only through [getsockname] and
      [getpeername]: every comparison between connections goes through
      [is_same_socket].  The one exception is [Room.current_player], which
      is compared with [==], that is by object identity; see [Room].
    - A method that can raise returns an [option] ([None] is the
      [IndexError] of a list subscript); the handlers of the server live in
      a small state-and-exception monad [M] that also logs every [sendall].
    - One call of a handler is one atomic step: the interleaving of the
      worker processes is outside this model. *)

From Stdlib Require Import ZArith String Ascii List Bool Lia DecimalString.
From stdpp Require Import base tactics option list strings gmap.
Import ListNotations.

Local Open Scope string_scope.

(** ** Python helpers *)

(** [str(n)] for an [int]. *)
Definition py_str (z : Z) : string := NilZero.string_of_int (Z.to_int z).

(** [l[i]] subscript resolution on a sequence of length [len]: negative
    indices count from the end, anything else out of range raises. *)
Definition py_index (len : nat) (i : Z) : option nat :=
  if (0 <=? i)%Z && (i <? Z.of_nat len)%Z then Some (Z.to_nat i)
  else if (- Z.of_nat len <=? i)%Z && (i <? 0)%Z then Some (Z.to_nat (i + Z.of_nat len))
  else None.

(** ** Sockets *)

Definition Addr : Type := string * Z.

Record Socket : Type := mkSocket { getsockname : Addr; getpeername : Addr }.

#[global] Instance Socket_eq_dec : EqDecision Socket.
Proof. solve_decision. Defined.

Definition is_same_socket (socket1 socket2 : Socket) : bool :=
  bool_decide (getsockname socket1 = getsockname socket2)
  && bool_decide (getpeername socket1 = getpeername socket2).

(** ** Room.py *)

(** The board: [self.matrix], a list of rows.  [__init__] builds it 3 by 3
    and no method changes its shape, so reads such as [row[0]] or
    [self.matrix[2][col]] use the total lookup [!!!]; the write of
    [update_matrix], whose indices come from the peer, is checked. *)
Definition Matrix : Type := list (list Z).

(** [self.max_players] is set to 2 by [__init__] and never assigned again. *)
Definition max_players : nat := 2.

(** [current_player] holds the socket object of a player slot and is
    compared with [self.players[0]] by [==], which on sockets is object
    identity.  The field always aliases [players[0]] or [players[1]] (it is
    only ever assigned from them, and pickling keeps the sharing), and the
    two slots hold distinct objects, so the model stores the index of the
    aliased slot: [current_player = 0] is [self.current_player ==
    self.players[0]]. *)
Record Room : Type := mkRoom {
  players : list Socket;
  viewers : list Socket;
  matrix : Matrix;
  current_player : nat;
  has_end : bool;
  status_code : string;
  has_began : bool
}.

Definition empty_matrix : Matrix :=
  [[0; 0; 0]; [0; 0; 0]; [0; 0; 0]]%Z.

(** [Room.__init__] *)
Definition Room_init (sender_socket : Socket) : Room :=
  {| players := [sender_socket];
     viewers := [];
     matrix := empty_matrix;
     current_player := 0;
     has_end := false;
     status_code := "3";
     has_began := false |}.

Definition set_matrix (r : Room) (m : Matrix) : Room :=
  {| players := players r; viewers := viewers r; matrix := m;
     current_player := current_player r; has_end := has_end r;
     status_code := status_code r; has_began := has_began r |}.

Definition set_current_player (r : Room) (slot : nat) : Room :=
  {| players := players r; viewers := viewers r; matrix := matrix r;
     current_player := slot; has_end := has_end r;
     status_code := status_code r; has_began := has_began r |}.

Definition set_ended (r : Room) (code : string) : Room :=
  {| players := players r; viewers := viewers r; matrix := matrix r;
     current_player := current_player r; has_end := true;
     status_code := code; has_began := has_began r |}.

Definition set_has_began (r : Room) : Room :=
  {| players := players r; viewers := viewers r; matrix := matrix r;
     current_player := current_player r; has_end := has_end r;
     status_code := status_code r; has_began := true |}.

Definition add_player (r : Room) (s : Socket) : Room :=
  {| players := players r ++ [s]; viewers := viewers r; matrix := matrix r;
     current_player := current_player r; has_end := has_end r;
     status_code := status_code r; has_began := has_began r |}.

Definition add_viewer (r : Room) (s : Socket) : Room :=
  {| players := players r; viewers := viewers r ++ [s]; matrix := matrix r;
     current_player := current_player r; has_end := has_end r;
     status_code := status_code r; has_began := has_began r |}.

(** [Room.join]: the reply, and the room as the call leaves it. *)
Definition join (r : Room) (mode : string) : string * Room :=
  if String.eqb mode "PLAYER" then
    if (length (players r) <? max_players)%nat then ("JOIN:ACKSTATUS:0", set_has_began r)
    else ("JOIN:ACKSTATUS:2", r)
  else ("JOIN:ACKSTATUS:0", r).

Definition get_status_code (r : Room) : string := status_code r.
Definition get_has_began (r : Room) : bool := has_began r.
Definition get_has_end (r : Room) : bool := has_end r.

(** [m[i][j]] for indices known to be in range. *)
Definition cell (m : Matrix) (i j : nat) : Z := (m !!! i) !!! j.

(** [a == b == c and a != 0] *)
Definition same_mark (a b c : Z) : bool :=
  (a =? b)%Z && (b =? c)%Z && negb (a =? 0)%Z.

Definition check_rows (m : Matrix) : bool :=
  existsb (fun row => same_mark (row !!! 0) (row !!! 1) (row !!! 2)) m.

Definition check_columns (m : Matrix) : bool :=
  existsb (fun col => same_mark (cell m 0 col) (cell m 1 col) (cell m 2 col)) [0; 1; 2].

Definition check_diagonals (m : Matrix) : bool :=
  if same_mark (cell m 0 0) (cell m 1 1) (cell m 2 2) then true
  else if same_mark (cell m 0 2) (cell m 1 1) (cell m 2 0) then true
  else false.

(** [all(0 not in row for row in self.matrix)] *)
Definition is_board_full (m : Matrix) : bool :=
  forallb (fun row => negb (existsb (Z.eqb 0) row)) m.

(** [Room.check_end_status] *)
Definition check_end_status (r : Room) : Room :=
  if check_rows (matrix r) || check_columns (matrix r) || check_diagonals (matrix r)
  then set_ended r "0"
  else if is_board_full (matrix r) then set_ended r "1"
  else r.

(** [Room.get_matrix_in_string] *)
Definition get_matrix_in_string (r : Room) : string :=
  String.concat "" (map py_str (concat (matrix r))).

(** [Room.get_current_player] *)
Definition get_current_player (r : Room) : option Socket :=
  _ ← players r !! 0;
  if (current_player r =? 0)%nat then players r !! 0 else players r !! 1.

(** [Room.get_next_turn_player] *)
Definition get_next_turn_player (r : Room) : option Socket :=
  _ ← players r !! 0;
  if (current_player r =? 0)%nat then players r !! 1 else players r !! 0.

(** [self.matrix[row][column] = mark] *)
Definition matrix_set (m : Matrix) (row column : Z) (mark : Z) : option Matrix :=
  i ← py_index (length m) row;
  line ← m !! i;
  j ← py_index (length line) column;
  Some (<[i := <[j := mark]> line]> m).

(** [Room.update_matrix].  The mark is written before [self.players[1]] is
    read; when that read raises, the caller never stores the room, so the
    half-done write is not observable. *)
Definition update_matrix (r : Room) (row column : Z) : option Room :=
  _ ← players r !! 0;
  if (current_player r =? 0)%nat then
    m ← matrix_set (matrix r) row column 1;
    _ ← players r !! 1;
    Some (check_end_status (set_current_player (set_matrix r m) 1))
  else
    m ← matrix_set (matrix r) row column 2;
    Some (check_end_status (set_current_player (set_matrix r m) 0)).

(** [Room.update] *)
Definition update (r : Room) (sender_socket : Socket) (mode : string) : Room :=
  if String.eqb mode "PLAYER" then
    if (length (players r) <? max_players)%nat
    then set_has_began (add_player r sender_socket)
    else r
  else if String.eqb mode "VIEWER" then add_viewer r sender_socket
  else r.

(** [Room.get_another_player]: the [while i<2] scan, unrolled. *)
Definition get_another_player (r : Room) (sender_socket : Socket) : option Socket :=
  p0 ← players r !! 0;
  if is_same_socket p0 sender_socket then players r !! 1
  else
    p1 ← players r !! 1;
    if is_same_socket p1 sender_socket then players r !! 0
    else players r !! 0.

Definition able_to_add_player (r : Room) : bool :=
  (length (players r) <? max_players)%nat.

Definition in_room_as_a_player (r : Room) (sender_socket : Socket) : bool :=
  existsb (fun player_socket => is_same_socket player_socket sender_socket) (players r).

(** ** Text of a frame *)

(** [str.isspace] on an ASCII character. *)
Definition is_space (c : ascii) : bool :=
  let n := nat_of_ascii c in
  ((9 <=? n)%nat && (n <=? 13)%nat) || ((28 <=? n)%nat && (n <=? 32)%nat).

Fixpoint py_lstrip (s : string) : string :=
  match s with
  | "" => ""
  | String c s' => if is_space c then py_lstrip s' else s
  end.

Fixpoint py_rstrip (s : string) : string :=
  match s with
  | "" => ""
  | String c s' =>
      match py_rstrip s' with
      | "" => if is_space c then "" else String c ""
      | t => String c t
      end
  end.

(** [s.strip()] *)
Definition py_strip (s : string) : string := py_lstrip (py_rstrip s).

(** [s.split(":")] *)
Fixpoint py_split (s : string) : list string :=
  match s with
  | "" => [""]
  | String c s' =>
      if Ascii.eqb c ":" then "" :: py_split s'
      else match py_split s' with
           | field :: rest => String c field :: rest
           | [] => [String c ""]
           end
  end.

Definition is_digit (c : ascii) : bool :=
  let n := nat_of_ascii c in (48 <=? n)%nat && (n <=? 57)%nat.

Definition digit_value (c : ascii) : Z := Z.of_nat (nat_of_ascii c) - 48.

(** The digits of an [int] literal: single underscores are allowed between
    two digits. *)
Fixpoint py_digits (s : string) (acc : Z) (after_digit : bool) : option Z :=
  match s with
  | "" => if after_digit then Some acc else None
  | String c s' =>
      if is_digit c then py_digits s' (10 * acc + digit_value c)%Z true
      else if Ascii.eqb c "_" && after_digit then
        match s' with
        | String c' _ => if is_digit c' then py_digits s' acc false else None
        | "" => None
        end
      else None
  end.

(** [int(s)] on ASCII text; [None] is [ValueError].  (The interpreter's cap
    on the number of digits is not modelled.) *)
Definition py_int (s : string) : option Z :=
  match py_strip s with
  | String "+" t => py_digits t 0 false
  | String "-" t => Z.opp <$> py_digits t 0 false
  | t => py_digits t 0 false
  end.

(** ** Dictionaries

    [rooms] is keyed by room name: an insertion-ordered dictionary, whose
    order the router's scan of [rooms.keys()] observes.  [clients] and
    [authenticated_clients] are keyed by socket objects, which hash by
    identity; every key that reaches the shared dictionary is a fresh
    object, so an assignment [d[socket] = v] always adds an entry and the
    code finds entries by scanning with [is_same_socket]. *)

Fixpoint dict_get {V : Type} (k : string) (d : list (string * V)) : option V :=
  match d with
  | [] => None
  | (k', v) :: d' => if String.eqb k' k then Some v else dict_get k d'
  end.

Fixpoint dict_set {V : Type} (k : string) (v : V) (d : list (string * V)) : list (string * V) :=
  match d with
  | [] => [(k, v)]
  | (k', v') :: d' =>
      if String.eqb k' k then (k', v) :: d' else (k', v') :: dict_set k v d'
  end.

(** [{k: v for k, v in d.items() if k != name}] *)
Definition dict_without {V : Type} (name : string) (d : list (string * V)) : list (string * V) :=
  List.filter (fun kv => negb (String.eqb kv.1 name)) d.

(** [{k: v for k, v in d.items() if not is_same_socket(k, s)}] *)
Definition without_socket {V : Type} (s : Socket) (d : list (Socket * V)) : list (Socket * V) :=
  List.filter (fun kv => negb (is_same_socket kv.1 s)) d.

(** ** State of the server and the handler monad *)

Record State : Type := mkState {
  clients : list (Socket * option string);
  authenticated_clients : list (Socket * string);
  users : gmap string string;
  rooms : list (string * Room)
}.

Definition with_clients (st : State) (c : list (Socket * option string)) : State :=
  {| clients := c; authenticated_clients := authenticated_clients st;
     users := users st; rooms := rooms st |}.

Definition with_authenticated_clients (st : State) (a : list (Socket * string)) : State :=
  {| clients := clients st; authenticated_clients := a;
     users := users st; rooms := rooms st |}.

Definition with_users (st : State) (u : gmap string string) : State :=
  {| clients := clients st; authenticated_clients := authenticated_clients st;
     users := u; rooms := rooms st |}.

Definition with_rooms (st : State) (r : list (string * Room)) : State :=
  {| clients := clients st; authenticated_clients := authenticated_clients st;
     users := users st; rooms := r |}.

Inductive Exn : Type :=
  IndexError | KeyError | ValueError | UnboundLocalError | AttributeError.

(** One [socket.sendall(message.encode('utf-8'))]. *)
Definition Send : Type := Socket * string.

(** What a handler does from a state: it returns, it raises (the state and
    the messages are those reached when the exception left the handler), or
    it spins in the turn-wait loop. *)
Inductive Res (A : Type) : Type :=
| Ret (a : A) (st : State) (out : list Send)
| Raise (e : Exn) (st : State) (out : list Send)
| Spin.
Arguments Ret {A} a st out.
Arguments Raise {A} e st out.
Arguments Spin {A}.

Definition M (A : Type) : Type := State → list Send → Res A.

#[global] Instance M_ret : MRet M := λ A a st out, Ret a st out.

#[global] Instance M_bind : MBind M := λ A B f m st out,
  match m st out with
  | Ret a st' out' => f a st' out'
  | Raise e st' out' => Raise e st' out'
  | Spin => Spin
  end.

Definition raise {A : Type} (e : Exn) : M A := λ st out, Raise e st out.
Definition spin {A : Type} : M A := λ _ _, Spin.
Definition get_state : M State := λ st out, Ret st st out.
Definition put_state (st : State) : M unit := λ _ out, Ret tt st out.
Definition modify (f : State → State) : M unit := λ st out, Ret tt (f st) out.

(** Nothing to do. *)
Definition pass : M unit := mret tt.

(** A value whose computation may raise [e]. *)
Definition or_raise {A : Type} (e : Exn) (o : option A) : M A :=
  match o with Some a => mret a | None => raise e end.

Definition sendall (s : Socket) (message : string) : M unit :=
  λ st out, Ret tt st (out ++ [(s, message)])%list.

(** [Room.send_to_all_viewers] *)
Definition send_to_all_viewers (r : Room) (message : string) : M unit :=
  λ st out, Ret tt st (out ++ map (λ viewer, (viewer, message)) (viewers r))%list.

(** A computation that may read the state but neither changes it nor
    sends. *)
Definition pure {A : Type} (m : M A) : Prop :=
  ∀ st out, (∃ a, m st out = Ret a st out) ∨ (∃ e, m st out = Raise e st out).

(** Run a handler from a state with an empty log. *)
Definition run {A : Type} (m : M A) (st : State) : Res A := m st [].

(** [rooms[roomname]] *)
Definition room_at (roomname : string) : M Room :=
  st ← get_state; or_raise KeyError (dict_get roomname (rooms st)).

(** ** server.py *)

(** [check_authorizations] *)
Definition check_authorizations (sender_socket : Socket)
    (auth : list (Socket * string)) : bool :=
  existsb (λ kv, is_same_socket kv.1 sender_socket) auth.

(** [get_key_by_value] *)
Definition get_key_by_value (d : list (Socket * string)) (value : string) : option Socket :=
  fst <$> List.find (λ kv, String.eqb kv.2 value) d.

(** [check_legal_room_name]: [re.match(r'^[a-zA-Z0-9 _-]{1,20}$', room_name)].
    In Python [$] matches at the end of the string and also just before a
    newline that ends the string. *)
Definition legal_char (c : ascii) : bool :=
  let n := nat_of_ascii c in
  ((97 <=? n)%nat && (n <=? 122)%nat) || ((65 <=? n)%nat && (n <=? 90)%nat)
  || ((48 <=? n)%nat && (n <=? 57)%nat)
  || Ascii.eqb c " " || Ascii.eqb c "_" || Ascii.eqb c "-".

Fixpoint all_legal (s : string) : bool :=
  match s with
  | "" => true
  | String c s' => legal_char c && all_legal s'
  end.

Definition legal_body (s : string) : bool :=
  (1 <=? String.length s)%nat && (String.length s <=? 20)%nat && all_legal s.

Fixpoint drop_final_newline (s : string) : string :=
  match s with
  | "" => ""
  | String c "" => if Ascii.eqb c "010" then "" else s
  | String c s' => String c (drop_final_newline s')
  end.

Definition check_legal_room_name (room_name : string) : bool :=
  legal_body room_name || legal_body (drop_final_newline room_name).

(** The scan that binds a display name to each of two sockets:
[[
    for user in authenticated_clients.values():
        if is_same_socket(get_key_by_value(authenticated_clients, user), first):
            player_1 = user
        elif is_same_socket(get_key_by_value(authenticated_clients, user), second):
            player_2 = user
]]
    [None] is the [AttributeError] of a failed reverse lookup; an unbound
    name is [None] inside the pair. *)
Fixpoint name_players (auth : list (Socket * string)) (values : list string)
    (first second : Socket) (names : option string * option string)
    : option (option string * option string) :=
  match values with
  | [] => Some names
  | user :: rest =>
      k ← get_key_by_value auth user;
      if is_same_socket k first then name_players auth rest first second (Some user, names.2)
      else if is_same_socket k second then name_players auth rest first second (names.1, Some user)
      else name_players auth rest first second names
  end.

(** The scan of [place] that binds [winner]. *)
Fixpoint name_winner (auth : list (Socket * string)) (values : list string)
    (r : Room) (winner : option string) : M (option string) :=
  match values with
  | [] => mret winner
  | user :: rest =>
      next ← or_raise IndexError (get_next_turn_player r);
      k ← or_raise AttributeError (get_key_by_value auth user);
      name_winner auth rest r (if is_same_socket k next then Some user else winner)
  end.

(** The scan of [forfeit], which appends every match to the message. *)
Fixpoint append_winner (auth : list (Socket * string)) (values : list string)
    (r : Room) (board_status : string) : M string :=
  match values with
  | [] => mret board_status
  | user :: rest =>
      next ← or_raise IndexError (get_next_turn_player r);
      k ← or_raise AttributeError (get_key_by_value auth user);
      append_winner auth rest r
        (if is_same_socket k next then board_status +:+ user else board_status)
  end.

(** The tail shared by [place] (on a finished game), [forfeit] and the
    disconnect path: both players leave the room in [clients], and the room
    leaves [rooms]. *)
Definition close_room (sender_socket : Socket) (roomname : string) : M unit :=
  r ← room_at roomname;
  another ← or_raise IndexError (get_another_player r sender_socket);
  st ← get_state;
  let new_clients :=
    (List.filter (λ kv, negb (is_same_socket kv.1 sender_socket)
                        && negb (is_same_socket kv.1 another)) (clients st)
     ++ [(sender_socket, None); (another, None)])%list in
  modify (λ st, with_clients st new_clients);;
  modify (λ st, with_rooms st (dict_without roomname (rooms st))).

(** [forfeit] *)
Definition forfeit (sender_socket : Socket) (roomname : string) : M unit :=
  r ← room_at roomname;
  st ← get_state;
  board_status ← append_winner (authenticated_clients st)
                   (map snd (authenticated_clients st)) r
                   ("GAMEEND:" +:+ get_matrix_in_string r +:+ ":2:");
  sendall sender_socket board_status;;
  another_player ← or_raise IndexError (get_another_player r sender_socket);
  sendall another_player board_status;;
  send_to_all_viewers r board_status;;
  close_room sender_socket roomname.

(** [place] *)
Definition place (splited_message : list string) (sender_socket : Socket)
    (roomname : string) : M unit :=
  row_text ← or_raise IndexError (splited_message !! 2);
  row ← or_raise ValueError (py_int row_text);
  column_text ← or_raise IndexError (splited_message !! 1);
  column ← or_raise ValueError (py_int column_text);
  r0 ← room_at roomname;
  r ← or_raise IndexError (update_matrix r0 row column);
  modify (λ st, with_rooms st (dict_set roomname r (rooms st)));;
  st ← get_state;
  board_status ←
    (if negb (get_has_end r) then mret ("BOARDSTATUS:" +:+ get_matrix_in_string r)
     else
       let status_code := get_status_code r in
       let board_status := "GAMEEND:" +:+ get_matrix_in_string r +:+ ":" +:+ status_code in
       if String.eqb status_code "0" then
         winner ← name_winner (authenticated_clients st)
                    (map snd (authenticated_clients st)) r None;
         winner ← or_raise UnboundLocalError winner;
         mret (board_status +:+ ":" +:+ winner)
       else mret board_status);
  sendall sender_socket board_status;;
  another_player ← or_raise IndexError (get_another_player r sender_socket);
  sendall another_player board_status;;
  send_to_all_viewers r board_status;;
  if get_has_end r then close_room sender_socket roomname else pass.

(** [join_room] *)
Definition join_room (splited_message : list string) (sender_socket : Socket) : M unit :=
  match splited_message with
  | [room_name; user_type] =>
      if negb (String.eqb user_type "VIEWER") && negb (String.eqb user_type "PLAYER")
      then sendall sender_socket "JOIN:ACKSTATUS:3"
      else
        st ← get_state;
        match dict_get room_name (rooms st) with
        | Some r0 =>
            let message_from_room := (join r0 user_type).1 in
            let r := update r0 sender_socket user_type in
            modify (λ st, with_rooms st (dict_set room_name r (rooms st)));;
            sendall sender_socket message_from_room;;
            st ← get_state;
            if String.eqb message_from_room "JOIN:ACKSTATUS:0"
               && String.eqb user_type "PLAYER" && negb (able_to_add_player r) then
              another_player ← or_raise IndexError (get_another_player r sender_socket);
              names ← or_raise AttributeError
                        (name_players (authenticated_clients st)
                           (map snd (authenticated_clients st))
                           another_player sender_socket (None, None));
              player_1 ← or_raise UnboundLocalError names.1;
              player_2 ← or_raise UnboundLocalError names.2;
              let begin_message := "BEGIN:" +:+ player_1 +:+ ":" +:+ player_2 in
              sendall another_player begin_message;;
              sendall sender_socket begin_message;;
              send_to_all_viewers r ("INPROGRESS:" +:+ player_1 +:+ ":" +:+ player_2);;
              modify (λ st, with_clients st
                              (without_socket sender_socket (clients st)
                               ++ [(sender_socket, Some room_name)])%list)
            else if String.eqb message_from_room "JOIN:ACKSTATUS:0"
                    && String.eqb user_type "VIEWER" && negb (able_to_add_player r) then
              current_player ← or_raise IndexError (get_current_player r);
              next_player ← or_raise IndexError (get_next_turn_player r);
              names ← or_raise AttributeError
                        (name_players (authenticated_clients st)
                           (map snd (authenticated_clients st))
                           current_player next_player (None, None));
              player_1 ← or_raise UnboundLocalError names.1;
              player_2 ← or_raise UnboundLocalError names.2;
              sendall sender_socket ("INPROGRESS:" +:+ player_1 +:+ ":" +:+ player_2)
            else pass
        | None => sendall sender_socket "JOIN:ACKSTATUS:1"
        end
  | _ => sendall sender_socket "JOIN:ACKSTATUS:3"
  end.

(** [create_room] *)
Definition create_room (splited_message : list string) (sender_socket : Socket) : M unit :=
  match splited_message with
  | [new_room_name] =>
      if check_legal_room_name new_room_name then
        st ← get_state;
        if bool_decide (is_Some (dict_get new_room_name (rooms st))) then
          sendall sender_socket "CREATE:ACKSTATUS:2"
        else if (length (rooms st) =? 256)%nat then
          sendall sender_socket "CREATE:ACKSTATUS:3"
        else
          sendall sender_socket "CREATE:ACKSTATUS:0";;
          modify (λ st, with_rooms st
                          (dict_set new_room_name (Room_init sender_socket) (rooms st)));;
          modify (λ st, with_clients st
                          (without_socket sender_socket (clients st)
                           ++ [(sender_socket, Some new_room_name)])%list)
      else sendall sender_socket "CREATE:ACKSTATUS:1"
  | _ => sendall sender_socket "CREATE:ACKSTATUS:4"
  end.

(** [room_list] *)
Definition room_list (splited_message : list string) (sender_socket : Socket) : M unit :=
  match splited_message with
  | [client_type] =>
      if negb (String.eqb client_type "PLAYER") && negb (String.eqb client_type "VIEWER")
      then sendall sender_socket "ROOMLIST:ACKSTATUS:1"
      else
        st ← get_state;
        let rooms_name_list :=
          if String.eqb client_type "VIEWER" then map fst (rooms st)
          else map fst (List.filter (λ kv, able_to_add_player kv.2) (rooms st)) in
        sendall sender_socket ("ROOMLIST:ACKSTATUS:0:" +:+ String.concat "," rooms_name_list)
  | _ => sendall sender_socket "ROOMLIST:ACKSTATUS:1"
  end.

Section Server.

(** The credential store: [bcrypt.checkpw] on a password and a stored hash,
    and [hash_password] (whose salt is the library's business). *)
Variable checkpw : string → string → bool.
Variable hash_password : string → string.

(** [login] *)
Definition login (splited_message : list string) (sender_socket : Socket) : M unit :=
  match splited_message with
  | [username; password] =>
      if String.eqb username "" || String.eqb password ""
      then sendall sender_socket "LOGIN:ACKSTATUS:3"
      else
        st ← get_state;
        match users st !! username with
        | Some hashed =>
            if checkpw password hashed then
              let username_logined :=
                existsb (String.eqb username) (map snd (authenticated_clients st)) in
              if username_logined then sendall sender_socket "LOGIN:ACKSTATUS:4"
              else if check_authorizations sender_socket (authenticated_clients st)
              then sendall sender_socket "LOGIN:ACKSTATUS:5"
              else
                sendall sender_socket "LOGIN:ACKSTATUS:0";;
                modify (λ st, with_authenticated_clients st
                                (authenticated_clients st ++ [(sender_socket, username)])%list)
            else sendall sender_socket "LOGIN:ACKSTATUS:2"
        | None => sendall sender_socket "LOGIN:ACKSTATUS:1"
        end
  | _ => sendall sender_socket "LOGIN:ACKSTATUS:3"
  end.

(** [register]; the rewrite of the database file is outside the model. *)
Definition register (splited_message : list string) (sender_socket : Socket) : M unit :=
  match splited_message with
  | [username; password] =>
      if String.eqb username "" || String.eqb password ""
      then sendall sender_socket "REGISTER:ACKSTATUS:2"
      else
        st ← get_state;
        if bool_decide (is_Some (users st !! username))
        then sendall sender_socket "REGISTER:ACKSTATUS:1"
        else
          modify (λ st, with_users st (<[username := hash_password password]> (users st)));;
          sendall sender_socket "REGISTER:ACKSTATUS:0"
  | _ => sendall sender_socket "REGISTER:ACKSTATUS:2"
  end.

(** [rooms[roomname].get_has_began() and
     is_same_socket(rooms[roomname].get_current_player(), sender_socket)] *)
Definition my_turn (roomname : string) (sender_socket : Socket) : M bool :=
  r ← room_at roomname;
  if get_has_began r then
    current ← or_raise IndexError (get_current_player r);
    mret (is_same_socket current sender_socket)
  else mret false.

(** The turn-wait loop of [handle_message]: its guard is the negation of
    [my_turn], and its body breaks on [my_turn].  [fuel] bounds the number
    of iterations; a loop that is still running when it is used up is
    [Spin]. *)
Fixpoint wait_for_turn (fuel : nat) (roomname : string) (sender_socket : Socket) : M unit :=
  my_turn roomname sender_socket ≫= λ turn : bool,
  if turn then pass
  else match fuel with
       | 0 => spin
       | S fuel' =>
           my_turn roomname sender_socket ≫= λ turn : bool,
           if turn then pass else wait_for_turn fuel' roomname sender_socket
       end.

(** The scan of [rooms.keys()] that finds the sender's room: the last room
    in which the sender is a player. *)
Definition find_room (sender_socket : Socket) (rooms : list (string * Room)) : option string :=
  fold_left (λ roomname kv, if in_room_as_a_player kv.2 sender_socket then Some kv.1 else roomname)
            rooms None.

(** [handle_message] *)
Definition handle_message (fuel : nat) (sender_socket : Socket) (message : string) : M unit :=
  let splited_message := py_split message in
  let command := hd "" splited_message in
  if String.eqb command "LOGIN" then login (tl splited_message) sender_socket
  else if String.eqb command "REGISTER" then register (tl splited_message) sender_socket
  else
    st ← get_state;
    if negb (check_authorizations sender_socket (authenticated_clients st))
    then sendall sender_socket "BADAUTH"
    else if String.eqb command "ROOMLIST" then room_list (tl splited_message) sender_socket
    else if String.eqb command "CREATE" then create_room (tl splited_message) sender_socket
    else if String.eqb command "JOIN" then join_room (tl splited_message) sender_socket
    else
      match find_room sender_socket (rooms st) with
      | None => sendall sender_socket "NOROOM"
      | Some roomname =>
          r ← room_at roomname;
          if in_room_as_a_player r sender_socket then
            wait_for_turn fuel roomname sender_socket;;
            if String.eqb command "PLACE" then place splited_message sender_socket roomname
            else if String.eqb command "FORFEIT" then forfeit sender_socket roomname
            else pass
          else pass
      end.

(** One frame as [handle_client] reads it: decoded, stripped, routed. *)
Definition handle_frame (fuel : nat) (client_socket : Socket) (data : string) : M unit :=
  handle_message fuel client_socket (py_strip data).

(** The first line of [handle_client]: [clients[client_socket] = None]. *)
Definition accept (client_socket : Socket) : M unit :=
  modify (λ st, with_clients st (clients st ++ [(client_socket, None)])%list).

(** The scans of the [finally] block of [handle_client]. *)
Definition room_need_to_be_closed (client_socket : Socket)
    (clients : list (Socket * option string)) : option string :=
  fold_left (λ found kv, if is_same_socket kv.1 client_socket then kv.2 else found)
            clients None.

Definition winner_name_of (winner : Socket) (auth : list (Socket * string)) : option string :=
  fold_left (λ found kv, if is_same_socket kv.1 winner then Some kv.2 else found)
            auth None.

(** The [finally] block of [handle_client], run when the peer closes the
    connection and when a handler raises. *)
Definition disconnect (client_socket : Socket) : M unit :=
  modify (λ st, with_authenticated_clients st
                  (without_socket client_socket (authenticated_clients st)));;
  st ← get_state;
  match room_need_to_be_closed client_socket (clients st) with
  | Some roomname =>
      r ← room_at roomname;
      if negb (able_to_add_player r) && in_room_as_a_player r client_socket then
        winner ← or_raise IndexError (get_another_player r client_socket);
        winner_name ← or_raise UnboundLocalError
                        (winner_name_of winner (authenticated_clients st));
        let gameend_forfeit_message :=
          "GAMEEND:" +:+ get_matrix_in_string r +:+ ":2:" +:+ winner_name in
        sendall winner gameend_forfeit_message;;
        send_to_all_viewers r gameend_forfeit_message;;
        close_room client_socket roomname
      else if in_room_as_a_player r client_socket then
        send_to_all_viewers r "Room owner has quited.";;
        modify (λ st, with_rooms st (dict_without roomname (rooms st)))
      else pass
  | None => pass
  end;;
  modify (λ st, with_clients st (without_socket client_socket (clients st))).

(** ** Runs of the server *)

(** The state a handler leaves behind, whatever way it ended. *)
Definition state_after {A : Type} (res : Res A) (st : State) : State :=
  match res with
  | Ret _ st' _ => st'
  | Raise _ st' _ => st'
  | Spin => st
  end.

(** The messages a handler has sent. *)
Definition sent {A : Type} (res : Res A) : list Send :=
  match res with
  | Ret _ _ out => out
  | Raise _ _ out => out
  | Spin => []
  end.

(** One atomic step of the server: a connection is accepted, a frame is
    handled, or the [finally] block of a connection runs. *)
Inductive Event : Type :=
| Accept (client_socket : Socket)
| Frame (fuel : nat) (client_socket : Socket) (data : string)
| Disconnect (client_socket : Socket).

Definition handler (ev : Event) : M unit :=
  match ev with
  | Accept s => accept s
  | Frame fuel s data => handle_frame fuel s data
  | Disconnect s => disconnect s
  end.

Definition step (st : State) (ev : Event) : State :=
  state_after (run (handler ev) st) st.

Definition play (st : State) (events : list Event) : State :=
  fold_left step events st.

(** [main] starts from empty shared dictionaries and the users of the
    database file. *)
Definition initial (st : State) : Prop :=
  clients st = [] ∧ authenticated_clients st = [] ∧ rooms st = [].

Inductive reachable : State → Prop :=
| reachable_initial st : initial st → reachable st
| reachable_step st ev : reachable st → reachable (step st ev).

End Server.

(** ** client.py *)

Module Client.

(** [l[i]]: the subscript of a sequence; [None] is [IndexError]. *)
Definition py_subscript {A : Type} (l : list A) (i : Z) : option A :=
  n ← py_index (length l) i; l !! n.

(** [[list(board_status[i:i+3]) for i in range(0, 9, 3)]]: three rows of
    characters; a slice stops where the text does. *)
Definition board_of (board_status : string) : list (list ascii) :=
  map (λ i, list_ascii_of_string (substring i 3 board_status)) [0; 3; 6]%nat.

(** What the client writes on its terminal, and where. *)
Inductive Stream : Type := stdout | stderr.

Definition Printed : Type := Stream * string.

Inductive Error : Type := IndexError | KeyError | TypeError.

(** [is_position_occupied].  The outer [None] is the [IndexError] of a
    subscript; the inner [None] is the value [None] that the function
    returns when it falls off its last test. *)
Definition is_position_occupied (board_status : string) (col row : Z)
    : option (option (bool * option string)) :=
  line ← py_subscript (board_of board_status) row;
  position_value ← py_subscript line col;
  Some (if Ascii.eqb position_value "0" then Some (false, None)
        else if Ascii.eqb position_value "1" then Some (true, Some "X")
        else if Ascii.eqb position_value "2" then Some (true, Some "O")
        else None).

(** [symbols = {'0': ' ', '1': 'X', '2': 'O'}]; [None] is [KeyError]. *)
Definition symbols (cell : ascii) : option string :=
  if Ascii.eqb cell "0" then Some " "
  else if Ascii.eqb cell "1" then Some "X"
  else if Ascii.eqb cell "2" then Some "O"
  else None.

(** ["-" * 13] *)
Definition rule : string := "-------------".

(** The loop of [print_board]: the lines printed, and whether the loop
    ran to its end ([false]: a [KeyError] left it). *)
Fixpoint print_rows (board : list (list ascii)) : list string * bool :=
  match board with
  | [] => ([], true)
  | row :: rest =>
      match mapM symbols row with
      | Some cells =>
          let '(lines, finished) := print_rows rest in
          (("| " +:+ String.concat " | " cells +:+ " |") :: rule :: lines, finished)
      | None => ([], false)
      end
  end.

(** [print_board] *)
Definition print_board (board_status : string) : list string * bool :=
  let '(lines, finished) := print_rows (board_of board_status) in (rule :: lines, finished).

(** How a call ends: it returns, it leaves the program through
    [sys.exit], or it raises. *)
Inductive Outcome (A : Type) : Type :=
| Returned (a : A) (printed : list Printed)
| Exited (code : Z) (printed : list Printed)
| Failed (e : Error) (printed : list Printed).
Arguments Returned {A} a printed.
Arguments Exited {A} code printed.
Arguments Failed {A} e printed.

(** A value inside an f-string: [None] prints as its name. *)
Definition fmt (value : option string) : string := default "None" value.

(** [handle_outroom_message]: the flags [(waiting, your_turn, player)]. *)
Definition handle_outroom_message (received_message : string)
    (username user_type room_name : option string) : Outcome (bool * bool * bool) :=
  let splited_message := py_split received_message in
  let got message := String.eqb received_message message in
  let nothing := (false, false, false) in
  if got "BADAUTH" then
    Returned nothing [(stderr, "Error: You must be logged in to perform this action")]
  else if got "NOROOM" then Returned nothing [(stderr, "No Room")]
  else if got "LOGIN:ACKSTATUS:0" then
    Returned nothing [(stdout, "Welcome " +:+ fmt username)]
  else if got "LOGIN:ACKSTATUS:1" then
    Returned nothing [(stderr, "Error: User " +:+ fmt username +:+ " not found")]
  else if got "LOGIN:ACKSTATUS:2" then
    Returned nothing [(stderr, "Error: Wrong password for user " +:+ fmt username)]
  else if got "LOGIN:ACKSTATUS:3" then
    Returned nothing [(stderr, "Error: An invalid format message sent")]
  else if got "LOGIN:ACKSTATUS:4" then
    Returned nothing
      [(stderr, "Error: User " +:+ fmt username +:+ " is actively authenticated")]
  else if got "LOGIN:ACKSTATUS:5" then
    Returned nothing [(stderr, "Error: You have already loginned")]
  else if got "REGISTER:ACKSTATUS:0" then
    Returned nothing [(stdout, "Successfully created user account " +:+ fmt username)]
  else if got "REGISTER:ACKSTATUS:1" then
    Returned nothing [(stderr, "Error: User " +:+ fmt username +:+ " already exists")]
  else if got "REGISTER:ACKSTATUS:2" then
    Returned nothing [(stderr, "Error: An invalid format message sent")]
  else if String.eqb (hd "" splited_message) "ROOMLIST" then
    match splited_message !! 2%nat with
    | None => Failed IndexError []
    | Some code =>
        if String.eqb code "0" then
          let rooms := default "" (last splited_message) in
          Returned nothing
            [(stdout, "Room available to join as " +:+ fmt user_type +:+ ": " +:+ rooms)]
        else Returned nothing [(stderr, "Error: Please input a valid mode.")]
    end
  else if got "CREATE:ACKSTATUS:0" then
    Returned (true, true, true)
      [(stdout, "Successfully created room " +:+ fmt room_name);
       (stdout, "Waiting for other player...")]
  else if got "CREATE:ACKSTATUS:1" then
    Returned nothing [(stderr, "Error: Room " +:+ fmt room_name +:+ " is invalid")]
  else if got "CREATE:ACKSTATUS:2" then
    Returned nothing [(stderr, "Error: Room " +:+ fmt room_name +:+ " already exists")]
  else if got "CREATE:ACKSTATUS:3" then
    Returned nothing [(stderr, "Error: Server already contains a maximum of 256 rooms")]
  else if got "CREATE:ACKSTATUS:4" then
    Returned nothing [(stderr, "Error: An invalid format message sent")]
  else if got "JOIN:ACKSTATUS:0" then
    Returned (true, false, false)
      [(stdout, "Successfully joined room " +:+ fmt room_name +:+ " as a " +:+ fmt user_type)]
  else if got "JOIN:ACKSTATUS:1" then
    Returned nothing [(stderr, "Error: No room named " +:+ fmt room_name)]
  else if got "JOIN:ACKSTATUS:2" then
    Returned nothing
      [(stderr, "Error: The room " +:+ fmt room_name +:+ " already has 2 players")]
  else if got "JOIN:ACKSTATUS:3" then
    Returned nothing [(stderr, "Error: An invalid format message sent")]
  else if negb (got (String "010" "")) then
    Exited 0 [(stderr, "Unknown message received from server. Exiting...")]
  else Returned nothing [].




(** The board the client takes from a BOARDSTATUS or GAMEEND message in
    the in-room loop of [main]: [received_message.split(":")[1]] of the
    stripped text. *)
Definition received_board (data : string) : option string :=
  py_split (py_strip data) !! 1%nat.

End Client.

(** ** Notions of the design document *)

(** A board is 3 by 3 and holds the digits 0, 1 and 2. *)
Definition is_3x3 (m : Matrix) : Prop :=
  length m = 3 ∧ Forall (λ row, length row = 3) m.

Definition board_digits (m : Matrix) : Prop :=
  Forall (Forall (λ c, c = 0 ∨ c = 1 ∨ c = 2)%Z) m.

(** The 8 lines of a board: 3 rows, 3 columns, 2 diagonals. *)
Definition lines (m : Matrix) : list (list Z) :=
  [ [cell m 0 0; cell m 0 1; cell m 0 2];
    [cell m 1 0; cell m 1 1; cell m 1 2];
    [cell m 2 0; cell m 2 1; cell m 2 2];
    [cell m 0 0; cell m 1 0; cell m 2 0];
    [cell m 0 1; cell m 1 1; cell m 2 1];
    [cell m 0 2; cell m 1 2; cell m 2 2];
    [cell m 0 0; cell m 1 1; cell m 2 2];
    [cell m 0 2; cell m 1 1; cell m 2 0] ].

(** A line is uniformly non-Empty: its cells are equal and not Empty. *)
Definition uniform (line : list Z) : bool :=
  match line with
  | [] => false
  | c :: rest => negb (c =? 0)%Z && forallb (Z.eqb c) rest
  end.

Definition uniform_lines (m : Matrix) : nat :=
  length (List.filter uniform (lines m)).

(** No Empty cell remains. *)
Definition board_full (m : Matrix) : Prop :=
  ∀ i j, (i < 3)%nat → (j < 3)%nat → cell m i j ≠ 0%Z.

(** The outcomes of the end-state evaluation, read off the room that
    [check_end_status] leaves. *)
Definition is_win (r : Room) : Prop := has_end r = true ∧ status_code r = "0".
Definition is_draw (r : Room) : Prop := has_end r = true ∧ status_code r = "1".
Definition is_ongoing (r : Room) : Prop := has_end r = false.

(** The mark of a player slot. *)
Definition mark_of_slot (slot : nat) : Z := if (slot =? 0)%nat then 1%Z else 2%Z.


(** The cell a subscript pair addresses on a 3 by 3 board. *)
Definition addressed (i : Z) : nat := Z.to_nat (i mod 3).

(** The life of a room object: built by [__init__] for its creator, then
    changed only by [join], [update] and [update_matrix].  The index counts
    the placements made. *)
Inductive lifetime (creator : Socket) : nat → Room → Prop :=
| life_init : lifetime creator 0 (Room_init creator)
| life_join k r mode : lifetime creator k r → lifetime creator k (join r mode).2
| life_update k r s mode : lifetime creator k r → lifetime creator k (update r s mode)
| life_place k r row column r' :
    lifetime creator k r → update_matrix r row column = Some r' →
    lifetime creator (S k) r'.

(** The last character of a text, if it has one. *)
Fixpoint last_char (s : string) : option ascii :=
  match s with
  | "" => None
  | String c "" => Some c
  | String _ s' => last_char s'
  end.

(** A room name as the design document gives it: 1 to 20 characters of
    [[A-Za-z0-9 _-]]. *)
Definition spec_legal_room_name (name : string) : bool := legal_body name.







(** The invariant of the reachable states. *)
Definition room_ok (r : Room) : Prop :=
  has_end r = false
  ∧ (1 ≤ length (players r) ≤ 2)%nat
  ∧ (has_began r = true → length (players r) = 2).

Definition rooms_ok (d : list (string * Room)) : Prop :=
  Forall (λ kv, room_ok kv.2) d ∧ (length d ≤ 256)%nat.

(** No user name is bound twice, and no connection is bound twice. *)
Definition auth_ok (auth : list (Socket * string)) : Prop :=
  NoDup (map snd auth) ∧ NoDup (map fst auth).

Definition Inv (st : State) : Prop :=
  rooms_ok (rooms st) ∧ auth_ok (authenticated_clients st).

(** ** Further notions

    What the properties of the router, of the [finally] block and of the
    client are stated with. *)

(** The registry of a running server: room names are unique and well
    formed, and every room has lived the life of a room. *)
Definition registry_ok (d : list (string * Room)) : Prop :=
  NoDup (map fst d)
  ∧ Forall (λ kv, legal_body kv.1 = true ∧ ∃ creator k, lifetime creator k kv.2) d.

(** Every user name bound to a connection is a registered one, and not
    the empty name. *)
Definition bound_names_registered (st : State) : Prop :=
  ∀ k u, (k, u) ∈ authenticated_clients st → u ≠ "" ∧ is_Some (users st !! u).

(** The commands a client sends from the lobby. *)
Definition lobby_command (command : string) : Prop :=
  command = "LOGIN" ∨ command = "REGISTER" ∨ command = "ROOMLIST"
  ∨ command = "CREATE" ∨ command = "JOIN".

(** What the client shows for a cell: a blank, X for the mark of slot 0,
    O for the mark of slot 1. *)
Definition mark_symbol (c : Z) : string :=
  if (c =? 0)%Z then " " else if (c =? mark_of_slot 0)%Z then "X" else "O".

(** What the client's occupancy test answers for a cell. *)
Definition occupancy (c : Z) : bool * option string :=
  if (c =? 0)%Z then (false, None) else (true, Some (mark_symbol c)).

(** The flags [(waiting, your_turn, player)] with which the client leaves
    the lobby for a reply of the server. *)
Definition lobby_flags (message : string) : bool * bool * bool :=
  if String.eqb message "CREATE:ACKSTATUS:0" then (true, true, true)
  else if String.eqb message "JOIN:ACKSTATUS:0" then (true, false, false)
  else (false, false, false).

(** A reply that the client of the lobby understands. *)
Definition understood (s : Socket) (res : Res unit) : Prop :=
  ∃ message,
    hd_error (sent res) = Some (s, message)
    ∧ ∀ username user_type room_name,
        ∃ printed,
          Client.handle_outroom_message (py_strip message) username user_type room_name
          = Client.Returned (lobby_flags message) printed.

(** ** Sample data *)

Definition conn (port : Z) : Socket :=
  mkSocket ("10.0.0.1", 9000%Z) ("10.0.0.7", port).

Definition alice_socket : Socket := conn 40001.
Definition bob_socket : Socket := conn 40002.
Definition carol_socket : Socket := conn 40003.

(** A toy credential store: the stored hash is the password. *)
Definition toy_checkpw (password hashed : string) : bool := String.eqb password hashed.
Definition toy_hash (password : string) : string := password.

Definition sample_users : gmap string string :=
  list_to_map [("alice", "pa"); ("bob", "pb"); ("carol", "pc")].

Definition sample_auth : list (Socket * string) :=
  [(alice_socket, "alice"); (bob_socket, "bob"); (carol_socket, "carol")].

(** Room "r1": alice created it, bob joined as player, carol watches. *)
Definition sample_room (m : Matrix) (turn : nat) : Room :=
  {| players := [alice_socket; bob_socket];
     viewers := [carol_socket];
     matrix := m;
     current_player := turn;
     has_end := false;
     status_code := "3";
     has_began := true |}.

Definition sample_state (m : Matrix) (turn : nat) : State :=
  {| clients := [(carol_socket, None); (alice_socket, Some "r1"); (bob_socket, Some "r1")];
     authenticated_clients := sample_auth;
     users := sample_users;
     rooms := [("r1", sample_room m turn)] |}.

Definition start_state : State :=
  {| clients := []; authenticated_clients := []; users := sample_users; rooms := [] |}.

(** alice connects and logs in. *)
Definition opening : list Event :=
  [Accept alice_socket; Frame 0 alice_socket "LOGIN:alice:pa"].

(** The run that leads to [sample_state empty_matrix 0]. *)
Definition lobby : list Event :=
  [Accept alice_socket; Accept bob_socket; Accept carol_socket;
   Frame 0 alice_socket "LOGIN:alice:pa";
   Frame 0 bob_socket "LOGIN:bob:pb";
   Frame 0 carol_socket "LOGIN:carol:pc";
   Frame 0 alice_socket "CREATE:r1";
   Frame 0 carol_socket "JOIN:r1:VIEWER";
   Frame 0 bob_socket "JOIN:r1:PLAYER"].

(** alice takes the top row while bob plays the middle one. *)
Definition short_game : list Event :=
  [Frame 0 alice_socket "PLACE:0:0"; Frame 0 bob_socket "PLACE:0:1";
   Frame 0 alice_socket "PLACE:1:0"; Frame 0 bob_socket "PLACE:1:1";
   Frame 0 alice_socket "PLACE:2:0"].



(** A board on which the last mark completed a row and a column at once,
    and the eight placements that come before that mark. *)
Definition double_line_board : Matrix :=
  [[1; 1; 1]; [1; 2; 2]; [1; 2; 2]]%Z.

Definition double_line_game : list Event :=
  [Frame 0 alice_socket "PLACE:1:0"; Frame 0 bob_socket "PLACE:1:1";
   Frame 0 alice_socket "PLACE:2:0"; Frame 0 bob_socket "PLACE:2:1";
   Frame 0 alice_socket "PLACE:0:1"; Frame 0 bob_socket "PLACE:1:2";
   Frame 0 alice_socket "PLACE:0:2"; Frame 0 bob_socket "PLACE:2:2"].

(** A connection that never logs in. *)
Definition dave_socket : Socket := conn 40004.

(** The run of [lobby] up to the moment bob asks to join: alice waits
    alone in room "r1" and carol watches. *)
Definition waiting_room : list Event :=
  [Accept alice_socket; Accept bob_socket; Accept carol_socket;
   Frame 0 alice_socket "LOGIN:alice:pa";
   Frame 0 bob_socket "LOGIN:bob:pb";
   Frame 0 carol_socket "LOGIN:carol:pc";
   Frame 0 alice_socket "CREATE:r1";
   Frame 0 carol_socket "JOIN:r1:VIEWER"].

Definition waiting_state : State := play toy_checkpw toy_hash start_state waiting_room.

(** Room "r1" while alice waits in it. *)
Definition waiting_alone : Room := add_viewer (Room_init alice_socket) carol_socket.


(** * Properties *)

(** ** Boards *)

Lemma is_3x3_cells (m : Matrix) :
  is_3x3 m →
  ∃ a b c d e f g h i : Z, m = [[a; b; c]; [d; e; f]; [g; h; i]].
Proof.
  intros [Hlen Hrows].
  destruct m as [|r0 [|r1 [|r2 [|? ?]]]]; simplify_eq/=.
  repeat match goal with
         | H : Forall _ (_ :: _) |- _ => apply Forall_cons in H as [? H]
         end.
  destruct r0 as [|a [|b [|c [|? ?]]]]; simplify_eq/=.
  destruct r1 as [|d [|e [|f [|? ?]]]]; simplify_eq/=.
  destruct r2 as [|g [|h [|i [|? ?]]]]; simplify_eq/=.
  by exists a, b, c, d, e, f, g, h, i.
Qed.

Lemma same_mark_uniform (a b c : Z) : same_mark a b c = uniform [a; b; c].
Proof.
  unfold same_mark, uniform; simpl.
  destruct (Z.eqb_spec a b), (Z.eqb_spec b c), (Z.eqb_spec a c), (Z.eqb_spec a 0);
    simpl; congruence.
Qed.

Lemma filter_nonempty_existsb {A : Type} (f : A → bool) (l : list A) :
  (1 ≤ length (List.filter f l))%nat ↔ existsb f l = true.
Proof.
  induction l as [|x l IH]; simpl; [split; [lia | done]|].
  destruct (f x); simpl; [split; [done | lia] | done].
Qed.

Lemma filter_empty_existsb {A : Type} (f : A → bool) (l : list A) :
  length (List.filter f l) = 0%nat ↔ existsb f l = false.
Proof.
  induction l as [|x l IH]; simpl; [done|].
  destruct (f x); simpl; [split; done | done].
Qed.

(** The three scans of [check_end_status] together look at the 8 lines. *)
Lemma line_checks_lines (m : Matrix) :
  is_3x3 m →
  check_rows m || check_columns m || check_diagonals m = existsb uniform (lines m).
Proof.
  intros (a & b & c & d & e & f & g & h & i & ->)%is_3x3_cells.
  unfold check_rows, check_columns, check_diagonals, lines, cell.
  cbn -[uniform same_mark]. rewrite !same_mark_uniform.
  repeat match goal with
         | |- context [uniform ?l] => destruct (uniform l); cbn -[uniform]; try done
         end.
Qed.

Lemma is_board_full_spec (m : Matrix) :
  is_3x3 m → is_board_full m = true ↔ board_full m.
Proof.
  intros (a & b & c & d & e & f & g & h & i & ->)%is_3x3_cells.
  unfold is_board_full, board_full, cell; cbn -[Z.eqb].
  rewrite !andb_true_iff, !negb_true_iff, !orb_false_iff, !Z.eqb_neq. split.
  - intros H i0 j0 Hi Hj.
    destruct i0 as [|[|[|?]]]; try lia; destruct j0 as [|[|[|?]]]; try lia; simpl;
      intuition congruence.
  - intros H.
    pose proof (H 0 0)%nat. pose proof (H 0 1)%nat. pose proof (H 0 2)%nat.
    pose proof (H 1 0)%nat. pose proof (H 1 1)%nat. pose proof (H 1 2)%nat.
    pose proof (H 2 0)%nat. pose proof (H 2 1)%nat. pose proof (H 2 2)%nat.
    simpl in *. repeat split; try done; intros <-; intuition lia.
Qed.

(** C3 (as amended).  On a 3 by 3 board of a room that has not ended,
    [check_end_status] reports Win iff at least one of the 8 lines is
    uniformly non-Empty, Draw iff the board is full and no line is, and
    leaves the room Ongoing otherwise; the three outcomes are mutually
    exclusive and exhaustive. *)
Theorem check_end_status_outcome (r : Room) :
  is_3x3 (matrix r) → has_end r = false →
  (is_win (check_end_status r) ↔ (1 ≤ uniform_lines (matrix r))%nat)
  ∧ (is_draw (check_end_status r)
     ↔ board_full (matrix r) ∧ uniform_lines (matrix r) = 0%nat)
  ∧ (is_ongoing (check_end_status r)
     ↔ ¬ board_full (matrix r) ∧ uniform_lines (matrix r) = 0%nat)
  ∧ (is_win (check_end_status r) ∨ is_draw (check_end_status r)
     ∨ is_ongoing (check_end_status r))
  ∧ ¬ (is_win (check_end_status r) ∧ is_draw (check_end_status r))
  ∧ ¬ (is_win (check_end_status r) ∧ is_ongoing (check_end_status r))
  ∧ ¬ (is_draw (check_end_status r) ∧ is_ongoing (check_end_status r)).
Proof.
  intros Hshape Hend.
  unfold check_end_status, is_win, is_draw, is_ongoing, uniform_lines.
  rewrite line_checks_lines by done.
  pose proof (filter_nonempty_existsb uniform (lines (matrix r))) as Hsome.
  pose proof (filter_empty_existsb uniform (lines (matrix r))) as Hnone.
  pose proof (is_board_full_spec (matrix r) Hshape) as Hfull.
  destruct (existsb uniform (lines (matrix r))) eqn:Hline;
    cbn [set_ended has_end status_code matrix].
  - assert (length (List.filter uniform (lines (matrix r))) ≠ 0%nat)
      by (intros ?%Hnone; done).
    repeat split; try tauto; try (intros; intuition congruence).
  - assert (length (List.filter uniform (lines (matrix r))) = 0%nat) as Hzero
      by by apply Hnone.
    rewrite Hzero.
    destruct (is_board_full (matrix r)) eqn:Hfull';
      cbn [set_ended has_end status_code matrix]; rewrite ?Hend.
    + assert (board_full (matrix r)) by by apply Hfull.
      repeat split; try tauto; try lia; try (intros; intuition congruence).
    + assert (¬ board_full (matrix r)) by (intros ?%Hfull; done).
      repeat split; try tauto; try lia; try (intros; intuition congruence).
Qed.

(** ** Placements *)

Lemma py_index_3 (i : Z) :
  py_index 3 i = if ((-3 <=? i) && (i <=? 2))%Z then Some (addressed i) else None.
Proof.
  unfold py_index, addressed.
  destruct (Z.leb_spec 0 i), (Z.ltb_spec i (Z.of_nat 3)), (Z.leb_spec (-3) i),
    (Z.leb_spec i 2), (Z.leb_spec (- Z.of_nat 3) i), (Z.ltb_spec i 0);
    cbn [andb]; try lia; try done; do 2 f_equal.
  - rewrite Z.mod_small by lia. done.
  - apply (Z.mod_unique _ _ (-1)); lia.
Qed.

Lemma addressed_lt (i : Z) : (addressed i < 3)%nat.
Proof. unfold addressed. pose proof (Z.mod_pos_bound i 3). lia. Qed.

(** The write [self.matrix[row][column] = mark] on a 3 by 3 board. *)
Lemma matrix_set_3x3 (m : Matrix) (row column mark : Z) :
  is_3x3 m →
  match matrix_set m row column mark with
  | Some m' =>
      (-3 ≤ row ≤ 2)%Z ∧ (-3 ≤ column ≤ 2)%Z ∧ is_3x3 m'
      ∧ cell m' (addressed row) (addressed column) = mark
      ∧ ∀ i j, (i, j) ≠ (addressed row, addressed column) → cell m' i j = cell m i j
  | None => ¬ ((-3 ≤ row ≤ 2)%Z ∧ (-3 ≤ column ≤ 2)%Z)
  end.
Proof.
  intros (a & b & c & d & e & f & g & h & i & ->)%is_3x3_cells.
  unfold matrix_set. cbn [length]. rewrite py_index_3.
  destruct (Z.leb_spec (-3) row), (Z.leb_spec row 2); simpl; try lia.
  pose proof (addressed_lt row) as Hrow. pose proof (addressed_lt column) as Hcol.
  assert (∀ line : list Z, length line = 3%nat →
            py_index (length line) column
            = if ((-3 <=? column) && (column <=? 2))%Z then Some (addressed column) else None)
    as Hidx by (intros line ->; apply py_index_3).
  destruct (addressed row) as [|[|[|?]]] eqn:Hr; try lia; cbn [lookup list_lookup mbind option_bind];
    rewrite Hidx by done;
    destruct (Z.leb_spec (-3) column), (Z.leb_spec column 2); simpl; try lia;
    (split; [lia|]); (split; [lia|]);
    destruct (addressed column) as [|[|[|?]]] eqn:Hc; try lia;
    (split; [split; [done | repeat constructor]|]); (split; [done|]);
    intros [|[|[|?]]] [|[|[|?]]] Hne; try done.
Qed.

Lemma check_end_status_keeps (r : Room) :
  players (check_end_status r) = players r
  ∧ viewers (check_end_status r) = viewers r
  ∧ matrix (check_end_status r) = matrix r
  ∧ current_player (check_end_status r) = current_player r
  ∧ has_began (check_end_status r) = has_began r.
Proof. unfold check_end_status. by repeat case_match. Qed.

(** What a successful [update_matrix] did. *)
Lemma update_matrix_Some (r r' : Room) (row column : Z) :
  update_matrix r row column = Some r' →
  ∃ m',
    matrix_set (matrix r) row column (mark_of_slot (current_player r)) = Some m'
    ∧ r' = check_end_status
             (set_current_player (set_matrix r m')
                (if (current_player r =? 0)%nat then 1%nat else 0%nat))
    ∧ is_Some (players r !! 0%nat)
    ∧ (current_player r = 0%nat → is_Some (players r !! 1%nat)).
Proof.
  unfold update_matrix, mark_of_slot. intros H.
  destruct (players r !! 0%nat) as [p0|] eqn:Hp0; simplify_eq/=.
  destruct (Nat.eqb_spec (current_player r) 0) as [Hcur|Hcur].
  - destruct (matrix_set (matrix r) row column 1) as [m'|]; simplify_eq/=.
    destruct (players r !! 1%nat) as [p1|] eqn:Hp1; simplify_eq/=.
    exists m'. eauto.
  - destruct (matrix_set (matrix r) row column 2) as [m'|]; simplify_eq/=.
    exists m'. repeat split; eauto. done.
Qed.

Lemma update_matrix_fields (r r' : Room) (row column : Z) :
  update_matrix r row column = Some r' →
  players r' = players r ∧ viewers r' = viewers r ∧ has_began r' = has_began r
  ∧ current_player r' = (if (current_player r =? 0)%nat then 1%nat else 0%nat)
  ∧ matrix_set (matrix r) row column (mark_of_slot (current_player r)) = Some (matrix r').
Proof.
  intros (m' & Hset & -> & _)%update_matrix_Some.
  destruct (check_end_status_keeps
              (set_current_player (set_matrix r m')
                 (if (current_player r =? 0)%nat then 1%nat else 0%nat)))
    as (-> & -> & -> & -> & ->).
  done.
Qed.

(** The turn passes to the other slot on every placement. *)
Lemma update_matrix_flips (r r' : Room) (row column : Z) :
  update_matrix r row column = Some r' →
  get_current_player r' = get_next_turn_player r
  ∧ get_next_turn_player r' = get_current_player r
  ∧ current_player r' ≠ current_player r.
Proof.
  intros H. pose proof (update_matrix_Some _ _ _ _ H) as (_ & _ & _ & [p0 Hp0] & Hp1).
  apply update_matrix_fields in H as (Hpl & _ & _ & Hcur & _).
  unfold get_current_player, get_next_turn_player. rewrite Hpl, Hcur, Hp0. simpl.
  destruct (Nat.eqb_spec (current_player r) 0) as [H0|H0]; simpl; [|done].
  split; [done|]. split; [done | lia].
Qed.


(** ** The life of a room *)

Lemma matrix_set_digits (m m' : Matrix) (row column mark : Z) :
  matrix_set m row column mark = Some m' →
  board_digits m → (mark = 0 ∨ mark = 1 ∨ mark = 2)%Z → board_digits m'.
Proof.
  unfold matrix_set, board_digits. intros H Hm Hmark.
  destruct (py_index (length m) row) as [i|]; simplify_eq/=.
  destruct (m !! i) as [line|] eqn:Hline; simplify_eq/=.
  destruct (py_index (length line) column) as [j|]; simplify_eq/=.
  apply Forall_insert; [done|].
  apply Forall_insert; [|done].
  by eapply Forall_lookup_1.
Qed.

Lemma lifetime_invariant (creator : Socket) (k : nat) (r : Room) :
  lifetime creator k r →
  is_3x3 (matrix r) ∧ board_digits (matrix r)
  ∧ players r !! 0%nat = Some creator
  ∧ current_player r = (k mod 2)%nat
  ∧ (1 ≤ length (players r) ≤ 2)%nat
  ∧ (current_player r = 1%nat → length (players r) = 2%nat).
Proof.
  induction 1 as [|k r mode _ IH|k r s mode _ IH|k r row column r' _ IH Hup].
  - split_and!; try done; simpl; try lia; [split; [done|] |]; repeat constructor; auto.
  - unfold join. by repeat case_match.
  - destruct IH as (? & ? & Hp0 & ? & ? & ?).
    unfold update, max_players.
    destruct (String.eqb mode "PLAYER");
      [destruct (Nat.ltb_spec (length (players r)) 2)
      |destruct (String.eqb mode "VIEWER")]; simpl; try done.
    rewrite length_app; simpl.
    split_and!; try done; try lia. by apply lookup_app_l_Some.
  - destruct IH as (Hshape & Hdig & Hp0 & Hcur & Hlen & Hsecond).
    pose proof (update_matrix_Some _ _ _ _ Hup) as (_ & _ & _ & _ & Hp1).
    apply update_matrix_fields in Hup as (-> & _ & _ & -> & Hset).
    pose proof (matrix_set_3x3 (matrix r) row column
                  (mark_of_slot (current_player r)) Hshape) as Hm.
    rewrite Hset in Hm. destruct Hm as (_ & _ & Hshape' & _).
    assert (board_digits (matrix r')) as Hdig'.
    { eapply matrix_set_digits; [done | done |].
      unfold mark_of_slot. case_match; auto. }
    assert (k mod 2 < 2)%nat by (apply Nat.mod_upper_bound; lia).
    replace (S k) with (k + 1)%nat by lia.
    rewrite <- Nat.Div0.add_mod_idemp_l. rewrite <- Hcur.
    destruct (Nat.eqb_spec (current_player r) 0) as [H0|H0].
    + rewrite H0. simpl. split_and!; try done; try lia.
      intros _. destruct (Hp1 H0) as [p1 Hp1']. apply lookup_lt_Some in Hp1'. lia.
    + replace (current_player r) with 1%nat by lia. simpl.
      split_and!; try done; try lia.
Qed.

(** ** Sockets and dictionaries *)

Lemma is_same_socket_eq (s1 s2 : Socket) : is_same_socket s1 s2 = true ↔ s1 = s2.
Proof.
  unfold is_same_socket. rewrite andb_true_iff, !bool_decide_eq_true.
  destruct s1, s2; simpl. split; [intros [-> ->]; done | intros [= -> ->]; done].
Qed.

Lemma is_same_socket_refl (s : Socket) : is_same_socket s s = true.
Proof. by apply is_same_socket_eq. Qed.

Lemma is_same_socket_neq (s1 s2 : Socket) : is_same_socket s1 s2 = false ↔ s1 ≠ s2.
Proof.
  rewrite <- is_same_socket_eq. destruct (is_same_socket s1 s2); split; congruence.
Qed.

Lemma dict_get_set_eq {V : Type} (k : string) (v v0 : V) (d : list (string * V)) :
  dict_get k d = Some v0 → dict_get k (dict_set k v d) = Some v.
Proof.
  induction d as [|[k' v'] d IH]; simpl; [done|].
  destruct (String.eqb_spec k' k) as [->|Hne]; simpl.
  - by rewrite String.eqb_refl.
  - destruct (String.eqb_spec k' k); [done|]. done.
Qed.


Lemma dict_get_without_ne {V : Type} (k n : string) (d : list (string * V)) :
  n ≠ k → dict_get n (dict_without k d) = dict_get n d.
Proof.
  intros Hne. induction d as [|[k' v'] d IH]; simpl; [done|].
  destruct (String.eqb_spec k' k) as [->|?]; simpl.
  - destruct (String.eqb_spec k n); congruence.
  - by rewrite IH.
Qed.


Lemma dict_set_id {V : Type} (k : string) (v : V) (d : list (string * V)) :
  dict_get k d = Some v → dict_set k v d = d.
Proof.
  induction d as [|[k' v'] d IH]; simpl; [done|].
  destruct (String.eqb_spec k' k) as [->|?]; [by intros [= ->]|].
  intros H. by rewrite IH.
Qed.

Lemma dict_get_None {V : Type} (k : string) (d : list (string * V)) :
  dict_get k d = None ↔ k ∉ map fst d.
Proof.
  induction d as [|[k' v'] d IH]; simpl.
  - split; [intros _ H; by apply elem_of_nil in H | done].
  - rewrite not_elem_of_cons. destruct (String.eqb_spec k' k) as [->|?].
    + split; [done | intros [? _]; done].
    + rewrite IH. split; [intros ?; split; congruence | intros [_ ?]; done].
Qed.

Lemma dict_set_fresh {V : Type} (k : string) (v : V) (d : list (string * V)) :
  dict_get k d = None → dict_set k v d = (d ++ [(k, v)])%list.
Proof.
  induction d as [|[k' v'] d IH]; simpl; [done|].
  destruct (String.eqb_spec k' k); [done|]. intros H. by rewrite IH.
Qed.

Lemma dict_set_length {V : Type} (k : string) (v v0 : V) (d : list (string * V)) :
  dict_get k d = Some v0 → length (dict_set k v d) = length d.
Proof.
  induction d as [|[k' v'] d IH]; simpl; [done|].
  destruct (String.eqb_spec k' k); simpl; [done|]. intros H. by rewrite IH.
Qed.

Lemma with_rooms_id (st : State) : with_rooms st (rooms st) = st.
Proof. by destruct st. Qed.

(** ** Running handlers *)

Lemma wait_for_turn_outcome (fuel : nat) (roomname : string) (s : Socket) st out :
  wait_for_turn fuel roomname s st out
  = match dict_get roomname (rooms st) with
    | None => Raise KeyError st out
    | Some r =>
        if get_has_began r then
          match get_current_player r with
          | None => Raise IndexError st out
          | Some current => if is_same_socket current s then Ret tt st out else Spin
          end
        else Spin
    end.
Proof.
  assert (my_turn roomname s st out
          = match dict_get roomname (rooms st) with
            | None => Raise KeyError st out
            | Some r =>
                if get_has_began r then
                  match get_current_player r with
                  | None => Raise IndexError st out
                  | Some current => Ret (is_same_socket current s) st out
                  end
                else Ret false st out
            end) as Hturn.
  { unfold my_turn, room_at, mbind, M_bind, get_state; simpl.
    destruct (dict_get roomname (rooms st)) as [r|]; simpl; [|done].
    destruct (get_has_began r); simpl; [|done].
    by destruct (get_current_player r). }
  induction fuel as [|fuel IH]; simpl; unfold mbind, M_bind; rewrite Hturn;
    destruct (dict_get roomname (rooms st)) as [r|]; try done;
    destruct (get_has_began r); try done;
    try (destruct (get_current_player r) as [current|]; [|done];
         destruct (is_same_socket current s) eqn:Hs; [done|]); try done.
  - unfold mbind, M_bind. by rewrite Hturn.
  - unfold mbind, M_bind. by rewrite Hturn.
Qed.

Lemma name_winner_pure auth values r winner : pure (name_winner auth values r winner).
Proof.
  revert winner. induction values as [|user rest IH]; intros winner st out; simpl.
  - left. by eexists.
  - unfold mbind, M_bind.
    destruct (get_next_turn_player r) as [next|]; simpl; [|right; by eexists].
    destruct (get_key_by_value auth user) as [k|]; simpl; [|right; by eexists].
    apply IH.
Qed.

Lemma append_winner_pure auth values r board_status :
  pure (append_winner auth values r board_status).
Proof.
  revert board_status. induction values as [|user rest IH]; intros board_status st out; simpl.
  - left. by eexists.
  - unfold mbind, M_bind.
    destruct (get_next_turn_player r) as [next|]; simpl; [|right; by eexists].
    destruct (get_key_by_value auth user) as [k|]; simpl; [|right; by eexists].
    apply IH.
Qed.

(** [mstep] runs a handler symbolically and splits on every test and every
    lookup it meets, so that each way through the handler is left as a
    goal. *)
Ltac mstep :=
  repeat first
    [ progress unfold mbind, M_bind, mret, M_ret, room_at, or_raise, raise, pass, spin,
        modify, get_state, put_state, sendall, send_to_all_viewers, run
    | progress cbn [state_after sent rooms clients authenticated_clients users
                    with_rooms with_clients with_authenticated_clients with_users]
    | match goal with
      | |- context [name_winner ?a ?v ?r ?w ?st ?out] =>
          destruct (name_winner_pure a v r w st out) as [[? ->]|[? ->]]
      | |- context [append_winner ?a ?v ?r ?w ?st ?out] =>
          destruct (append_winner_pure a v r w st out) as [[? ->]|[? ->]]
      | |- context [match ?o with Some _ => _ | None => _ end] => destruct o eqn:?
      | |- context [if ?b then _ else _] => destruct b eqn:?
      end ].

(** [place] and the tail [close_room] touch no room but the one named. *)
Lemma close_room_frame (s : Socket) (roomname n : string) st out :
  n ≠ roomname →
  dict_get n (rooms (state_after (close_room s roomname st out) st)) = dict_get n (rooms st).
Proof.
  intros Hne. unfold close_room. mstep; try done.
  by apply dict_get_without_ne.
Qed.


Section Router.

Variable checkpw : string → string → bool.
Variable hash_password : string → string.

(** The router on a command other than LOGIN, REGISTER, ROOMLIST, CREATE
    and JOIN, sent by an authenticated connection. *)
Lemma handle_message_game (fuel : nat) (s : Socket) (message : string) st out :
  let command := hd "" (py_split message) in
  String.eqb command "LOGIN" = false → String.eqb command "REGISTER" = false →
  String.eqb command "ROOMLIST" = false → String.eqb command "CREATE" = false →
  String.eqb command "JOIN" = false →
  check_authorizations s (authenticated_clients st) = true →
  handle_message checkpw hash_password fuel s message st out
  = match find_room s (rooms st) with
    | None => Ret tt st (out ++ [(s, "NOROOM")])%list
    | Some roomname =>
        match dict_get roomname (rooms st) with
        | None => Raise KeyError st out
        | Some r =>
            if in_room_as_a_player r s then
              match wait_for_turn fuel roomname s st out with
              | Ret _ _ _ =>
                  if String.eqb command "PLACE" then place (py_split message) s roomname st out
                  else if String.eqb command "FORFEIT" then forfeit s roomname st out
                  else Ret tt st out
              | Raise e _ _ => Raise e st out
              | Spin => Spin
              end
            else Ret tt st out
        end
    end.
Proof.
  intros command H1 H2 H3 H4 H5 Hauth. unfold handle_message. fold command.
  rewrite H1, H2, H3, H4, H5.
  unfold mbind, M_bind, get_state. rewrite Hauth. cbn [negb].
  destruct (find_room s (rooms st)) as [roomname|]; [|done].
  unfold room_at, mbind, M_bind, get_state, or_raise.
  destruct (dict_get roomname (rooms st)) as [r|] eqn:Hr; [|done].
  cbn [mret M_ret]. destruct (in_room_as_a_player r s); [|done].
  rewrite wait_for_turn_outcome, Hr.
  destruct (get_has_began r); [|done].
  destruct (get_current_player r) as [current|]; [|done].
  destruct (is_same_socket current s); [|done].
  by repeat case_match.
Qed.


End Router.

(** ** The invariant *)

Lemma rooms_ok_without (d : list (string * Room)) (k : string) :
  rooms_ok d → rooms_ok (dict_without k d).
Proof.
  intros [Hrooms Hlen]. split.
  - unfold dict_without. rewrite Forall_forall in Hrooms |- *.
    intros kv [Hin _]%list_elem_of_In%filter_In. apply Hrooms. by apply list_elem_of_In.
  - unfold dict_without. pose proof (filter_length_le
      (λ kv : string * Room, negb (String.eqb kv.1 k)) d). lia.
Qed.

Lemma Forall_dict_set {V : Type} (P : string * V → Prop) k v (d : list (string * V)) :
  Forall P d → (∀ k', P (k', v)) → Forall P (dict_set k v d).
Proof.
  intros Hd Hv. induction Hd as [|[k' v'] d Hx Hd IH]; simpl.
  - constructor; [apply Hv | constructor].
  - destruct (String.eqb k' k); constructor; auto.
Qed.

Lemma rooms_ok_set (d : list (string * Room)) (k : string) (r r0 : Room) :
  rooms_ok d → dict_get k d = Some r0 → room_ok r → rooms_ok (dict_set k r d).
Proof.
  intros [Hrooms Hlen] Hk Hr. split.
  - by apply Forall_dict_set.
  - by erewrite dict_set_length.
Qed.

Lemma rooms_ok_new (d : list (string * Room)) (k : string) (r : Room) :
  rooms_ok d → dict_get k d = None → length d ≠ 256%nat → room_ok r →
  rooms_ok (dict_set k r d).
Proof.
  intros [Hrooms Hlen] Hk Hfull Hr. split.
  - by apply Forall_dict_set.
  - rewrite dict_set_fresh by done. rewrite length_app. simpl. lia.
Qed.

Lemma NoDup_map_filter {A B : Type} (f : A → B) (P : A → bool) (l : list A) :
  NoDup (map f l) → NoDup (map f (List.filter P l)).
Proof.
  induction l as [|x l IH]; simpl; [constructor|].
  intros [Hx Hl]%NoDup_cons.
  destruct (P x); simpl; [|by apply IH].
  apply NoDup_cons. split; [|by apply IH].
  intros Hin. apply Hx.
  apply list_elem_of_fmap in Hin as (y & -> & Hin).
  apply list_elem_of_In, filter_In in Hin as [Hin _].
  apply list_elem_of_fmap. exists y. split; [done | by apply list_elem_of_In].
Qed.

Lemma auth_ok_without (auth : list (Socket * string)) (s : Socket) :
  auth_ok auth → auth_ok (without_socket s auth).
Proof. intros [Hnames Hkeys]. split; by apply NoDup_map_filter. Qed.

Lemma existsb_eqb_elem_of (u : string) (l : list string) :
  existsb (String.eqb u) l = true ↔ u ∈ l.
Proof.
  rewrite existsb_exists. split.
  - intros (x & Hin & ->%String.eqb_eq). by apply list_elem_of_In.
  - intros Hin. exists u. split; [by apply list_elem_of_In | apply String.eqb_refl].
Qed.

Lemma check_authorizations_true (s : Socket) (auth : list (Socket * string)) :
  check_authorizations s auth = true ↔ s ∈ map fst auth.
Proof.
  unfold check_authorizations. rewrite existsb_exists. split.
  - intros ([k u] & Hin & Hs). simpl in Hs. apply is_same_socket_eq in Hs as ->.
    apply list_elem_of_fmap. exists (s, u). split; [done | by apply list_elem_of_In].
  - intros ([k u] & -> & Hin)%list_elem_of_fmap. exists (k, u).
    split; [by apply list_elem_of_In | apply is_same_socket_refl].
Qed.

Lemma auth_ok_append (auth : list (Socket * string)) (s : Socket) (u : string) :
  auth_ok auth →
  existsb (String.eqb u) (map snd auth) = false →
  check_authorizations s auth = false →
  auth_ok (auth ++ [(s, u)]).
Proof.
  intros [Hnames Hkeys] Hfree Hnew. split; rewrite map_app; simpl.
  - apply NoDup_app. split_and!; [done| |apply NoDup_singleton].
    intros x Hx ->%list_elem_of_singleton.
    apply existsb_eqb_elem_of in Hx. congruence.
  - apply NoDup_app. split_and!; [done| |apply NoDup_singleton].
    intros x Hx ->%list_elem_of_singleton.
    apply check_authorizations_true in Hx. congruence.
Qed.

Lemma rooms_ok_lookup (d : list (string * Room)) (k : string) (r : Room) :
  rooms_ok d → dict_get k d = Some r → room_ok r.
Proof.
  intros [Hrooms _]. induction Hrooms as [|[k' r'] d Hx Hd IH]; simpl; [done|].
  destruct (String.eqb k' k); [by intros [= <-] | done].
Qed.

Lemma room_ok_init (s : Socket) : room_ok (Room_init s).
Proof. split_and!; simpl; try done; lia. Qed.

Lemma room_ok_update (r : Room) (s : Socket) (mode : string) :
  room_ok r → room_ok (update r s mode).
Proof.
  intros (Hend & Hlen & Hbegan). unfold update, max_players.
  destruct (String.eqb mode "PLAYER");
    [destruct (Nat.ltb_spec (length (players r)) 2)
    |destruct (String.eqb mode "VIEWER")]; try done.
  split_and!; simpl; rewrite ?length_app; simpl; try done; lia.
Qed.

Lemma room_ok_update_matrix (r r' : Room) (row column : Z) :
  room_ok r → update_matrix r row column = Some r' → has_end r' = false → room_ok r'.
Proof.
  intros (Hend & Hlen & Hbegan) (Hpl & _ & Hb & _)%update_matrix_fields Hend'.
  split_and!; rewrite ?Hpl, ?Hb; try done; lia.
Qed.

(** ** Reverse lookups in [authenticated_clients] *)

Lemma get_key_by_value_is_Some (auth : list (Socket * string)) (u : string) :
  u ∈ map snd auth → is_Some (get_key_by_value auth u).
Proof.
  unfold get_key_by_value. induction auth as [|[k u'] auth IH]; simpl.
  - intros H. by apply elem_of_nil in H.
  - intros [->|Hin]%elem_of_cons.
    + rewrite String.eqb_refl. by eexists.
    + destruct (String.eqb u' u); [by eexists | by apply IH].
Qed.

Lemma get_key_by_value_NoDup (auth : list (Socket * string)) (k : Socket) (u : string) :
  NoDup (map snd auth) → (k, u) ∈ auth → get_key_by_value auth u = Some k.
Proof.
  unfold get_key_by_value. induction auth as [|[k' u'] auth IH]; simpl.
  - intros _ H. by apply elem_of_nil in H.
  - intros [Hu Hnd]%NoDup_cons [[= -> ->]|Hin]%elem_of_cons.
    + by rewrite String.eqb_refl.
    + destruct (String.eqb_spec u' u) as [->|Hne]; [|by apply IH].
      exfalso. apply Hu. apply list_elem_of_fmap. by exists (k, u).
Qed.

Lemma name_winner_found (auth : list (Socket * string)) (values : list string)
    (r : Room) (next : Socket) (winner : option string) :
  get_next_turn_player r = Some next →
  (∀ u, u ∈ values → is_Some (get_key_by_value auth u)) →
  is_Some winner
  ∨ (∃ u, u ∈ values ∧ get_key_by_value auth u = Some next) →
  ∃ w, ∀ st out, name_winner auth values r winner st out = Ret (Some w) st out.
Proof.
  intros Hnext. revert winner.
  induction values as [|user rest IH]; intros winner Hkeys Hfound; simpl.
  - destruct Hfound as [[w ->]|(u & Hin & _)]; [by exists w|].
    by apply elem_of_nil in Hin.
  - destruct (Hkeys user) as [k Hk]; [by left|].
    destruct (IH (if is_same_socket k next then Some user else winner)) as [w Hw].
    { intros u Hu; apply Hkeys; by right. }
    { destruct (is_same_socket k next) eqn:Hsame; [left; by eexists|].
      destruct Hfound as [?|(u & [->|Hin]%elem_of_cons & Hu)]; [by left| |right; eauto].
      rewrite Hk in Hu. injection Hu as ->. by rewrite is_same_socket_refl in Hsame. }
    exists w. intros st out. unfold mbind, M_bind. rewrite Hnext, Hk. simpl. apply Hw.
Qed.

(** The winner of a finished game is found whenever the player who is
    next to move in the stored room is authenticated. *)
Lemma name_winner_authenticated (auth : list (Socket * string)) (r : Room) (next : Socket) :
  NoDup (map snd auth) → get_next_turn_player r = Some next →
  check_authorizations next auth = true →
  ∃ w, ∀ st out, name_winner auth (map snd auth) r None st out = Ret (Some w) st out.
Proof.
  intros Hnames Hnext ([k u] & Hk & Hin)%check_authorizations_true%list_elem_of_fmap.
  simpl in Hk. subst k.
  apply (name_winner_found auth (map snd auth) r next None Hnext).
  - intros; by apply get_key_by_value_is_Some.
  - right. exists u. split; [apply list_elem_of_fmap; by exists (next, u)|].
    by apply get_key_by_value_NoDup.
Qed.

Lemma get_another_player_two (r : Room) (s : Socket) :
  length (players r) = 2%nat → is_Some (get_another_player r s).
Proof.
  unfold get_another_player. destruct (players r) as [|p0 [|p1 [|? ?]]]; try done.
  intros _. simpl. destruct (is_same_socket p0 s); simpl; [by eexists|].
  destruct (is_same_socket p1 s); by eexists.
Qed.

Lemma dict_without_set {V : Type} (k : string) (v : V) (d : list (string * V)) :
  is_Some (dict_get k d) → dict_without k (dict_set k v d) = dict_without k d.
Proof.
  unfold dict_without. induction d as [|[k' v'] d IH]; simpl; [by intros [? ?]|].
  destruct (String.eqb_spec k' k) as [->|Hne]; simpl.
  - by rewrite String.eqb_refl.
  - intros H. destruct (String.eqb_spec k' k); [done|]. simpl. by rewrite IH.
Qed.

(** ** Every handler keeps the invariant *)

(** [minv] is [mstep] followed by the rebuilding of the invariant at the
    state each way through the handler ends in. *)
Ltac minv :=
  repeat first
    [ progress mstep
    | match goal with
      | |- context [match ?l with [] => _ | _ :: _ => _ end] => destruct l eqn:?
      end ];
  try match goal with
      | H : Inv ?st |- Inv _ =>
          try exact H; destruct H as [? ?]; split;
          cbn [rooms clients authenticated_clients users
               with_rooms with_clients with_authenticated_clients with_users];
          eauto using rooms_ok_without, rooms_ok_set, rooms_ok_new,
            auth_ok_without, auth_ok_append, room_ok_init, room_ok_update,
            rooms_ok_lookup
      end.

Lemma accept_Inv (s : Socket) st out :
  Inv st → Inv (state_after (accept s st out) st).
Proof. intros. unfold accept. minv. Qed.

Lemma room_list_Inv (sm : list string) (s : Socket) st out :
  Inv st → Inv (state_after (room_list sm s st out) st).
Proof. intros. unfold room_list. minv. Qed.

Lemma close_room_Inv (s : Socket) (roomname : string) st out :
  Inv st → Inv (state_after (close_room s roomname st out) st).
Proof. intros. unfold close_room. minv. Qed.

Lemma forfeit_Inv (s : Socket) (roomname : string) st out :
  Inv st → Inv (state_after (forfeit s roomname st out) st).
Proof. intros. unfold forfeit, close_room. minv. Qed.

Lemma create_room_Inv (sm : list string) (s : Socket) st out :
  Inv st → Inv (state_after (create_room sm s st out) st).
Proof.
  intros. unfold create_room. minv.
  apply rooms_ok_new; auto using room_ok_init.
  - destruct (dict_get _ (rooms st)) eqn:Hk; [|done].
    match goal with H : bool_decide _ = false |- _ => apply bool_decide_eq_false in H end.
    exfalso. eauto.
  - by apply Nat.eqb_neq.
Qed.

Lemma join_room_Inv (sm : list string) (s : Socket) st out :
  Inv st → Inv (state_after (join_room sm s st out) st).
Proof. intros. unfold join_room. minv. Qed.

Lemma register_Inv hash_password (sm : list string) (s : Socket) st out :
  Inv st → Inv (state_after (register hash_password sm s st out) st).
Proof. intros. unfold register. minv. Qed.

Lemma login_Inv checkpw (sm : list string) (s : Socket) st out :
  Inv st → Inv (state_after (login checkpw sm s st out) st).
Proof. intros. unfold login. minv. Qed.

Lemma disconnect_Inv (s : Socket) st out :
  Inv st → Inv (state_after (disconnect s st out) st).
Proof. intros. unfold disconnect, close_room. minv. Qed.

(** [mrun] runs a handler along the one way the hypotheses determine. *)
Ltac mrun :=
  repeat first
    [ progress unfold mbind, M_bind, mret, M_ret, room_at, or_raise, raise, pass, spin,
        modify, get_state, put_state, sendall, send_to_all_viewers, run
    | progress cbn [state_after sent rooms clients authenticated_clients users
                    with_rooms with_clients with_authenticated_clients with_users negb]
    | match goal with
      | H : ∀ st out, name_winner ?a ?v ?r ?w st out = _
        |- context [name_winner ?a ?v ?r ?w ?st ?out] => rewrite (H st out)
      | H : ∀ st out, append_winner ?a ?v ?r ?w st out = _
        |- context [append_winner ?a ?v ?r ?w ?st ?out] => rewrite (H st out)
      | H : ?x = _ |- context [match ?x with _ => _ end] => rewrite H
      | H : dict_get ?k ?d = Some _
        |- context [dict_get ?k (dict_set ?k ?v ?d)] =>
          rewrite (dict_get_set_eq k v _ d H)
      end ].

(** A placement that ends the game runs to the end of [place]: the winner
    is the sender, whom the router has checked to be authenticated, and the
    room is deleted in the same step. *)
Lemma place_Inv (sm : list string) (s : Socket) (roomname : string) (r0 : Room) st out :
  Inv st →
  dict_get roomname (rooms st) = Some r0 →
  get_has_began r0 = true →
  get_current_player r0 = Some s →
  check_authorizations s (authenticated_clients st) = true →
  Inv (state_after (place sm s roomname st out) st).
Proof.
  intros HI Hr0 Hbegan Hcur Hauth.
  pose proof HI as [Hrooms [Hnames Hkeys]].
  pose proof (rooms_ok_lookup _ _ _ Hrooms Hr0) as Hok0.
  unfold place.
  destruct (sm !! 2%nat) as [row_text|] eqn:?; [|by mrun].
  destruct (py_int row_text) as [row|] eqn:?; [|by mrun].
  destruct (sm !! 1%nat) as [column_text|] eqn:?; [|by mrun].
  destruct (py_int column_text) as [column|] eqn:?; [|by mrun].
  destruct (update_matrix r0 row column) as [r|] eqn:Hup; [|by mrun].
  pose proof (update_matrix_fields _ _ _ _ Hup) as (Hpl & _ & Hb & _ & _).
  pose proof (update_matrix_flips _ _ _ _ Hup) as (_ & Hnext & _).
  rewrite Hcur in Hnext.
  assert (length (players r) = 2%nat) as Hlen.
  { rewrite Hpl. by apply Hok0. }
  destruct (get_another_player_two r s Hlen) as [another Hanother].
  destruct (name_winner_authenticated _ _ _ Hnames Hnext Hauth) as [w Hw].
  unfold get_has_end.
  destruct (has_end r) eqn:Hend.
  - destruct (String.eqb (get_status_code r) "0") eqn:Hcode; unfold close_room; mrun;
      (split; [|done]); cbn [rooms with_rooms with_clients];
      rewrite dict_without_set by eauto; by apply rooms_ok_without.
  - mrun. split; [|done]. cbn [rooms with_rooms].
    eapply rooms_ok_set; eauto using room_ok_update_matrix.
Qed.

Section Reachable.

Variable checkpw : string → string → bool.
Variable hash_password : string → string.

Lemma handle_message_Inv (fuel : nat) (s : Socket) (message : string) st out :
  Inv st →
  Inv (state_after (handle_message checkpw hash_password fuel s message st out) st).
Proof.
  intros HI.
  destruct (String.eqb (hd "" (py_split message)) "LOGIN") eqn:H1.
  { unfold handle_message. rewrite H1. by apply login_Inv. }
  destruct (String.eqb (hd "" (py_split message)) "REGISTER") eqn:H2.
  { unfold handle_message. rewrite H1, H2. by apply register_Inv. }
  destruct (check_authorizations s (authenticated_clients st)) eqn:Hauth.
  2:{ unfold handle_message. rewrite H1, H2.
      unfold mbind, M_bind, get_state. by rewrite Hauth. }
  destruct (String.eqb (hd "" (py_split message)) "ROOMLIST") eqn:H3.
  { unfold handle_message. rewrite H1, H2, H3.
    unfold mbind, M_bind, get_state. rewrite Hauth. by apply room_list_Inv. }
  destruct (String.eqb (hd "" (py_split message)) "CREATE") eqn:H4.
  { unfold handle_message. rewrite H1, H2, H3, H4.
    unfold mbind, M_bind, get_state. rewrite Hauth. by apply create_room_Inv. }
  destruct (String.eqb (hd "" (py_split message)) "JOIN") eqn:H5.
  { unfold handle_message. rewrite H1, H2, H3, H4, H5.
    unfold mbind, M_bind, get_state. rewrite Hauth. by apply join_room_Inv. }
  rewrite handle_message_game by done.
  destruct (find_room s (rooms st)) as [roomname|]; [|done].
  destruct (dict_get roomname (rooms st)) as [r|] eqn:Hr; [|done].
  destruct (in_room_as_a_player r s); [|done].
  rewrite wait_for_turn_outcome, Hr.
  destruct (get_has_began r) eqn:Hbegan; [|done].
  destruct (get_current_player r) as [current|] eqn:Hcur; [|done].
  destruct (is_same_socket current s) eqn:Hsame; [|done].
  apply is_same_socket_eq in Hsame as ->.
  destruct (String.eqb (hd "" (py_split message)) "PLACE").
  { by eapply place_Inv. }
  destruct (String.eqb (hd "" (py_split message)) "FORFEIT"); [|done].
  by apply forfeit_Inv.
Qed.

Lemma step_Inv (st : State) (ev : Event) :
  Inv st → Inv (step checkpw hash_password st ev).
Proof.
  intros HI. unfold step, run. destruct ev as [s|fuel s data|s]; cbn [handler].
  - by apply accept_Inv.
  - by apply handle_message_Inv.
  - by apply disconnect_Inv.
Qed.

Lemma reachable_Inv (st : State) : reachable checkpw hash_password st → Inv st.
Proof.
  induction 1 as [st (_ & Hauth & Hrooms)|st ev _ IH].
  - unfold Inv, rooms_ok, auth_ok. rewrite Hauth, Hrooms. simpl.
    split_and!; [constructor | lia | constructor | constructor].
  - by apply step_Inv.
Qed.

End Reachable.

(** ** Joining *)

(** C6.  Through every sequence of [join], [update] and [update_matrix]
    calls a room holds at most 2 players; and once it holds 2, a PLAYER
    join is answered JOIN:ACKSTATUS:2 and changes nothing: the joiner is
    not added and the state of the server is the one before. *)
Theorem room_never_exceeds_two_players (creator : Socket) (k : nat) (r : Room) :
  lifetime creator k r →
  (length (players r) ≤ 2)%nat
  ∧ (length (players r) = 2%nat →
     ∀ (st : State) (n : string) (s : Socket),
       dict_get n (rooms st) = Some r →
       (join r "PLAYER").1 = "JOIN:ACKSTATUS:2"
       ∧ update r s "PLAYER" = r
       ∧ run (join_room [n; "PLAYER"] s) st = Ret tt st [(s, "JOIN:ACKSTATUS:2")]).
Proof.
  intros Hlife. pose proof (lifetime_invariant _ _ _ Hlife) as (_ & _ & _ & _ & Hlen & _).
  split; [lia|]. intros Hfull st n s Hr.
  assert ((join r "PLAYER").1 = "JOIN:ACKSTATUS:2") as Hjoin.
  { unfold join, max_players. rewrite Hfull. done. }
  assert (update r s "PLAYER" = r) as Hupdate.
  { unfold update, max_players. rewrite Hfull. done. }
  split_and!; [done|done|].
  unfold join_room. cbn [String.eqb Ascii.eqb Bool.eqb negb andb].
  mrun. rewrite Hjoin, Hupdate.
  rewrite (dict_set_id _ _ _ Hr), with_rooms_id. done.
Qed.

(** ** The board string *)


Lemma lifetime_fresh (creator : Socket) (k : nat) (r : Room) :
  lifetime creator k r → k = 0%nat →
  matrix r = empty_matrix ∧ has_end r = false ∧ current_player r = 0%nat.
Proof.
  induction 1 as [|k r mode _ IH|k r s mode _ IH|k r row column r' _ IH Hup]; intros Hk.
  - done.
  - unfold join. by repeat case_match; apply IH.
  - unfold update. by repeat case_match; apply IH.
  - done.
Qed.



Section Scenario.

Variable checkpw : string → string → bool.
Variable hash_password : string → string.



End Scenario.

(** ** Who moves, and with which mark *)


(** ** Frames *)

Lemma last_char_is_Some (c : ascii) (s : string) : is_Some (last_char (String c s)).
Proof.
  revert c. induction s as [|c' s IH]; intros c; [by eexists|].
  change (last_char (String c (String c' s))) with (last_char (String c' s)). apply IH.
Qed.

Lemma last_char_cons (c : ascii) (s : string) :
  last_char (String c s) = match last_char s with Some c' => Some c' | None => Some c end.
Proof.
  destruct s as [|c' s']; [done|].
  change (last_char (String c (String c' s'))) with (last_char (String c' s')).
  by destruct (last_char_is_Some c' s') as [x ->].
Qed.

Lemma last_char_None (s : string) : last_char s = None ↔ s = "".
Proof.
  split; [|by intros ->].
  induction s as [|c s IH]; [done|]. rewrite last_char_cons.
  by destruct (last_char s).
Qed.

(** What [strip] leaves does not end in white space. *)
Lemma py_rstrip_last (s : string) (c : ascii) :
  last_char (py_rstrip s) = Some c → is_space c = false.
Proof.
  revert c. induction s as [|c0 s IH]; intros c; [done|]. simpl.
  destruct (py_rstrip s) as [|c1 t] eqn:Ht.
  - destruct (is_space c0) eqn:Hsp; [done|]. by intros [= <-].
  - rewrite last_char_cons. intros H. apply IH.
    destruct (last_char_is_Some c1 t) as [x Hx]. by rewrite Hx in H |- *.
Qed.

Lemma py_lstrip_last (s : string) (c : ascii) :
  last_char (py_lstrip s) = Some c → last_char s = Some c.
Proof.
  induction s as [|c0 s IH]; [done|]. cbn [py_lstrip].
  destruct (is_space c0); [|done].
  intros H%IH. rewrite last_char_cons. by rewrite H.
Qed.

Lemma py_strip_last (s : string) (c : ascii) :
  last_char (py_strip s) = Some c → is_space c = false.
Proof. intros H%py_lstrip_last. by eapply py_rstrip_last. Qed.

Lemma py_split_nonempty (s : string) : py_split s ≠ [].
Proof.
  induction s as [|c s IH]; [done|]. simpl.
  destruct (Ascii.eqb c ":"); [done|]. by destruct (py_split s).
Qed.

Lemma py_split_single (s field : string) : py_split s = [field] → field = s.
Proof.
  revert field. induction s as [|c0 s IH]; intros field; simpl; [by intros [= <-]|].
  pose proof (py_split_nonempty s) as Hne.
  destruct (Ascii.eqb c0 ":"); [intros [= _ ?]; done|].
  destruct (py_split s) as [|f0 rest]; [done|].
  intros [= <- ->]. by rewrite (IH f0 eq_refl).
Qed.

(** The last field of a frame ends as the frame does. *)
Lemma py_split_last (s field : string) (c : ascii) :
  last (py_split s) = Some field → last_char field = Some c → last_char s = Some c.
Proof.
  revert field. induction s as [|c0 s IH]; intros field; cbn [py_split]; [by intros [= <-]|].
  pose proof (py_split_nonempty s) as Hne.
  destruct (Ascii.eqb c0 ":").
  - rewrite last_cons.
    destruct (last (py_split s)) as [f|] eqn:Hl; [|by apply last_None in Hl].
    intros [= <-] Hc. rewrite last_char_cons. by rewrite (IH _ eq_refl Hc).
  - destruct (py_split s) as [|f0 rest] eqn:Hs; [done|].
    destruct rest as [|f1 rest].
    + intros [= <-]. by rewrite (py_split_single _ _ Hs).
    + rewrite last_cons. intros Hl Hc. rewrite last_char_cons.
      rewrite (IH field); [done| |done].
      rewrite last_cons.
      destruct (last (f1 :: rest)) eqn:Hl'; [done|]. by apply last_None in Hl'.
Qed.

Lemma drop_final_newline_id (s : string) :
  last_char s ≠ Some "010"%char → drop_final_newline s = s.
Proof.
  induction s as [|c s IH]; [done|]. destruct s as [|c' s'].
  - simpl. destruct (Ascii.eqb_spec c "010") as [->|]; [intros H; by destruct H | done].
  - intros H. change (drop_final_newline (String c (String c' s')))
      with (String c (drop_final_newline (String c' s'))).
    by rewrite IH.
Qed.

(** On the last field of a stripped frame the pattern check of the code
    and the 1-to-20-legal-characters reading of the document agree. *)
Lemma check_legal_room_name_frame (data name : string) :
  last (py_split (py_strip data)) = Some name →
  check_legal_room_name name = spec_legal_room_name name.
Proof.
  intros Hlast. unfold check_legal_room_name, spec_legal_room_name.
  rewrite drop_final_newline_id; [by destruct (legal_body name)|].
  intros Hnl. pose proof (py_split_last _ _ _ Hlast Hnl) as H%py_strip_last. done.
Qed.

Lemma dict_get_is_Some {V : Type} (k : string) (d : list (string * V)) :
  is_Some (dict_get k d) ↔ k ∈ map fst d.
Proof.
  pose proof (dict_get_None k d) as H. destruct (dict_get k d) eqn:Hk.
  - split; [intros _|by eexists]. destruct (decide (k ∈ map fst d)); [done|].
    assert (Some v = None) by by apply H. done.
  - split; [by intros [? ?]|]. intros Hin. exfalso. by apply H.
Qed.

(** ** Forfeits *)

Lemma NoDup_keys_inj (auth : list (Socket * string)) (k : Socket) (u w : string) :
  NoDup (map fst auth) → (k, u) ∈ auth → (k, w) ∈ auth → u = w.
Proof.
  induction auth as [|[k' u'] auth IH]; simpl.
  - intros _ H. by apply elem_of_nil in H.
  - intros [Hk Hnd]%NoDup_cons [Hu|Hu]%elem_of_cons [Hw|Hw]%elem_of_cons;
      simplify_eq; try done.
    + exfalso. apply Hk. apply list_elem_of_fmap. by exists (k', w).
    + exfalso. apply Hk. apply list_elem_of_fmap. by exists (k', u).
    + by apply IH.
Qed.



Section Replies.

Variable checkpw : string → string → bool.
Variable hash_password : string → string.




End Replies.

(** ** Ended rooms *)

Section Terminal.

Variable checkpw : string → string → bool.
Variable hash_password : string → string.


Lemma reachable_play (st : State) (events : list Event) :
  reachable checkpw hash_password st →
  reachable checkpw hash_password (play checkpw hash_password st events).
Proof.
  unfold play. revert st. induction events as [|ev events IH]; intros st Hst; [done|].
  simpl. apply IH. by constructor.
Qed.

End Terminal.

(** * The rest of the server, and the client *)

(** ** The registry *)

Lemma dict_set_keys {V : Type} (k : string) (v : V) (d : list (string * V)) :
  map fst (dict_set k v d)
  = if bool_decide (k ∈ map fst d) then map fst d else (map fst d ++ [k])%list.
Proof.
  induction d as [|[k' v'] d IH]; simpl; [done|].
  destruct (String.eqb_spec k' k) as [->|Hne]; simpl.
  - rewrite bool_decide_eq_true_2 by by left. done.
  - rewrite IH. destruct (decide (k ∈ map fst d)) as [Hin|Hnot].
    + rewrite !bool_decide_eq_true_2; [done|by right|done].
    + rewrite !bool_decide_eq_false_2; [done| |done].
      intros [?|?]%elem_of_cons; congruence.
Qed.

Lemma Forall_dict_set_key {V : Type} (P : string * V → Prop) k v (d : list (string * V)) :
  Forall P d → P (k, v) → Forall P (dict_set k v d).
Proof.
  intros Hd Hv. induction Hd as [|[k' v'] d Hx Hd IH]; simpl.
  - by repeat constructor.
  - destruct (String.eqb_spec k' k) as [->|?]; constructor; auto.
Qed.

Lemma registry_ok_lookup (d : list (string * Room)) (n : string) (r : Room) :
  registry_ok d → dict_get n d = Some r →
  legal_body n = true ∧ ∃ creator k, lifetime creator k r.
Proof.
  intros [_ Hall]. induction Hall as [|[k' r'] d Hx Hd IH]; simpl; [done|].
  destruct (String.eqb_spec k' n) as [->|?]; [by intros [= <-] | done].
Qed.

Lemma registry_ok_set (d : list (string * Room)) (n : string) (r : Room) :
  registry_ok d → legal_body n = true → (∃ creator k, lifetime creator k r) →
  registry_ok (dict_set n r d).
Proof.
  intros [Hkeys Hall] Hn Hr. split.
  - rewrite dict_set_keys. case_bool_decide as Hin; [done|].
    apply NoDup_app. split_and!; [done| |apply NoDup_singleton].
    by intros x Hx ->%list_elem_of_singleton.
  - by apply Forall_dict_set_key.
Qed.

Lemma registry_ok_without (d : list (string * Room)) (n : string) :
  registry_ok d → registry_ok (dict_without n d).
Proof.
  intros [Hkeys Hall]. split.
  - by apply NoDup_map_filter.
  - unfold dict_without. rewrite Forall_forall in Hall |- *.
    intros kv [Hin _]%list_elem_of_In%filter_In. apply Hall. by apply list_elem_of_In.
Qed.

Lemma registry_ok_update (d : list (string * Room)) (n : string) (r0 : Room)
    (s : Socket) (mode : string) :
  registry_ok d → dict_get n d = Some r0 → registry_ok (dict_set n (update r0 s mode) d).
Proof.
  intros Hd Hn. destruct (registry_ok_lookup _ _ _ Hd Hn) as (? & creator & k & ?).
  apply registry_ok_set; [done|done|]. exists creator, k. by constructor.
Qed.

Lemma registry_ok_update_matrix (d : list (string * Room)) (n : string) (r0 r : Room)
    (row column : Z) :
  registry_ok d → dict_get n d = Some r0 → update_matrix r0 row column = Some r →
  registry_ok (dict_set n r d).
Proof.
  intros Hd Hn Hup. destruct (registry_ok_lookup _ _ _ Hd Hn) as (? & creator & k & ?).
  apply registry_ok_set; [done|done|]. exists creator, (S k). by econstructor.
Qed.

Lemma registry_ok_init (d : list (string * Room)) (n : string) (s : Socket) :
  registry_ok d → legal_body n = true → registry_ok (dict_set n (Room_init s) d).
Proof.
  intros Hd Hn. apply registry_ok_set; [done|done|]. exists s, 0%nat. constructor.
Qed.

(** [mreg]: [mstep], then the registry at the state each way ends in. *)
Ltac mreg :=
  repeat first
    [ progress mstep
    | match goal with
      | |- context [match ?l with [] => _ | _ :: _ => _ end] => destruct l eqn:?
      end ];
  cbn [rooms clients authenticated_clients users
       with_rooms with_clients with_authenticated_clients with_users];
  eauto using registry_ok_without, registry_ok_update, registry_ok_update_matrix,
    registry_ok_init.

Lemma close_room_registry (s : Socket) (roomname : string) st out :
  registry_ok (rooms st) → registry_ok (rooms (state_after (close_room s roomname st out) st)).
Proof. intros. unfold close_room. mreg. Qed.

Lemma forfeit_registry (s : Socket) (roomname : string) st out :
  registry_ok (rooms st) → registry_ok (rooms (state_after (forfeit s roomname st out) st)).
Proof. intros. unfold forfeit, close_room. mreg. Qed.

Lemma place_registry (sm : list string) (s : Socket) (roomname : string) st out :
  registry_ok (rooms st) → registry_ok (rooms (state_after (place sm s roomname st out) st)).
Proof. intros. unfold place, close_room. mreg. Qed.

Lemma join_room_registry (sm : list string) (s : Socket) st out :
  registry_ok (rooms st) → registry_ok (rooms (state_after (join_room sm s st out) st)).
Proof. intros. unfold join_room. mreg. Qed.

Lemma create_room_registry (sm : list string) (s : Socket) st out :
  (∀ name, sm = [name] → check_legal_room_name name = true → legal_body name = true) →
  registry_ok (rooms st) → registry_ok (rooms (state_after (create_room sm s st out) st)).
Proof. intros Hname ?. unfold create_room. mreg. Qed.

Lemma room_list_registry (sm : list string) (s : Socket) st out :
  registry_ok (rooms st) → registry_ok (rooms (state_after (room_list sm s st out) st)).
Proof. intros. unfold room_list. mreg. Qed.

Lemma login_registry checkpw (sm : list string) (s : Socket) st out :
  registry_ok (rooms st) → registry_ok (rooms (state_after (login checkpw sm s st out) st)).
Proof. intros. unfold login. mreg. Qed.

Lemma register_registry hash_password (sm : list string) (s : Socket) st out :
  registry_ok (rooms st) →
  registry_ok (rooms (state_after (register hash_password sm s st out) st)).
Proof. intros. unfold register. mreg. Qed.

Lemma disconnect_registry (s : Socket) st out :
  registry_ok (rooms st) → registry_ok (rooms (state_after (disconnect s st out) st)).
Proof. intros. unfold disconnect, close_room. mreg. Qed.

(** ** Properties kept by every step
    A property of the state that each handler keeps is kept by the router,
    and so by every step of the server. *)

Section Routing.

Variable checkpw : string → string → bool.
Variable hash_password : string → string.
Variable P : State → Prop.

Hypothesis P_login : ∀ sm s st out, P st → P (state_after (login checkpw sm s st out) st).
Hypothesis P_register :
  ∀ sm s st out, P st → P (state_after (register hash_password sm s st out) st).
Hypothesis P_room_list : ∀ sm s st out, P st → P (state_after (room_list sm s st out) st).
Hypothesis P_create_room :
  ∀ sm s st out,
    (∀ name, sm = [name] → check_legal_room_name name = true → legal_body name = true) →
    P st → P (state_after (create_room sm s st out) st).
Hypothesis P_join_room : ∀ sm s st out, P st → P (state_after (join_room sm s st out) st).
Hypothesis P_place :
  ∀ sm s roomname st out, P st → P (state_after (place sm s roomname st out) st).
Hypothesis P_forfeit :
  ∀ s roomname st out, P st → P (state_after (forfeit s roomname st out) st).
Hypothesis P_accept : ∀ s st out, P st → P (state_after (accept s st out) st).
Hypothesis P_disconnect : ∀ s st out, P st → P (state_after (disconnect s st out) st).

Lemma handle_message_keeps (fuel : nat) (s : Socket) (message : string) st out :
  (∀ name, tl (py_split message) = [name] →
           check_legal_room_name name = true → legal_body name = true) →
  P st → P (state_after (handle_message checkpw hash_password fuel s message st out) st).
Proof.
  intros Hname HP.
  destruct (String.eqb (hd "" (py_split message)) "LOGIN") eqn:H1.
  { unfold handle_message. rewrite H1. by apply P_login. }
  destruct (String.eqb (hd "" (py_split message)) "REGISTER") eqn:H2.
  { unfold handle_message. rewrite H1, H2. by apply P_register. }
  destruct (check_authorizations s (authenticated_clients st)) eqn:Hauth.
  2:{ unfold handle_message. rewrite H1, H2.
      unfold mbind, M_bind, get_state. by rewrite Hauth. }
  destruct (String.eqb (hd "" (py_split message)) "ROOMLIST") eqn:H3.
  { unfold handle_message. rewrite H1, H2, H3.
    unfold mbind, M_bind, get_state. rewrite Hauth. by apply P_room_list. }
  destruct (String.eqb (hd "" (py_split message)) "CREATE") eqn:H4.
  { unfold handle_message. rewrite H1, H2, H3, H4.
    unfold mbind, M_bind, get_state. rewrite Hauth. by apply P_create_room. }
  destruct (String.eqb (hd "" (py_split message)) "JOIN") eqn:H5.
  { unfold handle_message. rewrite H1, H2, H3, H4, H5.
    unfold mbind, M_bind, get_state. rewrite Hauth. by apply P_join_room. }
  rewrite handle_message_game by done.
  destruct (find_room s (rooms st)) as [roomname|]; [|done].
  destruct (dict_get roomname (rooms st)) as [r|] eqn:Hr; [|done].
  destruct (in_room_as_a_player r s); [|done].
  rewrite wait_for_turn_outcome, Hr.
  destruct (get_has_began r) eqn:Hbegan; [|done].
  destruct (get_current_player r) as [current|] eqn:Hcur; [|done].
  destruct (is_same_socket current s) eqn:Hsame; [|done].
  destruct (String.eqb (hd "" (py_split message)) "PLACE"); [by apply P_place|].
  destruct (String.eqb (hd "" (py_split message)) "FORFEIT"); [|done].
  by apply P_forfeit.
Qed.

(** The one argument of a CREATE frame is a name of 1 to 20 legal
    characters whenever the pattern check accepts it. *)
Lemma frame_room_name (data name : string) :
  tl (py_split (py_strip data)) = [name] →
  check_legal_room_name name = true → legal_body name = true.
Proof.
  intros Htl Hlegal.
  rewrite (check_legal_room_name_frame data name) in Hlegal; [done|].
  destruct (py_split (py_strip data)) as [|command [|? [|? ?]]]; by simplify_eq/=.
Qed.

Lemma step_keeps (st : State) (ev : Event) :
  P st → P (step checkpw hash_password st ev).
Proof.
  intros HP. unfold step, run. destruct ev as [s|fuel s data|s]; cbn [handler].
  - by apply P_accept.
  - apply handle_message_keeps; [|done]. apply frame_room_name.
  - by apply P_disconnect.
Qed.

Lemma reachable_keeps (st : State) :
  (∀ st0, initial st0 → P st0) → reachable checkpw hash_password st → P st.
Proof.
  intros Hinit. induction 1 as [st Hst|st ev _ IH]; [by apply Hinit | by apply step_keeps].
Qed.

End Routing.

(** ** The other player *)

(** X1.  In a room of two distinct players [get_another_player] answers
    each player with the other one and answers a connection that is no
    player of the room with the first player; the player who is next to move
    is the other player of the one whose turn it is.  In a room that still
    has a single player the lookup raises [IndexError], whoever asks. *)
Theorem get_another_player_other (r : Room) (p0 p1 s : Socket) :
  players r = [p0; p1] → p0 ≠ p1 →
  get_another_player r p0 = Some p1
  ∧ get_another_player r p1 = Some p0
  ∧ (in_room_as_a_player r s = true ↔ s = p0 ∨ s = p1)
  ∧ (in_room_as_a_player r s = false → get_another_player r s = Some p0)
  ∧ (∀ mover, get_current_player r = Some mover →
       get_next_turn_player r = get_another_player r mover)
  ∧ ∀ (alone : Room) (creator : Socket),
      players alone = [creator] → get_another_player alone s = None.
Proof.
  intros Hpl Hne.
  assert (is_same_socket p0 p1 = false) as H01 by by apply is_same_socket_neq.
  assert (is_same_socket p1 p0 = false) as H10 by by apply is_same_socket_neq.
  unfold get_another_player, in_room_as_a_player, get_current_player, get_next_turn_player.
  rewrite Hpl. cbn -[is_same_socket].
  rewrite ?is_same_socket_refl, ?H01, ?H10. cbn -[is_same_socket].
  rewrite ?is_same_socket_refl. split_and!; try done.
  - rewrite orb_false_r, orb_true_iff, !is_same_socket_eq. naive_solver.
  - rewrite orb_false_r. intros [-> ->]%orb_false_iff. done.
  - intros mover. destruct (current_player r =? 0)%nat; intros [= <-].
    + by rewrite ?is_same_socket_refl.
    + rewrite ?H01, ?H10; cbn -[is_same_socket]; by rewrite ?is_same_socket_refl.
  - intros alone creator ->. cbn -[is_same_socket]. by destruct (is_same_socket creator s).
Qed.

(** ** Rooms of one player *)

(** No placement can be made in a room of one player. *)
Lemma lifetime_alone (creator : Socket) (k : nat) (r : Room) :
  lifetime creator k r → length (players r) = 1%nat →
  k = 0%nat ∧ players r = [creator].
Proof.
  induction 1 as [|k r mode Hlife IH|k r s mode Hlife IH|k r row column r' Hlife IH Hup];
    intros Hlen.
  - done.
  - unfold join in *. repeat case_match; simpl in *; by apply IH.
  - unfold update, max_players in *.
    destruct (String.eqb mode "PLAYER");
      [destruct (Nat.ltb_spec (length (players r)) 2)
      |destruct (String.eqb mode "VIEWER")]; simpl in *; try by apply IH.
    rewrite length_app in Hlen. simpl in Hlen.
    pose proof (lifetime_invariant _ _ _ Hlife) as (_ & _ & _ & _ & ? & _). lia.
  - pose proof (update_matrix_Some _ _ _ _ Hup) as (_ & _ & _ & _ & Hp1).
    pose proof (update_matrix_fields _ _ _ _ Hup) as (Hpl & _ & _ & _ & _).
    rewrite Hpl in Hlen. destruct (IH Hlen) as (-> & Hcreator).
    pose proof (lifetime_invariant _ _ _ Hlife) as (_ & _ & _ & Hcur & _).
    destruct (Hp1 Hcur) as [p1 Hp1']. apply lookup_lt_Some in Hp1'. lia.
Qed.

(** ** The registry and the accounts of a running server *)

(** [mcases]: [mstep], with the argument lists split as well. *)
Ltac mcases :=
  repeat first
    [ progress mstep
    | match goal with
      | |- context [match ?l with [] => _ | _ :: _ => _ end] => destruct l eqn:?
      end ];
  cbn [rooms clients authenticated_clients users
       with_rooms with_clients with_authenticated_clients with_users].

Lemma bound_names_registered_without (st : State) (s : Socket) :
  bound_names_registered st →
  bound_names_registered
    (with_authenticated_clients st (without_socket s (authenticated_clients st))).
Proof.
  intros H k u [Hin _]%list_elem_of_In%filter_In. apply (H k). by apply list_elem_of_In.
Qed.

Section Accounts.

Variable checkpw : string → string → bool.
Variable hash_password : string → string.

Lemma registry_reachable (st : State) :
  reachable checkpw hash_password st → registry_ok (rooms st).
Proof.
  apply (reachable_keeps checkpw hash_password (λ st, registry_ok (rooms st))).
  - intros; by apply login_registry.
  - intros; by apply register_registry.
  - intros; by apply room_list_registry.
  - intros; by apply create_room_registry.
  - intros; by apply join_room_registry.
  - intros; by apply place_registry.
  - intros; by apply forfeit_registry.
  - intros s st0 out H. exact H.
  - intros; by apply disconnect_registry.
  - intros st0 (_ & _ & ->). split; constructor.
Qed.

(** X2.  In every reachable state the names of the registered rooms are
    pairwise distinct, each is 1 to 20 characters of [A-Za-z0-9 _-], and
    every registered room was built by [__init__] and changed only by
    [join], [update] and [update_matrix]; its board is 3 by 3 and holds only
    0, 1 and 2. *)
Theorem registry_well_formed (st : State) :
  reachable checkpw hash_password st →
  NoDup (map fst (rooms st))
  ∧ ∀ n r, dict_get n (rooms st) = Some r →
      ((1 ≤ String.length n ≤ 20)%nat ∧ all_legal n = true)
      ∧ (∃ creator k, lifetime creator k r)
      ∧ is_3x3 (matrix r) ∧ board_digits (matrix r).
Proof.
  intros Hreg%registry_reachable. split; [apply Hreg|].
  intros n r Hr. destruct (registry_ok_lookup _ _ _ Hreg Hr) as (Hn & creator & k & Hlife).
  pose proof (lifetime_invariant _ _ _ Hlife) as (? & ? & _).
  unfold legal_body in Hn. apply andb_true_iff in Hn as [[H1 H20]%andb_true_iff Hall].
  apply Nat.leb_le in H1, H20. eauto 10.
Qed.



Lemma bound_names_step (st : State) (ev : Event) :
  bound_names_registered st → bound_names_registered (step checkpw hash_password st ev).
Proof.
  apply (step_keeps checkpw hash_password bound_names_registered).
  - intros sm s st1 out H. unfold login. mcases; try done.
    intros k u [Hin|[= -> ->]%list_elem_of_singleton]%elem_of_app; [by eapply H|].
    cbn [users]. split; [|by eexists].
    match goal with
    | H : (_ =? "") || _ = false |- _ => apply orb_false_iff in H as [H _]
    end.
    by apply String.eqb_neq.
  - intros sm s st1 out H. unfold register. mcases; try done.
    intros k u Hin. cbn [users authenticated_clients] in *.
    destruct (H k u Hin) as [? ?]. split; [done|].
    apply lookup_insert_is_Some'. by right.
  - intros sm s st1 out H. unfold room_list. mcases; done.
  - intros sm s st1 out _ H. unfold create_room. mcases; done.
  - intros sm s st1 out H. unfold join_room. mcases; done.
  - intros sm s roomname st1 out H. unfold place, close_room. mcases; done.
  - intros s roomname st1 out H. unfold forfeit, close_room. mcases; done.
  - intros s st1 out H. unfold accept. mcases; done.
  - intros s st1 out H. unfold disconnect, close_room.
    pose proof (bound_names_registered_without st1 s H). mcases; done.
Qed.

Lemma reachable_bound_names (st : State) :
  reachable checkpw hash_password st → bound_names_registered st.
Proof.
  induction 1 as [st (_ & Hauth & _)|st ev _ IH].
  - intros s username. rewrite Hauth. by intros ?%elem_of_nil.
  - by apply bound_names_step.
Qed.

(** X4.  In every reachable state a user name bound to a connection is not
    empty and is registered: LOGIN binds only names it found in [users], and
    accounts are never removed. *)
Theorem bound_names_are_registered (st : State) (s : Socket) (username : string) :
  reachable checkpw hash_password st →
  (s, username) ∈ authenticated_clients st →
  username ≠ "" ∧ is_Some (users st !! username).
Proof. intros Hreach. by apply reachable_bound_names. Qed.

End Accounts.

(** ** The router *)

Lemma find_room_acc (s : Socket) (d : list (string * Room)) (acc : option string) :
  fold_left (λ roomname kv, if in_room_as_a_player kv.2 s then Some kv.1 else roomname) d acc
  = match find_room s d with Some n => Some n | None => acc end.
Proof.
  unfold find_room. revert acc. induction d as [|[n r] d IH]; intros acc; simpl; [done|].
  rewrite IH, (IH (if in_room_as_a_player r s then Some n else None)).
  by repeat case_match.
Qed.

Lemma find_room_cons (s : Socket) (n : string) (r : Room) (d : list (string * Room)) :
  find_room s ((n, r) :: d)
  = match find_room s d with
    | Some m => Some m
    | None => if in_room_as_a_player r s then Some n else None
    end.
Proof. unfold find_room at 1. simpl. by rewrite find_room_acc. Qed.

Lemma find_room_None (s : Socket) (d : list (string * Room)) :
  find_room s d = None ↔ ∀ n r, (n, r) ∈ d → in_room_as_a_player r s = false.
Proof.
  induction d as [|[n r] d IH].
  - split; [intros _ ? ? ?%elem_of_nil; done | done].
  - rewrite find_room_cons. split.
    + intros H n' r' [[= -> ->]|Hin]%elem_of_cons.
      * destruct (find_room s d); [done|]. by destruct (in_room_as_a_player r s).
      * destruct (find_room s d) eqn:Hd; [done|]. by eapply IH.
    + intros H. rewrite (proj2 IH) by (intros; eapply H; by right).
      rewrite (H n r) by by left. done.
Qed.

Lemma find_room_Some (s : Socket) (d : list (string * Room)) (n : string) :
  NoDup (map fst d) → find_room s d = Some n →
  ∃ r, dict_get n d = Some r ∧ in_room_as_a_player r s = true.
Proof.
  induction d as [|[n' r'] d IH]; [done|].
  intros [Hn' Hnd]%NoDup_cons. rewrite find_room_cons. simpl.
  destruct (find_room s d) as [m|] eqn:Hd.
  - intros [= ->]. destruct (IH Hnd eq_refl) as (r & Hr & Hin).
    destruct (String.eqb_spec n' n) as [->|?]; [|by exists r].
    exfalso. apply Hn'. apply dict_get_is_Some. by eexists.
  - destruct (in_room_as_a_player r' s) eqn:Hin; [|done].
    intros [= ->]. rewrite String.eqb_refl. by exists r'.
Qed.

Section Strangers.

Variable checkpw : string → string → bool.
Variable hash_password : string → string.

(** X6.  A connection that is not authenticated cannot touch the rooms:
    whatever frame it sends, [rooms] and [clients] stay as they were and
    every message sent goes to that connection; unless the command is LOGIN
    or REGISTER the only effect is the reply BADAUTH. *)
Theorem unauthenticated_changes_no_room (fuel : nat) (s : Socket) (data : string)
    (st : State) :
  check_authorizations s (authenticated_clients st) = false →
  rooms (state_after (run (handle_frame checkpw hash_password fuel s data) st) st) = rooms st
  ∧ clients (state_after (run (handle_frame checkpw hash_password fuel s data) st) st) = clients st
  ∧ (∀ t message, (t, message) ∈ sent (run (handle_frame checkpw hash_password fuel s data) st) → t = s)
  ∧ (hd "" (py_split (py_strip data)) ≠ "LOGIN" →
     hd "" (py_split (py_strip data)) ≠ "REGISTER" →
     run (handle_frame checkpw hash_password fuel s data) st = Ret tt st [(s, "BADAUTH")]).
Proof.
  intros Hauth. unfold handle_frame, handle_message.
  destruct (String.eqb_spec (hd "" (py_split (py_strip data))) "LOGIN") as [H1|H1].
  { unfold login. mcases; split_and!; try done;
      intros t message Hin; apply list_elem_of_singleton in Hin; congruence. }
  destruct (String.eqb_spec (hd "" (py_split (py_strip data))) "REGISTER") as [H2|H2].
  { unfold register. mcases; split_and!; try done;
      intros t message Hin; apply list_elem_of_singleton in Hin; congruence. }
  unfold run, mbind, M_bind, get_state. rewrite Hauth. cbn [negb].
  unfold sendall. cbn [state_after sent app]. split_and!; try done.
  intros t message Hin. apply list_elem_of_singleton in Hin. congruence.
Qed.

Lemma game_command (message : string) (fuel : nat) (s : Socket) st out :
  ¬ lobby_command (hd "" (py_split message)) →
  check_authorizations s (authenticated_clients st) = true →
  handle_message checkpw hash_password fuel s message st out
  = match find_room s (rooms st) with
    | None => Ret tt st (out ++ [(s, "NOROOM")])%list
    | Some roomname =>
        match dict_get roomname (rooms st) with
        | None => Raise KeyError st out
        | Some r =>
            if in_room_as_a_player r s then
              match wait_for_turn fuel roomname s st out with
              | Ret _ _ _ =>
                  if String.eqb (hd "" (py_split message)) "PLACE"
                  then place (py_split message) s roomname st out
                  else if String.eqb (hd "" (py_split message)) "FORFEIT"
                       then forfeit s roomname st out
                       else Ret tt st out
              | Raise e _ _ => Raise e st out
              | Spin => Spin
              end
            else Ret tt st out
        end
    end.
Proof.
  intros Hcmd Hauth. unfold lobby_command in Hcmd.
  apply handle_message_game; [..|done];
    apply String.eqb_neq; intros Heq; apply Hcmd; rewrite Heq; auto.
Qed.

(** X7.  An authenticated connection that is a player of no room (a viewer
    included) is answered NOROOM on every command other than LOGIN,
    REGISTER, ROOMLIST, CREATE and JOIN, and nothing changes: a viewer can
    neither place nor forfeit. *)
Theorem stranger_commands_answered_noroom (fuel : nat) (s : Socket) (data : string)
    (st : State) :
  check_authorizations s (authenticated_clients st) = true →
  (∀ n r, (n, r) ∈ rooms st → in_room_as_a_player r s = false) →
  ¬ lobby_command (hd "" (py_split (py_strip data))) →
  run (handle_frame checkpw hash_password fuel s data) st = Ret tt st [(s, "NOROOM")].
Proof.
  intros Hauth Hnone%find_room_None Hcmd. unfold run, handle_frame.
  rewrite game_command by done. by rewrite Hnone.
Qed.

(** X8.  A player's command other than the five lobby commands is held in
    the turn-wait loop for as long as the game has not begun or it is the
    other player's turn, whatever the command and whatever the bound on the
    iterations; sent on the player's own turn, a command that is neither
    PLACE nor FORFEIT is dropped without any reply or change. *)
Theorem player_out_of_turn_waits (fuel : nat) (s : Socket) (data roomname : string)
    (r : Room) (st : State) :
  check_authorizations s (authenticated_clients st) = true →
  ¬ lobby_command (hd "" (py_split (py_strip data))) →
  find_room s (rooms st) = Some roomname →
  dict_get roomname (rooms st) = Some r →
  in_room_as_a_player r s = true →
  ((has_began r = false ∨ ∃ mover, get_current_player r = Some mover ∧ mover ≠ s) →
   run (handle_frame checkpw hash_password fuel s data) st = Spin)
  ∧ (has_began r = true → get_current_player r = Some s →
     hd "" (py_split (py_strip data)) ≠ "PLACE" →
     hd "" (py_split (py_strip data)) ≠ "FORFEIT" →
     run (handle_frame checkpw hash_password fuel s data) st = Ret tt st []).
Proof.
  intros Hauth Hcmd Hfind Hr Hin. unfold run, handle_frame.
  rewrite game_command by done. rewrite Hfind, Hr, Hin, wait_for_turn_outcome, Hr.
  unfold get_has_began. split.
  - intros [->|(mover & -> & Hne)]; [done|].
    destruct (has_began r); [|done].
    apply is_same_socket_neq in Hne. by rewrite Hne.
  - intros -> -> Hplace%String.eqb_neq Hforfeit%String.eqb_neq.
    by rewrite is_same_socket_refl, Hplace, Hforfeit.
Qed.

End Strangers.

(** ** Names of the players *)

Lemma names_differ (auth : list (Socket * string)) (k1 k2 : Socket) (w1 w2 : string) :
  NoDup (map snd auth) → (k1, w1) ∈ auth → (k2, w2) ∈ auth → k1 ≠ k2 → w1 ≠ w2.
Proof.
  intros Hnames H1 H2 Hne ->. apply Hne.
  pose proof (get_key_by_value_NoDup auth k1 w2 Hnames H1).
  pose proof (get_key_by_value_NoDup auth k2 w2 Hnames H2). congruence.
Qed.

Lemma bool_decide_cons_ne (x y : string) (l : list string) :
  x ≠ y → bool_decide (x ∈ y :: l) = bool_decide (x ∈ l).
Proof. intros. apply bool_decide_ext. rewrite elem_of_cons. naive_solver. Qed.

Lemma name_players_found (auth : list (Socket * string)) (values : list string)
    (first second : Socket) (w1 w2 : string) (names : option string * option string) :
  NoDup (map snd auth) → NoDup (map fst auth) →
  (first, w1) ∈ auth → (second, w2) ∈ auth → first ≠ second →
  NoDup values → values ⊆ map snd auth →
  name_players auth values first second names
  = Some (if bool_decide (w1 ∈ values) then Some w1 else names.1,
          if bool_decide (w2 ∈ values) then Some w2 else names.2).
Proof.
  intros Hnames Hkeys H1 H2 Hne. revert names.
  pose proof (names_differ auth first second w1 w2 Hnames H1 H2 Hne) as Hw.
  induction values as [|user rest IH]; intros names Hnd Hsub; simpl.
  - by destruct names.
  - apply NoDup_cons in Hnd as [Huser Hnd].
    assert (user ∈ map snd auth) as ([k u] & Hu & Hin)%list_elem_of_fmap
      by (apply Hsub; by left).
    simpl in Hu. subst u.
    rewrite (get_key_by_value_NoDup auth k user) by done. simpl.
    assert (rest ⊆ map snd auth) as Hsub' by (intros x Hx; apply Hsub; by right).
    destruct (is_same_socket k first) eqn:Hf.
    { apply is_same_socket_eq in Hf as ->.
      assert (user = w1) as -> by by eapply NoDup_keys_inj.
      rewrite IH by done. simpl.
      rewrite (bool_decide_eq_false_2 _ Huser).
      rewrite (bool_decide_eq_true_2 (w1 ∈ w1 :: rest)) by by left.
      by rewrite bool_decide_cons_ne by done. }
    destruct (is_same_socket k second) eqn:Hs.
    { apply is_same_socket_eq in Hs as ->.
      assert (user = w2) as -> by by eapply NoDup_keys_inj.
      rewrite IH by done. simpl.
      rewrite (bool_decide_eq_false_2 _ Huser).
      rewrite (bool_decide_eq_true_2 (w2 ∈ w2 :: rest)) by by left.
      by rewrite bool_decide_cons_ne by done. }
    apply is_same_socket_neq in Hf, Hs.
    assert (user ≠ w1).
    { intros ->. apply Hf.
      pose proof (get_key_by_value_NoDup auth k w1 Hnames Hin).
      pose proof (get_key_by_value_NoDup auth first w1 Hnames H1). congruence. }
    assert (user ≠ w2).
    { intros ->. apply Hs.
      pose proof (get_key_by_value_NoDup auth k w2 Hnames Hin).
      pose proof (get_key_by_value_NoDup auth second w2 Hnames H2). congruence. }
    rewrite IH by done. by rewrite !bool_decide_cons_ne by done.
Qed.

Lemma name_players_same (auth : list (Socket * string)) (values : list string)
    (s : Socket) (w : string) (names : option string * option string) :
  NoDup (map snd auth) → NoDup (map fst auth) → (s, w) ∈ auth →
  NoDup values → values ⊆ map snd auth →
  name_players auth values s s names
  = Some (if bool_decide (w ∈ values) then Some w else names.1, names.2).
Proof.
  intros Hnames Hkeys Hs. revert names.
  induction values as [|user rest IH]; intros names Hnd Hsub; simpl.
  - by destruct names.
  - apply NoDup_cons in Hnd as [Huser Hnd].
    assert (user ∈ map snd auth) as ([k u] & Hu & Hin)%list_elem_of_fmap
      by (apply Hsub; by left).
    simpl in Hu. subst u.
    rewrite (get_key_by_value_NoDup auth k user) by done. simpl.
    assert (rest ⊆ map snd auth) as Hsub' by (intros x Hx; apply Hsub; by right).
    destruct (is_same_socket k s) eqn:Hf.
    { apply is_same_socket_eq in Hf as ->.
      assert (user = w) as -> by by eapply NoDup_keys_inj.
      rewrite IH by done. simpl.
      rewrite (bool_decide_eq_false_2 _ Huser).
      by rewrite (bool_decide_eq_true_2 (w ∈ w :: rest)) by by left. }
    apply is_same_socket_neq in Hf.
    assert (user ≠ w).
    { intros ->. apply Hf.
      pose proof (get_key_by_value_NoDup auth k w Hnames Hin).
      pose proof (get_key_by_value_NoDup auth s w Hnames Hs). congruence. }
    rewrite IH by done. by rewrite !bool_decide_cons_ne by done.
Qed.

(** ** Joining a room *)

Section Joining.

Variable checkpw : string → string → bool.
Variable hash_password : string → string.

Lemma join_frame (fuel : nat) (s : Socket) (data : string) (args : list string) st :
  py_split (py_strip data) = "JOIN" :: args →
  check_authorizations s (authenticated_clients st) = true →
  run (handle_frame checkpw hash_password fuel s data) st = join_room args s st [].
Proof.
  intros Hsplit Hauth. unfold run, handle_frame, handle_message. rewrite Hsplit.
  cbn [hd tl String.eqb Ascii.eqb Bool.eqb].
  unfold mbind, M_bind, get_state. by rewrite Hauth.
Qed.

Lemma authenticated_elem (s : Socket) (w : string) (auth : list (Socket * string)) :
  (s, w) ∈ auth → check_authorizations s auth = true.
Proof.
  intros Hin. apply check_authorizations_true. apply list_elem_of_fmap. by exists (s, w).
Qed.

(** X10.  The second player starts the game.  In a reachable state, when
    an authenticated connection other than the creator joins as PLAYER a
    room in which the creator waits alone, it is answered JOIN:ACKSTATUS:0,
    both players are sent BEGIN:<creator's name>:<joiner's name>, every
    viewer is sent INPROGRESS with the same names, and the joiner is
    recorded in [clients] as being in that room; the stored room has the two
    players, has begun, has an empty board, and the creator is to move. *)
Theorem second_player_begins_game (fuel : nat) (s creator : Socket) (data n w1 w2 : string)
    (r : Room) (st : State) :
  reachable checkpw hash_password st →
  py_split (py_strip data) = ["JOIN"; n; "PLAYER"] →
  dict_get n (rooms st) = Some r →
  players r = [creator] → creator ≠ s →
  (creator, w1) ∈ authenticated_clients st → (s, w2) ∈ authenticated_clients st →
  run (handle_frame checkpw hash_password fuel s data) st
  = Ret tt
      (with_clients
         (with_rooms st (dict_set n (update r s "PLAYER") (rooms st)))
         (without_socket s (clients st) ++ [(s, Some n)]))
      ((s, "JOIN:ACKSTATUS:0")
       :: (creator, "BEGIN:" +:+ w1 +:+ ":" +:+ w2)
       :: (s, "BEGIN:" +:+ w1 +:+ ":" +:+ w2)
       :: map (λ viewer, (viewer, "INPROGRESS:" +:+ w1 +:+ ":" +:+ w2)) (viewers r))
  ∧ players (update r s "PLAYER") = [creator; s]
  ∧ has_began (update r s "PLAYER") = true
  ∧ get_current_player (update r s "PLAYER") = Some creator
  ∧ matrix (update r s "PLAYER") = empty_matrix.
Proof.
  intros Hreach Hsplit Hr Hpl Hne Hw1 Hw2.
  pose proof (reachable_Inv _ _ _ Hreach) as [Hrooms [Hnames Hkeys]].
  destruct (registry_ok_lookup _ _ _ (registry_reachable _ _ _ Hreach) Hr)
    as (_ & creator' & k & Hlife).
  assert (length (players r) = 1%nat) as Hlen by by rewrite Hpl.
  destruct (lifetime_alone _ _ _ Hlife Hlen) as [-> _].
  destruct (lifetime_fresh _ _ _ Hlife eq_refl) as (Hm & _ & Hcur).
  assert (update r s "PLAYER" = set_has_began (add_player r s)) as Hup.
  { unfold update, max_players. by rewrite Hlen. }
  assert (players (update r s "PLAYER") = [creator; s]) as Hpl'.
  { rewrite Hup. simpl. by rewrite Hpl. }
  split_and!; [|done|by rewrite Hup| |by rewrite Hup].
  2:{ unfold get_current_player. rewrite Hpl'. rewrite Hup. simpl. by rewrite Hcur. }
  rewrite (join_frame fuel s data [n; "PLAYER"]) by eauto using authenticated_elem.
  unfold join_room. cbn [String.eqb Ascii.eqb Bool.eqb negb andb].
  assert ((join r "PLAYER").1 = "JOIN:ACKSTATUS:0") as Hjoin.
  { unfold join, max_players. by rewrite Hlen. }
  assert (able_to_add_player (update r s "PLAYER") = false) as Hfull.
  { unfold able_to_add_player, max_players. by rewrite Hpl'. }
  assert (get_another_player (update r s "PLAYER") s = Some creator) as Hother.
  { unfold get_another_player. rewrite Hpl'. cbn -[is_same_socket].
    apply is_same_socket_neq in Hne. by rewrite Hne, is_same_socket_refl. }
  pose proof (name_players_found (authenticated_clients st)
                (map snd (authenticated_clients st)) creator s w1 w2 (None, None)
                Hnames Hkeys Hw1 Hw2 Hne Hnames (λ x H, H)) as Hnamed.
  rewrite !bool_decide_eq_true_2 in Hnamed
    by (apply list_elem_of_fmap; by eexists (_, _)).
  mrun. rewrite Hjoin. cbn [String.eqb Ascii.eqb Bool.eqb negb andb].
  rewrite Hfull. cbn [negb fst snd app]. rewrite Hup. done.
Qed.

(** X11.  A VIEWER join adds the sender to the viewers and leaves players,
    board and turn alone.  In a reachable state an authenticated connection
    that joins as VIEWER a room of one player is sent JOIN:ACKSTATUS:0 only;
    one that joins a room whose two players are bound to names is sent
    JOIN:ACKSTATUS:0 and then INPROGRESS:<name of the player to move>:<name
    of the other player>. *)
Theorem viewer_joins (fuel : nat) (s : Socket) (data n : string) (r : Room) (st : State) :
  reachable checkpw hash_password st →
  check_authorizations s (authenticated_clients st) = true →
  py_split (py_strip data) = ["JOIN"; n; "VIEWER"] →
  dict_get n (rooms st) = Some r →
  players (update r s "VIEWER") = players r
  ∧ viewers (update r s "VIEWER") = (viewers r ++ [s])%list
  ∧ matrix (update r s "VIEWER") = matrix r
  ∧ current_player (update r s "VIEWER") = current_player r
  ∧ (length (players r) = 1%nat →
     run (handle_frame checkpw hash_password fuel s data) st
     = Ret tt (with_rooms st (dict_set n (update r s "VIEWER") (rooms st)))
         [(s, "JOIN:ACKSTATUS:0")])
  ∧ ∀ (mover other : Socket) (wm wo : string),
      get_current_player r = Some mover → get_next_turn_player r = Some other →
      mover ≠ other →
      (mover, wm) ∈ authenticated_clients st → (other, wo) ∈ authenticated_clients st →
      run (handle_frame checkpw hash_password fuel s data) st
      = Ret tt (with_rooms st (dict_set n (update r s "VIEWER") (rooms st)))
          [(s, "JOIN:ACKSTATUS:0"); (s, "INPROGRESS:" +:+ wm +:+ ":" +:+ wo)].
Proof.
  intros Hreach Hauth Hsplit Hr.
  pose proof (reachable_Inv _ _ _ Hreach) as [Hrooms [Hnames Hkeys]].
  assert (update r s "VIEWER" = add_viewer r s) as Hup by done.
  assert ((join r "VIEWER").1 = "JOIN:ACKSTATUS:0") as Hjoin by done.
  rewrite (join_frame fuel s data [n; "VIEWER"]) by done.
  split_and!; [by rewrite Hup..| |].
  - intros Hlen. unfold join_room. cbn [String.eqb Ascii.eqb Bool.eqb negb andb].
    assert (able_to_add_player (update r s "VIEWER") = true) as Hfree.
    { unfold able_to_add_player, max_players. rewrite Hup. simpl. by rewrite Hlen. }
    mrun. rewrite Hjoin. cbn [String.eqb Ascii.eqb Bool.eqb negb andb].
    rewrite Hfree. done.
  - intros mover other wm wo Hcur Hnext Hne Hwm Hwo.
    assert (length (players r) = 2%nat) as Hlen.
    { destruct (rooms_ok_lookup _ _ _ Hrooms Hr) as (_ & Hlen & _).
      unfold get_current_player, get_next_turn_player in *.
      destruct (players r) as [|p0 [|p1 [|? ?]]]; simpl in *; try done; try lia.
      destruct (current_player r =? 0)%nat; simplify_eq. }
    assert (able_to_add_player (update r s "VIEWER") = false) as Hfull.
    { unfold able_to_add_player, max_players. rewrite Hup. simpl. by rewrite Hlen. }
    assert (get_current_player (update r s "VIEWER") = Some mover) as Hcur' by by rewrite Hup.
    assert (get_next_turn_player (update r s "VIEWER") = Some other) as Hnext'
      by by rewrite Hup.
    pose proof (name_players_found (authenticated_clients st)
                  (map snd (authenticated_clients st)) mover other wm wo (None, None)
                  Hnames Hkeys Hwm Hwo Hne Hnames (λ x H, H)) as Hnamed.
    rewrite !bool_decide_eq_true_2 in Hnamed
      by (apply list_elem_of_fmap; by eexists (_, _)).
    unfold join_room. cbn [String.eqb Ascii.eqb Bool.eqb negb andb].
    mrun. rewrite Hjoin. cbn [String.eqb Ascii.eqb Bool.eqb negb andb].
    rewrite Hfull. cbn [negb fst snd app]. done.
Qed.

Lemma join_own_room (fuel : nat) (s : Socket) (data n w : string) (r : Room) (st : State) :
  reachable checkpw hash_password st →
  py_split (py_strip data) = ["JOIN"; n; "PLAYER"] →
  dict_get n (rooms st) = Some r →
  players r = [s] → (s, w) ∈ authenticated_clients st →
  run (handle_frame checkpw hash_password fuel s data) st
  = Raise UnboundLocalError
      (with_rooms st (dict_set n (update r s "PLAYER") (rooms st)))
      [(s, "JOIN:ACKSTATUS:0")]
  ∧ players (update r s "PLAYER") = [s; s].
Proof.
  intros Hreach Hsplit Hr Hpl Hw.
  pose proof (reachable_Inv _ _ _ Hreach) as [Hrooms [Hnames Hkeys]].
  assert (length (players r) = 1%nat) as Hlen by by rewrite Hpl.
  assert (update r s "PLAYER" = set_has_began (add_player r s)) as Hup.
  { unfold update, max_players. by rewrite Hlen. }
  assert (players (update r s "PLAYER") = [s; s]) as Hpl'.
  { rewrite Hup. simpl. by rewrite Hpl. }
  split; [|done].
  rewrite (join_frame fuel s data [n; "PLAYER"]) by eauto using authenticated_elem.
  unfold join_room. cbn [String.eqb Ascii.eqb Bool.eqb negb andb].
  assert ((join r "PLAYER").1 = "JOIN:ACKSTATUS:0") as Hjoin.
  { unfold join, max_players. by rewrite Hlen. }
  assert (able_to_add_player (update r s "PLAYER") = false) as Hfull.
  { unfold able_to_add_player, max_players. by rewrite Hpl'. }
  assert (get_another_player (update r s "PLAYER") s = Some s) as Hother.
  { unfold get_another_player. rewrite Hpl'. cbn -[is_same_socket].
    by rewrite is_same_socket_refl. }
  pose proof (name_players_same (authenticated_clients st)
                (map snd (authenticated_clients st)) s w (None, None)
                Hnames Hkeys Hw Hnames (λ x H, H)) as Hnamed.
  rewrite bool_decide_eq_true_2 in Hnamed
    by (apply list_elem_of_fmap; by eexists (_, _)).
  mrun. rewrite Hjoin. cbn [String.eqb Ascii.eqb Bool.eqb negb andb].
  rewrite Hfull. cbn [negb fst snd app]. done.
Qed.

(** X12.  A creator who joins the own room as PLAYER.  In a reachable
    state the join is accepted (JOIN:ACKSTATUS:0 is sent, and the room is
    stored with the creator in both player slots and marked as begun), and
    then the handler raises [UnboundLocalError]: the other player of the
    sender is the sender, so the scan that names the two players never binds
    [player_2], and no BEGIN is sent. *)
Theorem joining_own_room_raises (fuel : nat) (s : Socket) (data n w : string)
    (r : Room) (st : State) :
  reachable checkpw hash_password st →
  py_split (py_strip data) = ["JOIN"; n; "PLAYER"] →
  dict_get n (rooms st) = Some r →
  players r = [s] → (s, w) ∈ authenticated_clients st →
  run (handle_frame checkpw hash_password fuel s data) st
  = Raise UnboundLocalError
      (with_rooms st (dict_set n (update r s "PLAYER") (rooms st)))
      [(s, "JOIN:ACKSTATUS:0")]
  ∧ players (update r s "PLAYER") = [s; s]
  ∧ has_began (update r s "PLAYER") = true
  ∧ get_another_player (update r s "PLAYER") s = Some s.
Proof.
  intros Hreach Hsplit Hr Hpl Hw.
  destruct (join_own_room fuel s data n w r st Hreach Hsplit Hr Hpl Hw) as [Hrun Hpl'].
  split_and!; [done|done| |].
  - unfold update, max_players. by rewrite Hpl.
  - unfold get_another_player. rewrite Hpl'. cbn -[is_same_socket].
    by rewrite is_same_socket_refl.
Qed.

(** Whatever follows, a JOIN for a room that exists first answers the
    sender with the reply of [Room.join] and stores the room as
    [Room.update] leaves it. *)
Lemma join_room_stores (n mode : string) (r : Room) (s : Socket) (st : State) :
  mode = "PLAYER" ∨ mode = "VIEWER" → dict_get n (rooms st) = Some r →
  hd_error (sent (join_room [n; mode] s st [])) = Some (s, (join r mode).1)
  ∧ rooms (state_after (join_room [n; mode] s st []) st)
    = dict_set n (update r s mode) (rooms st)
  ∧ ((join r mode).1 ≠ "JOIN:ACKSTATUS:0" →
     join_room [n; mode] s st []
     = Ret tt (with_rooms st (dict_set n (update r s mode) (rooms st)))
         [(s, (join r mode).1)]).
Proof.
  intros Hmode Hr.
  remember (join_room [n; mode] s st []) as res eqn:Hres. revert Hres.
  unfold join_room.
  assert (negb (String.eqb mode "VIEWER") && negb (String.eqb mode "PLAYER") = false) as ->
    by (destruct Hmode as [-> | ->]; done).
  unfold mbind at 1, M_bind at 1, get_state at 1. rewrite Hr. cbv beta iota zeta.
  destruct (String.eqb (join r mode).1 "JOIN:ACKSTATUS:0") eqn:Hzero.
  - apply String.eqb_eq in Hzero.
    mstep; intros ->; cbn [sent state_after rooms with_rooms with_clients hd_error app];
      (split_and!; [done|done|]); by intros [].
  - cbn [andb]. mstep. intros ->. done.
Qed.

(** X9.  The reply to a JOIN frame of an authenticated connection, in a
    reachable state.  The first message sent goes to the sender and is
    JOIN:ACKSTATUS:3 exactly when the arguments are not a room name and
    PLAYER or VIEWER, 1 exactly when no room has that name, 2 exactly when a
    PLAYER join meets a room of two players, and 0 exactly when a VIEWER
    join, or a PLAYER join of a room with one player, meets a registered
    room.  Unless the code is 0 nothing else is sent and the state is
    unchanged; with code 0 the room is stored as [update] leaves it, with
    the sender appended to its players or to its viewers. *)
Theorem join_room_reply (fuel : nat) (s : Socket) (data : string) (args : list string)
    (st : State) :
  reachable checkpw hash_password st →
  check_authorizations s (authenticated_clients st) = true →
  py_split (py_strip data) = "JOIN" :: args →
  ∃ code,
    hd_error (sent (run (handle_frame checkpw hash_password fuel s data) st))
    = Some (s, "JOIN:ACKSTATUS:" +:+ code)
    ∧ (code = "3" ↔ ¬ ∃ n mode, args = [n; mode] ∧ (mode = "PLAYER" ∨ mode = "VIEWER"))
    ∧ (code = "1" ↔ ∃ n mode, args = [n; mode] ∧ (mode = "PLAYER" ∨ mode = "VIEWER")
                              ∧ dict_get n (rooms st) = None)
    ∧ (code = "2" ↔ ∃ n r, args = [n; "PLAYER"] ∧ dict_get n (rooms st) = Some r
                           ∧ length (players r) = 2%nat)
    ∧ (code = "0" ↔ ∃ n mode r, args = [n; mode] ∧ dict_get n (rooms st) = Some r
                                ∧ (mode = "VIEWER"
                                   ∨ mode = "PLAYER" ∧ length (players r) = 1%nat))
    ∧ (code ≠ "0" →
       run (handle_frame checkpw hash_password fuel s data) st
       = Ret tt st [(s, "JOIN:ACKSTATUS:" +:+ code)])
    ∧ (code = "0" →
       ∀ n mode r, args = [n; mode] → dict_get n (rooms st) = Some r →
         rooms (state_after (run (handle_frame checkpw hash_password fuel s data) st) st)
         = dict_set n (update r s mode) (rooms st)
         ∧ (mode = "PLAYER" → players (update r s mode) = (players r ++ [s])%list)
         ∧ (mode = "VIEWER" → viewers (update r s mode) = (viewers r ++ [s])%list
                              ∧ players (update r s mode) = players r)).
Proof.
  intros Hreach Hauth Hsplit.
  pose proof (reachable_Inv _ _ _ Hreach) as [Hrooms _].
  rewrite (join_frame fuel s data args) by done.
  assert (∀ mode : string, mode = "PLAYER" ∨ mode = "VIEWER" →
            negb (String.eqb mode "VIEWER") && negb (String.eqb mode "PLAYER") = false)
    as Hvalid by (intros mode [-> | ->]; done).
  assert (∀ mode, mode ≠ "PLAYER" → mode ≠ "VIEWER" →
            negb (String.eqb mode "VIEWER") && negb (String.eqb mode "PLAYER") = true)
    as Hinvalid.
  { intros mode H1 H2. apply String.eqb_neq in H1, H2. by rewrite H1, H2. }
  destruct args as [|n [|mode [|? ?]]];
    try (exists "3"; split_and!; [done|naive_solver..]).
  destruct (decide (mode = "PLAYER" ∨ mode = "VIEWER")) as [Hmode|Hmode].
  2:{ unfold join_room. rewrite Hinvalid by naive_solver.
      exists "3"; split_and!; [done|naive_solver..]. }
  destruct (dict_get n (rooms st)) as [r|] eqn:Hr.
  2:{ unfold join_room. rewrite Hvalid by done.
      unfold run, mbind, M_bind, get_state. rewrite Hr.
      exists "1"; split_and!; [done|naive_solver..]. }
  destruct (join_room_stores n mode r s st Hmode Hr) as (Hfirst & Hstored & Hrefused).
  destruct (rooms_ok_lookup _ _ _ Hrooms Hr) as (_ & Hlen & _).
  destruct (decide (mode = "PLAYER" ∧ length (players r) = 2%nat)) as [[-> Hfull]|Hfree].
  - assert ((join r "PLAYER").1 = "JOIN:ACKSTATUS:2") as Hjoin
      by (unfold join, max_players; by rewrite Hfull).
    assert (update r s "PLAYER" = r) as Hup
      by (unfold update, max_players; by rewrite Hfull).
    rewrite Hjoin in Hfirst, Hrefused. rewrite Hup in Hrefused.
    rewrite (dict_set_id _ _ _ Hr), with_rooms_id in Hrefused.
    exists "2". unfold run. rewrite Hrefused by done.
    split_and!; [done|naive_solver|naive_solver|naive_solver| |naive_solver|naive_solver].
    split; [done|]. intros (n' & mode' & r' & [= <- <-] & Hr' & [?|[_ ?]]); [done|].
    simplify_eq. lia.
  - assert ((join r mode).1 = "JOIN:ACKSTATUS:0") as Hjoin.
    { unfold join, max_players. destruct Hmode as [-> | ->]; [|done].
      destruct (Nat.ltb_spec (length (players r)) 2); [done|]. exfalso. apply Hfree. split; [done | lia]. }
    rewrite Hjoin in Hfirst.
    exists "0". unfold run. split_and!; [done|naive_solver..| |done|].
    + split; [intros _|done]. exists n, mode, r. split_and!; [done|done|].
      destruct Hmode as [-> | ->]; [right|by left]. split; [done|].
      destruct (decide (length (players r) = 2%nat)); [exfalso; by apply Hfree | lia].
    + intros _ n' mode' r' [= <- <-] Hr'. rewrite Hr in Hr'. injection Hr' as <-.
      split_and!; [done| |].
      * intros ->. unfold update, max_players.
        destruct (Nat.ltb_spec (length (players r)) 2); [done|]. exfalso. apply Hfree. split; [done | lia].
      * by intros ->.
Qed.

End Joining.

(** ** Listing the rooms *)

Lemma dict_get_elem {V : Type} (n : string) (v : V) (d : list (string * V)) :
  NoDup (map fst d) → (n, v) ∈ d ↔ dict_get n d = Some v.
Proof.
  induction d as [|[k' v'] d IH]; simpl.
  - intros _. split; [by intros ?%elem_of_nil | done].
  - intros [Hk Hnd]%NoDup_cons. rewrite elem_of_cons.
    destruct (String.eqb_spec k' n) as [->|Hne].
    + split; [intros [[= ->]|Hin]; [done|] | intros [= ->]; by left].
      exfalso. apply Hk. apply list_elem_of_fmap. by exists (n, v).
    + rewrite <- IH by done. split; [intros [[= ? ?]|?]; [congruence|done] | by right].
Qed.

Lemma filter_keys_sublist {V : Type} (P : string * V → bool) (d : list (string * V)) :
  map fst (List.filter P d) `sublist_of` map fst d.
Proof.
  induction d as [|kv d IH]; simpl; [constructor|].
  destruct (P kv); simpl; by constructor.
Qed.

Section Listing.

Variable checkpw : string → string → bool.
Variable hash_password : string → string.

(** X13.  ROOMLIST lists what JOIN accepts.  In a reachable state the
    reply to a ROOMLIST frame of an authenticated connection is the only
    message sent and the state is unchanged; it is ROOMLIST:ACKSTATUS:1
    unless the one argument is PLAYER or VIEWER, and otherwise
    ROOMLIST:ACKSTATUS:0: followed by room names joined with commas, in the
    order of the registry (all of them for VIEWER), where a name is listed
    exactly when a JOIN of that room in that mode would be answered
    JOIN:ACKSTATUS:0. *)
Theorem room_list_matches_join (fuel : nat) (s : Socket) (data : string)
    (args : list string) (st : State) :
  reachable checkpw hash_password st →
  check_authorizations s (authenticated_clients st) = true →
  py_split (py_strip data) = "ROOMLIST" :: args →
  ∃ reply,
    run (handle_frame checkpw hash_password fuel s data) st = Ret tt st [(s, reply)]
    ∧ ((¬ ∃ mode, args = [mode] ∧ (mode = "PLAYER" ∨ mode = "VIEWER")) →
       reply = "ROOMLIST:ACKSTATUS:1")
    ∧ ∀ mode, args = [mode] → mode = "PLAYER" ∨ mode = "VIEWER" →
        ∃ names,
          reply = "ROOMLIST:ACKSTATUS:0:" +:+ String.concat "," names
          ∧ names `sublist_of` map fst (rooms st)
          ∧ (mode = "VIEWER" → names = map fst (rooms st))
          ∧ ∀ (n : string) (joiner : Socket),
              n ∈ names
              ↔ hd_error (sent (run (join_room [n; mode] joiner) st))
                = Some (joiner, "JOIN:ACKSTATUS:0").
Proof.
  intros Hreach Hauth Hsplit.
  pose proof (reachable_Inv _ _ _ Hreach) as [Hrooms _].
  pose proof (registry_reachable _ _ _ Hreach) as [Hkeys _].
  unfold run at 1, handle_frame, handle_message. rewrite Hsplit.
  cbn [hd tl String.eqb Ascii.eqb Bool.eqb].
  unfold mbind at 1, M_bind at 1, get_state at 1. rewrite Hauth. cbn [negb].
  unfold room_list.
  destruct args as [|mode [|? ?]];
    try (eexists; split_and!; [done|done|]; by intros ? [= ]).
  destruct (decide (mode = "PLAYER" ∨ mode = "VIEWER")) as [Hmode|Hmode].
  2:{ assert (negb (String.eqb mode "PLAYER") && negb (String.eqb mode "VIEWER") = true) as ->.
      { destruct (String.eqb_spec mode "PLAYER"), (String.eqb_spec mode "VIEWER");
          try done; exfalso; apply Hmode; auto. }
      eexists; split_and!; [done|done|]. intros mode' [= <-] ?. done. }
  assert (negb (String.eqb mode "PLAYER") && negb (String.eqb mode "VIEWER") = false) as ->
    by (destruct Hmode as [-> | ->]; done).
  eexists. split_and!; [done|intros H; exfalso; apply H; eauto|].
  intros mode' [= <-] _.
  assert (∀ (n : string) (joiner : Socket),
            hd_error (sent (run (join_room [n; mode] joiner) st))
            = Some (joiner, "JOIN:ACKSTATUS:0")
            ↔ ∃ r, dict_get n (rooms st) = Some r
                   ∧ (mode = "PLAYER" → able_to_add_player r = true)) as Hjoin.
  { intros n joiner. unfold run. destruct (dict_get n (rooms st)) as [r|] eqn:Hr.
    - destruct (join_room_stores n mode r joiner st Hmode Hr) as (-> & _).
      unfold join, able_to_add_player.
      destruct Hmode as [-> | ->]; cbn [String.eqb Ascii.eqb Bool.eqb].
      + destruct (length (players r) <? max_players)%nat eqn:Hlt; simpl; split.
        * intros _. by exists r.
        * done.
        * intros [= ].
        * intros (r' & [= <-] & H). specialize (H eq_refl). congruence.
      + split; [intros _; by exists r | done].
    - unfold join_room.
      assert (negb (String.eqb mode "VIEWER") && negb (String.eqb mode "PLAYER") = false) as ->
        by (destruct Hmode as [-> | ->]; done).
      unfold mbind, M_bind, get_state. rewrite Hr.
      split; [intros [= ] | by intros (r & [= ] & _)]. }
  destruct Hmode as [-> | ->]; cbn [String.eqb Ascii.eqb Bool.eqb].
  - exists (map fst (List.filter (λ kv : string * Room, able_to_add_player kv.2) (rooms st))).
    split_and!; [done|apply filter_keys_sublist|done|].
    intros n joiner. rewrite Hjoin. rewrite list_elem_of_fmap. split.
    + intros ([n' r] & -> & [Hin Hable]%list_elem_of_In%filter_In).
      exists r. split; [|done]. apply dict_get_elem; [done|]. by apply list_elem_of_In.
    + intros (r & Hr & Hable). exists (n, r). split; [done|].
      apply list_elem_of_In, filter_In. split; [|by apply Hable].
      apply list_elem_of_In. by apply dict_get_elem.
  - exists (map fst (rooms st)). split_and!; [done|done|done|].
    intros n joiner. rewrite Hjoin, <- dict_get_is_Some. split.
    + intros [r Hr]. by exists r.
    + intros (r & Hr & _). by exists r.
Qed.

End Listing.

(** ** Closing a connection *)


Lemma check_authorizations_without (s t : Socket) (auth : list (Socket * string)) :
  check_authorizations t (without_socket s auth)
  = negb (is_same_socket t s) && check_authorizations t auth.
Proof.
  unfold check_authorizations, without_socket.
  induction auth as [|[k u] auth IH]; simpl; [by rewrite andb_false_r|].
  destruct (is_same_socket k s) eqn:Hks; simpl; rewrite IH.
  - apply is_same_socket_eq in Hks as ->.
    destruct (is_same_socket s t) eqn:Hst; simpl; [|done].
    apply is_same_socket_eq in Hst as ->. by rewrite is_same_socket_refl.
  - destruct (is_same_socket k t) eqn:Hkt; simpl; [|done].
    apply is_same_socket_eq in Hkt as ->. by rewrite Hks.
Qed.


Lemma winner_name_of_acc (k : Socket) (auth : list (Socket * string)) (acc : option string) :
  fold_left (λ found kv, if is_same_socket kv.1 k then Some kv.2 else found) auth acc
  = match winner_name_of k auth with Some w => Some w | None => acc end.
Proof.
  unfold winner_name_of. revert acc.
  induction auth as [|[k' w'] auth IH]; intros acc; simpl; [done|].
  rewrite IH, (IH (if is_same_socket k' k then Some w' else None)).
  by repeat case_match.
Qed.







Section Closing.

Variable checkpw : string → string → bool.
Variable hash_password : string → string.





End Closing.

(** ** Accounts and bindings over several steps *)


Section Sessions.

Variable checkpw : string → string → bool.
Variable hash_password : string → string.

Lemma login_frame (fuel : nat) (s : Socket) (data : string) (args : list string) st :
  py_split (py_strip data) = "LOGIN" :: args →
  run (handle_frame checkpw hash_password fuel s data) st = login checkpw args s st [].
Proof.
  intros Hsplit. unfold run, handle_frame, handle_message. by rewrite Hsplit.
Qed.





Lemma register_frame (fuel : nat) (s : Socket) (data : string) (args : list string) st :
  py_split (py_strip data) = "REGISTER" :: args →
  run (handle_frame checkpw hash_password fuel s data) st
  = register hash_password args s st [].
Proof.
  intros Hsplit. unfold run, handle_frame, handle_message. by rewrite Hsplit.
Qed.

(** X5.  Registration and login compose.  In a reachable state a REGISTER
    frame with a new user name and two non-empty fields is answered
    REGISTER:ACKSTATUS:0 and stores the hash of the password; a LOGIN frame
    with the same name and password, from a connection that is not yet
    authenticated, is then answered LOGIN:ACKSTATUS:0 and binds the
    connection, provided that the password verifies against its own hash.
    (The rewrite of the database file is outside the model.) *)
Theorem register_then_login (fuel fuel' : nat) (s newcomer : Socket)
    (data data' username password : string) (st : State) :
  reachable checkpw hash_password st →
  py_split (py_strip data) = ["REGISTER"; username; password] →
  py_split (py_strip data') = ["LOGIN"; username; password] →
  username ≠ "" → password ≠ "" →
  users st !! username = None →
  checkpw password (hash_password password) = true →
  check_authorizations newcomer (authenticated_clients st) = false →
  run (handle_frame checkpw hash_password fuel s data) st
  = Ret tt (with_users st (<[username := hash_password password]> (users st)))
      [(s, "REGISTER:ACKSTATUS:0")]
  ∧ run (handle_frame checkpw hash_password fuel' newcomer data')
        (step checkpw hash_password st (Frame fuel s data))
    = Ret tt
        (with_authenticated_clients
           (with_users st (<[username := hash_password password]> (users st)))
           (authenticated_clients st ++ [(newcomer, username)]))
        [(newcomer, "LOGIN:ACKSTATUS:0")].
Proof.
  intros Hreach Hreg Hlog Hu Hp Hnew Hcheck Hfree.
  assert (existsb (String.eqb username) (map snd (authenticated_clients st)) = false)
    as Hunused.
  { apply not_true_is_false.
    intros ([k u] & Hk & Hin)%existsb_eqb_elem_of%list_elem_of_fmap.
    simpl in Hk. subst u.
    destruct (reachable_bound_names checkpw hash_password st Hreach k username Hin)
      as [_ [h Hh]]. congruence. }
  apply String.eqb_neq in Hu, Hp.
  assert (run (handle_frame checkpw hash_password fuel s data) st
          = Ret tt (with_users st (<[username := hash_password password]> (users st)))
              [(s, "REGISTER:ACKSTATUS:0")]) as Hrun.
  { rewrite (register_frame fuel s data [username; password]) by done.
    unfold register. rewrite Hu, Hp. cbn [orb]. mrun.
    rewrite bool_decide_eq_false_2 by (rewrite Hnew; by intros [? ?]). done. }
  split; [done|].
  unfold step. cbn [handler]. rewrite Hrun. cbn [state_after].
  rewrite (login_frame fuel' newcomer data' [username; password]) by done.
  unfold login. rewrite Hu, Hp. cbn [orb].
  unfold mbind at 1, M_bind at 1, get_state at 1. cbn [users with_users].
  rewrite lookup_insert_eq, Hcheck. cbn [authenticated_clients with_users].
  rewrite Hunused, Hfree. mrun. done.
Qed.

End Sessions.

(** ** The placement that ends a game *)


Section Ending.

Variable checkpw : string → string → bool.
Variable hash_password : string → string.


End Ending.

(** ** The board as the client reads it *)

Lemma digit_char (c : Z) :
  (c = 0 ∨ c = 1 ∨ c = 2)%Z →
  ∃ ch, py_str c = String ch ""
        ∧ (c = 0%Z ∧ ch = "0"%char ∨ c = 1%Z ∧ ch = "1"%char ∨ c = 2%Z ∧ ch = "2"%char).
Proof. intros [-> | [-> | ->]]; eexists; (split; [reflexivity|]); auto. Qed.

(** The board string of a 3 by 3 board of digits, character by character. *)
Lemma board_chars (r : Room) :
  is_3x3 (matrix r) → board_digits (matrix r) →
  ∃ c0 c1 c2 c3 c4 c5 c6 c7 c8 : Z,
    matrix r = [[c0; c1; c2]; [c3; c4; c5]; [c6; c7; c8]]
    ∧ Forall (λ c, c = 0 ∨ c = 1 ∨ c = 2)%Z [c0; c1; c2; c3; c4; c5; c6; c7; c8]
    ∧ get_matrix_in_string r
      = py_str c0 +:+ py_str c1 +:+ py_str c2 +:+ py_str c3 +:+ py_str c4
        +:+ py_str c5 +:+ py_str c6 +:+ py_str c7 +:+ py_str c8.
Proof.
  intros (a & b & c & d & e & f & g & h & i & Hm)%is_3x3_cells Hdig.
  exists a, b, c, d, e, f, g, h, i. split; [done|].
  unfold board_digits in Hdig. rewrite Hm in Hdig.
  repeat match goal with
         | H : Forall _ (_ :: _) |- _ => apply Forall_cons in H as [? ?]
         end.
  split; [repeat (apply Forall_cons_2; [done|]); apply Forall_nil_2|].
  unfold get_matrix_in_string. rewrite Hm. cbn [concat map app String.concat].
  destruct (digit_char a) as (? & -> & _); [done|].
  destruct (digit_char b) as (? & -> & _); [done|].
  destruct (digit_char c) as (? & -> & _); [done|].
  destruct (digit_char d) as (? & -> & _); [done|].
  destruct (digit_char e) as (? & -> & _); [done|].
  destruct (digit_char f) as (? & -> & _); [done|].
  destruct (digit_char g) as (? & -> & _); [done|].
  destruct (digit_char h) as (? & -> & _); [done|].
  destruct (digit_char i) as (? & -> & _); [done|].
  done.
Qed.

Lemma occupancy_of_char (c : Z) (ch : ascii) :
  c = 0%Z ∧ ch = "0"%char ∨ c = 1%Z ∧ ch = "1"%char ∨ c = 2%Z ∧ ch = "2"%char →
  (if Ascii.eqb ch "0" then Some (false, None)
   else if Ascii.eqb ch "1" then Some (true, Some "X")
   else if Ascii.eqb ch "2" then Some (true, Some "O")
   else None) = Some (occupancy c)
  ∧ Client.symbols ch = Some (mark_symbol c)
  ∧ is_space ch = false ∧ Ascii.eqb ch ":" = false.
Proof. intros [[-> ->] | [[-> ->] | [-> ->]]]; done. Qed.

Ltac board_cells Hshape Hdig :=
  destruct (board_chars _ Hshape Hdig)
    as (c0 & c1 & c2 & c3 & c4 & c5 & c6 & c7 & c8 & Hm & Hall & Hstr);
  repeat match goal with
         | H : Forall _ (_ :: _) |- _ => apply Forall_cons in H as [? H]
         end;
  destruct (digit_char c0) as (ch0 & Hs0 & Hc0); [done|];
  destruct (digit_char c1) as (ch1 & Hs1 & Hc1); [done|];
  destruct (digit_char c2) as (ch2 & Hs2 & Hc2); [done|];
  destruct (digit_char c3) as (ch3 & Hs3 & Hc3); [done|];
  destruct (digit_char c4) as (ch4 & Hs4 & Hc4); [done|];
  destruct (digit_char c5) as (ch5 & Hs5 & Hc5); [done|];
  destruct (digit_char c6) as (ch6 & Hs6 & Hc6); [done|];
  destruct (digit_char c7) as (ch7 & Hs7 & Hc7); [done|];
  destruct (digit_char c8) as (ch8 & Hs8 & Hc8); [done|];
  rewrite Hs0, Hs1, Hs2, Hs3, Hs4, Hs5, Hs6, Hs7, Hs8 in Hstr;
  cbv [String.append] in Hstr;
  apply occupancy_of_char in Hc0 as (Ho0 & Hy0 & Hp0 & Hn0);
  apply occupancy_of_char in Hc1 as (Ho1 & Hy1 & Hp1 & Hn1);
  apply occupancy_of_char in Hc2 as (Ho2 & Hy2 & Hp2 & Hn2);
  apply occupancy_of_char in Hc3 as (Ho3 & Hy3 & Hp3 & Hn3);
  apply occupancy_of_char in Hc4 as (Ho4 & Hy4 & Hp4 & Hn4);
  apply occupancy_of_char in Hc5 as (Ho5 & Hy5 & Hp5 & Hn5);
  apply occupancy_of_char in Hc6 as (Ho6 & Hy6 & Hp6 & Hn6);
  apply occupancy_of_char in Hc7 as (Ho7 & Hy7 & Hp7 & Hn7);
  apply occupancy_of_char in Hc8 as (Ho8 & Hy8 & Hp8 & Hn8).

(** The occupancy test of the client on the board string of the server. *)
Lemma occupied_on_board (r : Room) (col row : Z) :
  is_3x3 (matrix r) → board_digits (matrix r) →
  (0 ≤ col ≤ 2)%Z → (0 ≤ row ≤ 2)%Z →
  Client.is_position_occupied (get_matrix_in_string r) col row
  = Some (Some (occupancy (cell (matrix r) (Z.to_nat row) (Z.to_nat col)))).
Proof.
  intros Hshape Hdig Hcol Hrow. board_cells Hshape Hdig.
  rewrite Hstr, Hm. unfold Client.is_position_occupied, Client.py_subscript, Client.board_of.
  assert (col = 0 ∨ col = 1 ∨ col = 2)%Z as [-> | [-> | ->]] by lia;
    (assert (row = 0 ∨ row = 1 ∨ row = 2)%Z as [-> | [-> | ->]] by lia);
    cbv -[Ascii.eqb occupancy]; f_equal; done.
Qed.

Lemma py_rstrip_cons (c : ascii) (s : string) :
  is_space c = false → py_rstrip (String c s) = String c (py_rstrip s).
Proof. intros Hc. simpl. rewrite Hc. by destruct (py_rstrip s). Qed.

(** Splitting after a first field that holds no colon. *)
Lemma py_split_prefix (field rest : string) :
  py_split field = [field] →
  py_split (field +:+ String ":" rest) = field :: py_split rest.
Proof.
  induction field as [|c field IH]; [done|].
  change (String c field +:+ String ":" rest) with (String c (field +:+ String ":" rest)).
  cbn [py_split].
  destruct (Ascii.eqb c ":"); [by intros [= ]|].
  pose proof (py_split_nonempty field).
  destruct (py_split field) as [|f l] eqn:Hf; [done|].
  intros [= -> ->]. by rewrite IH.
Qed.

Lemma py_split_whole (field : string) (c : ascii) :
  Ascii.eqb c ":" = false → py_split field = [field] →
  py_split (String c field) = [String c field].
Proof. intros Hc Hf. cbn [py_split]. by rewrite Hc, Hf. Qed.

(** The board the client takes from a BOARDSTATUS message is the board
    string the server put there. *)
Lemma received_board_on_board (r : Room) :
  is_3x3 (matrix r) → board_digits (matrix r) →
  Client.received_board ("BOARDSTATUS:" +:+ get_matrix_in_string r)
  = Some (get_matrix_in_string r).
Proof.
  intros Hshape Hdig. board_cells Hshape Hdig. rewrite Hstr.
  unfold Client.received_board, py_strip. cbv [String.append].
  rewrite !py_rstrip_cons by done. cbn [py_rstrip py_lstrip].
  change (is_space "B") with false. cbv iota.
  change (py_split ("BOARDSTATUS" +:+ String ":"
            (String ch0 (String ch1 (String ch2 (String ch3 (String ch4
               (String ch5 (String ch6 (String ch7 (String ch8 ""))))))))))
          !! 1%nat
          = Some (String ch0 (String ch1 (String ch2 (String ch3 (String ch4
               (String ch5 (String ch6 (String ch7 (String ch8 "")))))))))).
  rewrite py_split_prefix by done. cbn [lookup list_lookup].
  assert (∀ field, py_split field = [field] → py_split field !! 0%nat = Some field) as Hhead
    by (by intros field ->).
  apply Hhead. repeat (apply py_split_whole; [done|]). done.
Qed.

(** [print_board] on the board string of the server. *)
Lemma print_board_on_board (r : Room) :
  is_3x3 (matrix r) → board_digits (matrix r) →
  Client.print_board (get_matrix_in_string r)
  = ([ Client.rule;
       "| " +:+ String.concat " | " (map mark_symbol (matrix r !!! 0%nat)) +:+ " |";
       Client.rule;
       "| " +:+ String.concat " | " (map mark_symbol (matrix r !!! 1%nat)) +:+ " |";
       Client.rule;
       "| " +:+ String.concat " | " (map mark_symbol (matrix r !!! 2%nat)) +:+ " |";
       Client.rule ], true).
Proof.
  intros Hshape Hdig. board_cells Hshape Hdig. rewrite Hstr, Hm.
  unfold Client.print_board, Client.board_of.
  cbn [map substring list_ascii_of_string Client.print_rows mapM mbind option_bind
       mret option_ret].
  rewrite Hy0, Hy1, Hy2, Hy3, Hy4, Hy5, Hy6, Hy7, Hy8.
  cbn [mapM mbind option_bind mret option_ret Client.print_rows String.concat].
  done.
Qed.

(** ** The client at the board *)

(** X20.  The client reads the board the server wrote.  For a room in its
    life, the board the client takes from the message
    BOARDSTATUS:<board string> is that board string, and on it
    [is_position_occupied] at a column and a row between 0 and 2 neither
    raises nor returns [None]: it answers (False, None) exactly when the
    cell at that row and column is 0, and otherwise True with 'X' for mark 1
    and 'O' for mark 2. *)
Theorem client_reads_server_board (creator : Socket) (k : nat) (r : Room) (col row : Z) :
  lifetime creator k r → (0 ≤ col ≤ 2)%Z → (0 ≤ row ≤ 2)%Z →
  Client.received_board ("BOARDSTATUS:" +:+ get_matrix_in_string r)
  = Some (get_matrix_in_string r)
  ∧ Client.is_position_occupied (get_matrix_in_string r) col row
    = Some (Some (occupancy (cell (matrix r) (Z.to_nat row) (Z.to_nat col))))
  ∧ ((occupancy (cell (matrix r) (Z.to_nat row) (Z.to_nat col))).1 = false
     ↔ cell (matrix r) (Z.to_nat row) (Z.to_nat col) = 0%Z).
Proof.
  intros Hlife Hcol Hrow.
  pose proof (lifetime_invariant _ _ _ Hlife) as (Hshape & Hdig & _).
  split_and!; [by apply received_board_on_board | by apply occupied_on_board |].
  unfold occupancy. destruct (Z.eqb_spec (cell (matrix r) (Z.to_nat row) (Z.to_nat col)) 0);
    simpl; split; done.
Qed.

(** X21.  [print_board] on the board string of a room in its life never
    meets an unknown character: it prints 7 lines, a rule of 13 dashes
    around each of 3 rows, and a row shows ' ', 'X' or 'O' for the cells 0,
    1 and 2 of that row of the matrix. *)
Theorem print_board_shows_marks (creator : Socket) (k : nat) (r : Room) :
  lifetime creator k r →
  Client.print_board (get_matrix_in_string r)
  = ([ Client.rule;
       "| " +:+ String.concat " | " (map mark_symbol (matrix r !!! 0%nat)) +:+ " |";
       Client.rule;
       "| " +:+ String.concat " | " (map mark_symbol (matrix r !!! 1%nat)) +:+ " |";
       Client.rule;
       "| " +:+ String.concat " | " (map mark_symbol (matrix r !!! 2%nat)) +:+ " |";
       Client.rule ], true)
  ∧ Forall (λ row, length row = 3%nat) (matrix r).
Proof.
  intros Hlife.
  pose proof (lifetime_invariant _ _ _ Hlife) as (Hshape & Hdig & _).
  split; [by apply print_board_on_board | apply Hshape].
Qed.

Lemma py_int_digit (c : Z) : (0 ≤ c ≤ 2)%Z → py_int (py_str c) = Some c.
Proof.
  intros H. assert (c = 0 ∨ c = 1 ∨ c = 2)%Z as [-> | [-> | ->]] by lia; done.
Qed.



(** ** The client in the lobby *)

Lemma roomlist_reply_understood (names : string) (username user_type room_name : option string) :
  ∃ printed,
    Client.handle_outroom_message (py_strip ("ROOMLIST:ACKSTATUS:0:" +:+ names))
      username user_type room_name
    = Client.Returned (false, false, false) printed.
Proof.
  unfold py_strip. cbv [String.append].
  rewrite !py_rstrip_cons by done.
  set (rest := py_rstrip names).
  cbn [py_lstrip]. change (is_space "R") with false. cbv iota.
  change (String "R" (String "O" (String "O" (String "M" (String "L" (String "I"
            (String "S" (String "T" (String ":" (String "A" (String "C" (String "K"
            (String "S" (String "T" (String "A" (String "T" (String "U" (String "S"
            (String ":" (String "0" (String ":" rest)))))))))))))))))))))
    with ("ROOMLIST" +:+ String ":" ("ACKSTATUS" +:+ String ":" ("0" +:+ String ":" rest))).
  unfold Client.handle_outroom_message.
  rewrite !py_split_prefix by done.
  cbv [String.append].
  cbn [hd tl lookup list_lookup String.eqb Ascii.eqb Bool.eqb].
  by eexists.
Qed.

Section Lobby.

Variable checkpw : string → string → bool.
Variable hash_password : string → string.

Ltac fixed_reply :=
  eexists; split; [reflexivity|]; intros; eexists; reflexivity.

Lemma login_understood (sm : list string) (s : Socket) st :
  understood s (login checkpw sm s st []).
Proof. unfold login. mcases; fixed_reply. Qed.

Lemma register_understood (sm : list string) (s : Socket) st :
  understood s (register hash_password sm s st []).
Proof. unfold register. mcases; fixed_reply. Qed.

Lemma create_room_understood (sm : list string) (s : Socket) st :
  understood s (create_room sm s st []).
Proof. unfold create_room. mcases; fixed_reply. Qed.

Lemma lobby_flags_roomlist (names : string) :
  lobby_flags ("ROOMLIST:ACKSTATUS:0:" +:+ names) = (false, false, false).
Proof. done. Qed.

Lemma room_list_understood (sm : list string) (s : Socket) st :
  understood s (room_list sm s st []).
Proof.
  unfold room_list. mcases; try fixed_reply.
  all: eexists; (split; [reflexivity|]); intros;
    rewrite lobby_flags_roomlist; apply roomlist_reply_understood.
Qed.

Lemma join_room_understood (sm : list string) (s : Socket) st :
  understood s (join_room sm s st []).
Proof.
  destruct sm as [|n [|mode [|? ?]]]; try (unfold join_room; fixed_reply).
  destruct (decide (mode = "PLAYER" ∨ mode = "VIEWER")) as [Hmode|Hmode].
  - destruct (dict_get n (rooms st)) as [r|] eqn:Hr.
    + destruct (join_room_stores n mode r s st Hmode Hr) as (Hfirst & _).
      exists (join r mode).1. split; [done|].
      unfold join. repeat case_match; intros; eexists; reflexivity.
    + unfold join_room.
      assert (negb (String.eqb mode "VIEWER") && negb (String.eqb mode "PLAYER") = false) as ->
        by (destruct Hmode as [-> | ->]; done).
      unfold mbind, M_bind, get_state. rewrite Hr. fixed_reply.
  - unfold join_room.
    assert (negb (String.eqb mode "VIEWER") && negb (String.eqb mode "PLAYER") = true) as ->.
    { destruct (String.eqb_spec mode "PLAYER"), (String.eqb_spec mode "VIEWER");
        try done; exfalso; apply Hmode; auto. }
    fixed_reply.
Qed.

(** X22.  The client understands every reply of the lobby.  Whatever the
    state, the first message the server sends in answer to a LOGIN,
    REGISTER, ROOMLIST, CREATE or JOIN frame goes to the sender, and
    [handle_outroom_message] returns on it: it neither exits on an unknown
    message nor raises.  The flags (waiting, your_turn, player) it returns
    are (True, True, True) exactly for CREATE:ACKSTATUS:0, (True, False,
    False) exactly for JOIN:ACKSTATUS:0, and all False otherwise. *)
Theorem client_understands_lobby_replies (fuel : nat) (s : Socket) (data : string)
    (st : State) (username user_type room_name : option string) :
  lobby_command (hd "" (py_split (py_strip data))) →
  ∃ message printed,
    hd_error (sent (run (handle_frame checkpw hash_password fuel s data) st))
    = Some (s, message)
    ∧ Client.handle_outroom_message (py_strip message) username user_type room_name
      = Client.Returned (lobby_flags message) printed
    ∧ (lobby_flags message = (true, true, true) ↔ message = "CREATE:ACKSTATUS:0")
    ∧ (lobby_flags message = (true, false, false) ↔ message = "JOIN:ACKSTATUS:0").
Proof.
  intros Hcmd.
  assert (understood s (run (handle_frame checkpw hash_password fuel s data) st))
    as (message & Hfirst & Hclient).
  { unfold run, handle_frame, handle_message.
    destruct Hcmd as [-> | [-> | [-> | [-> | ->]]]]; cbn [String.eqb Ascii.eqb Bool.eqb];
      [apply login_understood | apply register_understood | ..];
      unfold mbind, M_bind, get_state;
      (destruct (check_authorizations s (authenticated_clients st)); cbn [negb];
       [|unfold sendall; fixed_reply]).
    - apply room_list_understood.
    - apply create_room_understood.
    - apply join_room_understood. }
  destruct (Hclient username user_type room_name) as [printed Hprinted].
  exists message, printed. split_and!; [done|done| |].
  - unfold lobby_flags. split; [|by intros ->].
    destruct (String.eqb_spec message "CREATE:ACKSTATUS:0"); [done|].
    by destruct (String.eqb message "JOIN:ACKSTATUS:0").
  - unfold lobby_flags. split; [|by intros ->].
    destruct (String.eqb_spec message "CREATE:ACKSTATUS:0"); [done|].
    by destruct (String.eqb_spec message "JOIN:ACKSTATUS:0").
Qed.

End Lobby.

(** ** A room that outlives its players *)

Lemma winner_name_of_None (k : Socket) (auth : list (Socket * string)) :
  check_authorizations k auth = false → winner_name_of k auth = None.
Proof.
  unfold check_authorizations. induction auth as [|[k' w'] auth IH]; [done|].
  simpl. intros [Hk Hrest]%orb_false_iff.
  unfold winner_name_of. simpl. rewrite winner_name_of_acc, (IH Hrest), Hk. done.
Qed.

Section Leak.

Variable checkpw : string → string → bool.
Variable hash_password : string → string.

(** X24.  A room can outlive its players.  In a reachable state, when a
    creator waiting alone joins the own room as PLAYER and the handler has
    raised, the [finally] block that follows raises too, since the winner it
    looks for is the connection it has just unbound; so the room is never
    removed: after both steps it is still registered, [clients] is as
    before, and the connection is no longer authenticated. *)
Theorem room_outlives_creator_who_joined_it (fuel : nat) (s : Socket) (data n w : string)
    (r : Room) (st : State) :
  reachable checkpw hash_password st →
  py_split (py_strip data) = ["JOIN"; n; "PLAYER"] →
  dict_get n (rooms st) = Some r →
  players r = [s] → (s, w) ∈ authenticated_clients st →
  room_need_to_be_closed s (clients st) = Some n →
  run (disconnect s) (step checkpw hash_password st (Frame fuel s data))
  = Raise UnboundLocalError
      (play checkpw hash_password st [Frame fuel s data; Disconnect s]) []
  ∧ dict_get n (rooms (play checkpw hash_password st [Frame fuel s data; Disconnect s]))
    = Some (update r s "PLAYER")
  ∧ clients (play checkpw hash_password st [Frame fuel s data; Disconnect s]) = clients st
  ∧ check_authorizations s
      (authenticated_clients
         (play checkpw hash_password st [Frame fuel s data; Disconnect s])) = false.
Proof.
  intros Hreach Hsplit Hr Hpl Hw Hclosed.
  destruct (join_own_room checkpw hash_password fuel s data n w r st Hreach Hsplit Hr Hpl Hw)
    as [Hrun Hpl'].
  assert (run (disconnect s) (step checkpw hash_password st (Frame fuel s data))
          = Raise UnboundLocalError
              (with_authenticated_clients
                 (with_rooms st (dict_set n (update r s "PLAYER") (rooms st)))
                 (without_socket s (authenticated_clients st))) []) as Hquit.
  { unfold step at 1. cbn [handler]. rewrite Hrun. cbn [state_after].
    assert (able_to_add_player (update r s "PLAYER") = false) as Hfull
      by (unfold able_to_add_player, max_players; by rewrite Hpl').
    assert (in_room_as_a_player (update r s "PLAYER") s = true) as Hin.
    { unfold in_room_as_a_player. rewrite Hpl'. simpl. by rewrite is_same_socket_refl. }
    assert (get_another_player (update r s "PLAYER") s = Some s) as Hother.
    { unfold get_another_player. rewrite Hpl'. cbn -[is_same_socket].
      by rewrite is_same_socket_refl. }
    assert (winner_name_of s (without_socket s (authenticated_clients st)) = None) as Hname.
    { apply winner_name_of_None.
      by rewrite check_authorizations_without, is_same_socket_refl. }
    unfold disconnect. mrun. rewrite ?Hfull, ?Hin. cbn [negb andb]. mrun. done. }
  assert (play checkpw hash_password st [Frame fuel s data; Disconnect s]
          = with_authenticated_clients
              (with_rooms st (dict_set n (update r s "PLAYER") (rooms st)))
              (without_socket s (authenticated_clients st))) as Hplay.
  { unfold play. cbn [fold_left].
    change (step checkpw hash_password (step checkpw hash_password st (Frame fuel s data))
              (Disconnect s))
      with (state_after
              (run (disconnect s) (step checkpw hash_password st (Frame fuel s data)))
              (step checkpw hash_password st (Frame fuel s data))).
    by rewrite Hquit. }
  rewrite Hplay, Hquit.
  cbn [rooms clients authenticated_clients with_rooms with_authenticated_clients].
  split_and!; [done|by eapply dict_get_set_eq|done|].
  by rewrite check_authorizations_without, is_same_socket_refl.
Qed.

End Leak.

(** * Worked instances *)

Lemma start_state_reachable : reachable toy_checkpw toy_hash start_state.
Proof. by constructor. Qed.

Lemma sample_state_reachable :
  reachable toy_checkpw toy_hash (sample_state empty_matrix 0).
Proof.
  assert (play toy_checkpw toy_hash start_state lobby = sample_state empty_matrix 0)
    as <- by (vm_compute; reflexivity).
  apply reachable_play, start_state_reachable.
Qed.

(** A whole game on [sample_state]: alice completes the top row with her
    third mark, everybody is told that she won, and the room is gone. *)
Lemma short_game_ends :
  sent (run (handle_frame toy_checkpw toy_hash 0 alice_socket "PLACE:2:0")
          (play toy_checkpw toy_hash (sample_state empty_matrix 0)
             [Frame 0 alice_socket "PLACE:0:0"; Frame 0 bob_socket "PLACE:0:1";
              Frame 0 alice_socket "PLACE:1:0"; Frame 0 bob_socket "PLACE:1:1"]))
  = [(alice_socket, "GAMEEND:111220000:0:alice");
     (bob_socket, "GAMEEND:111220000:0:alice");
     (carol_socket, "GAMEEND:111220000:0:alice")]
  ∧ rooms (play toy_checkpw toy_hash (sample_state empty_matrix 0) short_game) = [].
Proof. split; vm_compute; reflexivity. Qed.



(** A PLACE with column 5 raises out of the handler; nothing is sent and the
    state is the one before. *)
Lemma place_out_of_range_raises :
  run (handle_frame toy_checkpw toy_hash 0 alice_socket "PLACE:5:0")
      (sample_state empty_matrix 0)
  = Raise IndexError (sample_state empty_matrix 0) [].
Proof. vm_compute. reflexivity. Qed.


(** The board with two lines arises in play, and the server announces a
    win on it. *)
Lemma double_line_in_play :
  sent (run (handle_frame toy_checkpw toy_hash 0 alice_socket "PLACE:0:0")
          (play toy_checkpw toy_hash (sample_state empty_matrix 0) double_line_game))
  = [(alice_socket, "GAMEEND:111122122:0:alice");
     (bob_socket, "GAMEEND:111122122:0:alice");
     (carol_socket, "GAMEEND:111122122:0:alice")].
Proof. vm_compute. reflexivity. Qed.

Lemma check_end_status_outcome_witness :
  is_win (check_end_status (set_matrix (Room_init alice_socket) double_line_board))
  ↔ (1 ≤ uniform_lines double_line_board)%nat.
Proof.
  apply (check_end_status_outcome (set_matrix (Room_init alice_socket) double_line_board)).
  - split; [reflexivity | repeat constructor].
  - reflexivity.
Defined.

(** C3 as stated fails: on a board where one mark completed a row and a
    column at once the evaluation is Win although two lines, not exactly
    one, are uniformly non-Empty. *)
Lemma win_with_two_lines :
  ¬ (is_win (check_end_status (set_matrix (Room_init alice_socket) double_line_board))
     ↔ uniform_lines double_line_board = 1%nat).
Proof.
  intros [Hwin _].
  assert (uniform_lines double_line_board = 1%nat) as H by (apply Hwin; by split).
  vm_compute in H. discriminate.
Qed.






Lemma sample_room_lifetime : lifetime alice_socket 0 (sample_room empty_matrix 0).
Proof.
  apply (life_update alice_socket 0
           (update (Room_init alice_socket) bob_socket "PLAYER") carol_socket "VIEWER").
  apply (life_update alice_socket 0 (Room_init alice_socket) bob_socket "PLAYER").
  apply life_init.
Qed.

Lemma room_never_exceeds_two_players_witness :
  run (join_room ["r1"; "PLAYER"] carol_socket) (sample_state empty_matrix 0)
  = Ret tt (sample_state empty_matrix 0) [(carol_socket, "JOIN:ACKSTATUS:2")].
Proof.
  destruct (room_never_exceeds_two_players alice_socket 0 (sample_room empty_matrix 0)
              sample_room_lifetime) as [_ Hfull].
  by apply (Hfull eq_refl (sample_state empty_matrix 0) "r1" carol_socket).
Defined.


(** The scenarios of the design document for CREATE and LOGIN: an illegal
    room name, a wrong password, and a user name that is active on another
    connection. *)
Lemma reply_scenarios :
  sent (run (handle_frame toy_checkpw toy_hash 0 alice_socket "CREATE:bad!name")
          (play toy_checkpw toy_hash start_state opening))
  = [(alice_socket, "CREATE:ACKSTATUS:1")]
  ∧ sent (run (handle_frame toy_checkpw toy_hash 0 alice_socket "LOGIN:alice:nope")
            start_state)
    = [(alice_socket, "LOGIN:ACKSTATUS:2")]
  ∧ sent (run (handle_frame toy_checkpw toy_hash 0 bob_socket "LOGIN:alice:pa")
            (play toy_checkpw toy_hash start_state opening))
    = [(bob_socket, "LOGIN:ACKSTATUS:4")].
Proof. vm_compute. repeat split. Qed.





(** * Worked instances, continued *)

Ltac listed := apply (bool_decide_unpack _); vm_compute; exact I.

Lemma waiting_state_reachable : reachable toy_checkpw toy_hash waiting_state.
Proof. apply reachable_play, start_state_reachable. Qed.


Lemma registry_well_formed_witness :
  NoDup (map fst (rooms (sample_state empty_matrix 0))).
Proof.
  apply (registry_well_formed toy_checkpw toy_hash (sample_state empty_matrix 0)).
  apply sample_state_reachable.
Defined.


Lemma bound_names_are_registered_witness :
  "bob" ≠ "" ∧ is_Some (users (sample_state empty_matrix 0) !! "bob").
Proof.
  apply (bound_names_are_registered toy_checkpw toy_hash (sample_state empty_matrix 0)
           bob_socket "bob").
  - apply sample_state_reachable.
  - listed.
Defined.

Lemma register_then_login_witness :
  run (handle_frame toy_checkpw toy_hash 0 dave_socket "LOGIN:dave:pd")
      (step toy_checkpw toy_hash start_state (Frame 0 dave_socket "REGISTER:dave:pd"))
  = Ret tt
      (with_authenticated_clients
         (with_users start_state (<["dave" := toy_hash "pd"]> (users start_state)))
         (authenticated_clients start_state ++ [(dave_socket, "dave")]))
      [(dave_socket, "LOGIN:ACKSTATUS:0")].
Proof.
  apply (register_then_login toy_checkpw toy_hash 0 0 dave_socket dave_socket
           "REGISTER:dave:pd" "LOGIN:dave:pd" "dave" "pd" start_state).
  - apply start_state_reachable.
  - reflexivity.
  - reflexivity.
  - discriminate.
  - discriminate.
  - vm_compute. reflexivity.
  - reflexivity.
  - reflexivity.
Defined.

Lemma unauthenticated_changes_no_room_witness :
  rooms (state_after (run (handle_frame toy_checkpw toy_hash 0 dave_socket "FORFEIT")
                        (sample_state empty_matrix 0))
           (sample_state empty_matrix 0))
  = rooms (sample_state empty_matrix 0).
Proof.
  apply (unauthenticated_changes_no_room toy_checkpw toy_hash 0 dave_socket "FORFEIT"
           (sample_state empty_matrix 0)).
  reflexivity.
Defined.

Lemma stranger_commands_answered_noroom_witness :
  run (handle_frame toy_checkpw toy_hash 0 carol_socket "PLACE:1:1")
      (sample_state empty_matrix 0)
  = Ret tt (sample_state empty_matrix 0) [(carol_socket, "NOROOM")].
Proof.
  apply (stranger_commands_answered_noroom toy_checkpw toy_hash 0 carol_socket "PLACE:1:1"
           (sample_state empty_matrix 0)).
  - reflexivity.
  - intros n r Hin. cbn in Hin. apply list_elem_of_singleton in Hin.
    injection Hin as -> ->. reflexivity.
  - unfold lobby_command. vm_compute. intuition discriminate.
Defined.

Lemma player_out_of_turn_waits_witness :
  run (handle_frame toy_checkpw toy_hash 9 bob_socket "PLACE:1:1")
      (sample_state empty_matrix 0) = Spin.
Proof.
  apply (player_out_of_turn_waits toy_checkpw toy_hash 9 bob_socket "PLACE:1:1" "r1"
           (sample_room empty_matrix 0) (sample_state empty_matrix 0)).
  - reflexivity.
  - unfold lobby_command. vm_compute. intuition discriminate.
  - reflexivity.
  - reflexivity.
  - reflexivity.
  - right. exists alice_socket. split; [reflexivity | discriminate].
Defined.

Lemma join_room_reply_witness :
  ∃ code,
    hd_error (sent (run (handle_frame toy_checkpw toy_hash 0 carol_socket "JOIN:r9:PLAYER")
                      (sample_state empty_matrix 0)))
    = Some (carol_socket, "JOIN:ACKSTATUS:" +:+ code).
Proof.
  destruct (join_room_reply toy_checkpw toy_hash 0 carol_socket "JOIN:r9:PLAYER"
              ["r9"; "PLAYER"] (sample_state empty_matrix 0)) as (code & Hfirst & _).
  - apply sample_state_reachable.
  - reflexivity.
  - reflexivity.
  - exists code. exact Hfirst.
Defined.

Lemma second_player_begins_game_witness :
  run (handle_frame toy_checkpw toy_hash 0 bob_socket "JOIN:r1:PLAYER") waiting_state
  = Ret tt
      (with_clients
         (with_rooms waiting_state
            (dict_set "r1" (update waiting_alone bob_socket "PLAYER") (rooms waiting_state)))
         (without_socket bob_socket (clients waiting_state) ++ [(bob_socket, Some "r1")]))
      [(bob_socket, "JOIN:ACKSTATUS:0");
       (alice_socket, "BEGIN:alice:bob");
       (bob_socket, "BEGIN:alice:bob");
       (carol_socket, "INPROGRESS:alice:bob")].
Proof.
  apply (second_player_begins_game toy_checkpw toy_hash 0 bob_socket alice_socket
           "JOIN:r1:PLAYER" "r1" "alice" "bob" waiting_alone waiting_state).
  - apply waiting_state_reachable.
  - reflexivity.
  - vm_compute. reflexivity.
  - reflexivity.
  - discriminate.
  - listed.
  - listed.
Defined.

Lemma viewer_joins_witness :
  run (handle_frame toy_checkpw toy_hash 0 carol_socket "JOIN:r1:VIEWER")
      (sample_state empty_matrix 0)
  = Ret tt
      (with_rooms (sample_state empty_matrix 0)
         (dict_set "r1" (update (sample_room empty_matrix 0) carol_socket "VIEWER")
            (rooms (sample_state empty_matrix 0))))
      [(carol_socket, "JOIN:ACKSTATUS:0"); (carol_socket, "INPROGRESS:alice:bob")].
Proof.
  destruct (viewer_joins toy_checkpw toy_hash 0 carol_socket "JOIN:r1:VIEWER" "r1"
              (sample_room empty_matrix 0) (sample_state empty_matrix 0))
    as (_ & _ & _ & _ & _ & Hrunning).
  - apply sample_state_reachable.
  - reflexivity.
  - reflexivity.
  - reflexivity.
  - apply (Hrunning alice_socket bob_socket "alice" "bob").
    + reflexivity.
    + reflexivity.
    + discriminate.
    + listed.
    + listed.
Defined.

Lemma joining_own_room_raises_witness :
  run (handle_frame toy_checkpw toy_hash 0 alice_socket "JOIN:r1:PLAYER") waiting_state
  = Raise UnboundLocalError
      (with_rooms waiting_state
         (dict_set "r1" (update waiting_alone alice_socket "PLAYER") (rooms waiting_state)))
      [(alice_socket, "JOIN:ACKSTATUS:0")].
Proof.
  apply (joining_own_room_raises toy_checkpw toy_hash 0 alice_socket "JOIN:r1:PLAYER"
           "r1" "alice" waiting_alone waiting_state).
  - apply waiting_state_reachable.
  - reflexivity.
  - vm_compute. reflexivity.
  - reflexivity.
  - listed.
Defined.

Lemma room_outlives_creator_who_joined_it_witness :
  dict_get "r1"
    (rooms (play toy_checkpw toy_hash waiting_state
              [Frame 0 alice_socket "JOIN:r1:PLAYER"; Disconnect alice_socket]))
  = Some (update waiting_alone alice_socket "PLAYER").
Proof.
  apply (room_outlives_creator_who_joined_it toy_checkpw toy_hash 0 alice_socket
           "JOIN:r1:PLAYER" "r1" "alice" waiting_alone waiting_state).
  - apply waiting_state_reachable.
  - reflexivity.
  - vm_compute. reflexivity.
  - reflexivity.
  - listed.
  - vm_compute. reflexivity.
Defined.

Lemma room_list_matches_join_witness :
  ∃ reply,
    run (handle_frame toy_checkpw toy_hash 0 bob_socket "ROOMLIST:PLAYER") waiting_state
    = Ret tt waiting_state [(bob_socket, reply)].
Proof.
  destruct (room_list_matches_join toy_checkpw toy_hash 0 bob_socket "ROOMLIST:PLAYER"
              ["PLAYER"] waiting_state) as (reply & Hrun & _).
  - apply waiting_state_reachable.
  - vm_compute. reflexivity.
  - reflexivity.
  - exists reply. exact Hrun.
Defined.






Lemma client_reads_server_board_witness :
  Client.is_position_occupied
    (get_matrix_in_string (sample_room empty_matrix 0)) 1 2
  = Some (Some (occupancy (cell empty_matrix 2 1))).
Proof.
  apply (client_reads_server_board alice_socket 0 (sample_room empty_matrix 0) 1 2).
  - apply sample_room_lifetime.
  - lia.
  - lia.
Defined.

Lemma print_board_shows_marks_witness :
  Client.print_board (get_matrix_in_string (sample_room empty_matrix 0))
  = ([ Client.rule; "|   |   |   |"; Client.rule; "|   |   |   |"; Client.rule;
       "|   |   |   |"; Client.rule ], true).
Proof.
  apply (print_board_shows_marks alice_socket 0 (sample_room empty_matrix 0)).
  apply sample_room_lifetime.
Defined.


Lemma client_understands_lobby_replies_witness :
  ∃ message printed,
    hd_error (sent (run (handle_frame toy_checkpw toy_hash 0 alice_socket "CREATE:r1")
                      (play toy_checkpw toy_hash start_state opening)))
    = Some (alice_socket, message)
    ∧ Client.handle_outroom_message (py_strip message) (Some "alice") None (Some "r1")
      = Client.Returned (lobby_flags message) printed.
Proof.
  destruct (client_understands_lobby_replies toy_checkpw toy_hash 0 alice_socket "CREATE:r1"
              (play toy_checkpw toy_hash start_state opening) (Some "alice") None (Some "r1"))
    as (message & printed & Hfirst & Hclient & _).
  - right. right. right. left. reflexivity.
  - exists message, printed. split; [exact Hfirst | exact Hclient].
Defined.

Lemma get_another_player_other_witness :
  get_another_player (sample_room empty_matrix 0) alice_socket = Some bob_socket
  ∧ get_another_player (sample_room empty_matrix 0) bob_socket = Some alice_socket.
Proof.
  destruct (get_another_player_other (sample_room empty_matrix 0)
              alice_socket bob_socket carol_socket) as (H0 & H1 & _).
  - reflexivity.
  - discriminate.
  - split; [exact H0 | exact H1].
Defined.
